(** * Sabzee server: checkout, cart, order ledger and prediction gateway

    A shallow embedding of the route handlers and mongoose models of the
    Sabzee farmer-to-consumer marketplace backend, with the properties of
    its checkout / inventory flow.

    Conventions of the embedding:
    - document ids ([_id], [req.user.id], references) are the strings
      that [toString()] renders; only well-formed ids are modelled, so the
      [CastError] paths of ill-formed ids are outside the model;
    - JavaScript numbers that carry prices and quantities are exact
      integers ([Z]); confidences, coordinates and the factors of the
      local heuristics are exact rationals ([Q]), and the draws of
      [Math.random()] are inputs;
    - a collection is a finite map from id to document; the order ledger
      is a list, an order's handle being its position;
    - a handler is a function from the request and the database to the
      HTTP response and the database after the request. *)

From Stdlib Require Import QArith Qround Lqa.
From stdpp Require Import gmap strings list fin_maps pretty.

Set Warnings "-register-all".
Open Scope Z_scope.

(** ** JSON values of a request body *)

Inductive JsVal :=
| JUndefined
| JNull
| JNum (z : Z)
| JStr (s : string)
| JObj (fields : list (string * JsVal)).

(** [assoc k l]: own property lookup in an object literal, first match. *)
Fixpoint assoc {A} (k : string) (l : list (string * A)) : option A :=
  match l with
  | [] => None
  | (k', v) :: l' => if String.eqb k' k then Some v else assoc k l'
  end.

(** [v.prop] for a value that is neither [undefined] nor [null] (those
    throw a TypeError, [None] here). A string primitive has [length] and
    no other data property of its own. *)
Definition js_get (v : JsVal) (prop : string) : option JsVal :=
  match v with
  | JUndefined | JNull => None
  | JNum _ => Some JUndefined
  | JStr s => Some (if String.eqb prop "length"
                    then JNum (Z.of_nat (String.length s)) else JUndefined)
  | JObj fields => Some (default JUndefined (assoc prop fields))
  end.

(** mongoose's cast of a query value to an ObjectId: an id string is
    taken as it is, an object is cast through its [_id]. *)
Definition castObjectId (v : JsVal) : option string :=
  match v with
  | JStr s => Some s
  | JObj fields =>
      match assoc "_id" fields with
      | Some (JStr s) => Some s
      | _ => None
      end
  | _ => None
  end.

(** [!s] on an optional string: [undefined] and the empty string are falsy. *)
Definition truthy (s : option string) : bool :=
  match s with
  | Some s => negb (String.eqb s EmptyString)
  | None => false
  end.

(** ** models/Product.js *)

Module Product.

Inductive Status := available | sold_out.

Record rating := mkRating {
  r_user : string;
  r_rating : Z;
  r_review : string
}.

Record doc := mk {
  farmer : string;
  name : string;
  price : Z;
  quantity : Z;
  status : Status;
  ratings : list rating;
  averageRating : Q
}.

Definition set_quantity (q : Z) (p : doc) : doc :=
  mk (farmer p) (name p) (price p) q (status p) (ratings p) (averageRating p).

Definition set_status (s : Status) (p : doc) : doc :=
  mk (farmer p) (name p) (price p) (quantity p) s (ratings p) (averageRating p).

(** [productSchema.pre('save')]:
    [this.status = this.quantity > 0 ? 'available' : 'sold_out'] *)
Definition pre_save (this : doc) : doc :=
  set_status (if 0 <? quantity this then available else sold_out) this.

(** Schema validation that runs on [save]: [quantity: { min: 0 }]. *)
Definition validate (this : doc) : bool := 0 <=? quantity this.

(** [product.save()]: validation, then the pre-save hook; [None] is the
    ValidationError that [save] throws. *)
Definition save (this : doc) : option doc :=
  if validate this then Some (pre_save this) else None.

(** The invariant of the data model: the status follows the quantity,
    and the quantity is not negative. *)
Definition consistent (p : doc) : Prop :=
  0 <= quantity p /\ (status p = available <-> 0 < quantity p)
                  /\ (status p = sold_out <-> quantity p = 0).

End Product.

(** ** models/Cart.js: documents *)

Module Cart.

(** [cartItemSchema]: a subdocument with its own [_id]. *)
Record item := mkItem {
  _id : string;
  product : string;
  quantity : Z
}.

(** [cartSchema]: [user] is unique, one cart per user. *)
Record doc := mk {
  user : string;
  items : list item;
  total : Z
}.

Definition set_items (l : list item) (c : doc) : doc := mk (user c) l (total c).
Definition set_total (t : Z) (c : doc) : doc := mk (user c) (items c) t.

End Cart.

(** ** The request body shared by order creation and checkout *)

Record ShippingDetails := mkShipping {
  fullName : option string;
  address : option string;
  city : option string;
  state : option string;
  postalCode : option string;
  phoneNumber : option string
}.

(** The payment methods that the order routes enumerate. *)
Definition paymentMethods : list string :=
  ["cash-on-delivery"; "online"; "bank_transfer"]%string.

(** ** models/Order.js *)

Module Order.

Inductive Status :=
  pending | confirmed | processing | shipped | delivered | cancelled.

(** A line of the object literal given to [new Order]. *)
Record lineInit := mkLineInit {
  li_product : JsVal;
  li_quantity : Z;
  li_price : Z;
  li_name : string
}.

(** The object literal given to [new Order] by the two creating routes. *)
Record init := mkInit {
  i_consumer : string;
  i_farmer : JsVal;
  i_items : list lineInit;
  i_totalAmount : Z;
  i_paymentMethod : option string;
  i_shippingDetails : option ShippingDetails;
  i_notes : option string
}.

(** A stored line: the snapshot of product id, name, price and quantity. *)
Record line := mkLine {
  product : string;
  name : string;
  price : Z;
  quantity : Z
}.

Record doc := mk {
  consumer : string;
  farmer : string;
  items : list line;
  totalAmount : Z;
  status : Status;
  paymentMethod : string;
  shippingDetails : ShippingDetails;
  notes : option string;
  cancelReason : option string
}.

Definition castLine (l : lineInit) : option line :=
  pid ← castObjectId (li_product l);
  Some (mkLine pid (li_name l) (li_price l) (li_quantity l)).

Definition shippingComplete (s : ShippingDetails) : bool :=
  truthy (fullName s) && truthy (address s) && truthy (city s)
  && truthy (state s) && truthy (postalCode s) && truthy (phoneNumber s).

(** Modelled from the spec: the Order schema (models/Order.js), which is
    not part of the source tree. An order has a consumer, a single
    farmer reference, line items, a total, a status that starts as
    [pending], a payment method of the enumerated set, and shipping
    details of which every field is mandatory. [create] is
    [new Order(init)] followed by the validation that [save] runs;
    [None] is the error that [save] throws. *)
Definition create (i : init) : option doc :=
  f ← castObjectId (i_farmer i);
  ls ← mapM castLine (i_items i);
  pm ← i_paymentMethod i;
  sd ← i_shippingDetails i;
  if bool_decide (pm ∈ paymentMethods) && shippingComplete sd
  then Some (mk (i_consumer i) f ls (i_totalAmount i) pending pm sd
                (i_notes i) None)
  else None.

Definition set_status (s : Status) (reason : option string) (o : doc) : doc :=
  mk (consumer o) (farmer o) (items o) (totalAmount o) s (paymentMethod o)
     (shippingDetails o) (notes o) reason.

End Order.

(** ** models/Prediction.js and models/YieldPrediction.js *)

Module Prediction.

(** [predictionSchema] declares these four paths and no other: under
    mongoose's strict mode a key of the constructor argument that the
    schema does not declare is not part of the document. *)
Record doc := mk {
  farmerId : string;
  imageUrl : string;
  prediction : string;
  confidence : Q
}.

End Prediction.

Module YieldPrediction.

Record weatherData := mkWeather {
  temperature : Z;
  humidity : Z;
  rainfall : Z
}.

Record doc := mk {
  farmerId : string;
  location : Q * Q;
  crop : string;
  season : string;
  area_of_land : Q;
  soil_type : string;
  weather : weatherData;
  predicted_yield_kg : Z;
  suggested_crops : list string;
  confidence : Q;
  isMock : bool
}.

End YieldPrediction.

(** ** The database *)

Record Db := mkDb {
  products : gmap string Product.doc;
  carts : gmap string Cart.doc;        (* keyed by the unique [user] *)
  orders : list Order.doc;
  predictions : list Prediction.doc;
  yieldPredictions : list YieldPrediction.doc
}.

Definition set_products (ps : gmap string Product.doc) (db : Db) : Db :=
  mkDb ps (carts db) (orders db) (predictions db) (yieldPredictions db).
Definition set_carts (cs : gmap string Cart.doc) (db : Db) : Db :=
  mkDb (products db) cs (orders db) (predictions db) (yieldPredictions db).
Definition set_orders (os : list Order.doc) (db : Db) : Db :=
  mkDb (products db) (carts db) os (predictions db) (yieldPredictions db).
Definition set_predictions (l : list Prediction.doc) (db : Db) : Db :=
  mkDb (products db) (carts db) (orders db) l (yieldPredictions db).
Definition set_yieldPredictions (l : list YieldPrediction.doc) (db : Db) : Db :=
  mkDb (products db) (carts db) (orders db) (predictions db) l.

(** ** HTTP responses *)

Inductive Body :=
| BMessage (message : string)                 (* { message } *)
| BErrors (errors : list string)              (* { errors: [...] } *)
| BServiceError (message : string)            (* { message, error } *)
| BOrder (o : Order.doc)
| BOrders (os : list Order.doc)
| BCart (c : option Cart.doc)
| BProduct (p : option Product.doc)
| BPrediction (p : Prediction.doc)
| BYieldPrediction (p : YieldPrediction.doc).

Record Response := mkResponse {
  code : Z;
  body : Body
}.

(** ** Handlers: early return, exceptions and a threaded store *)

(** The exceptions that the modelled statements throw. An error of the
    HTTP client carries the [code] of a network failure, or the status of
    the response when the service answered with an error. *)
Inductive Exn :=
| ValidationError
| TypeError
| CastError
| AxiosError (code : string) (response : option Z).

Inductive Step (A : Type) :=
| Next (a : A)                (* fall through to the next statement *)
| Return (r : Response)       (* [return res.status(..).json(..)] *)
| Throw (e : Exn).
Arguments Next {A} a.
Arguments Return {A} r.
Arguments Throw {A} e.

Definition Handler (S A : Type) : Type := S → Step A * S.

#[global] Instance Handler_ret {S} : MRet (Handler S) :=
  λ A a s, (Next a, s).

#[global] Instance Handler_bind {S} : MBind (Handler S) :=
  λ A B f m s,
    match m s with
    | (Next a, s') => f a s'
    | (Return r, s') => (Return r, s')
    | (Throw e, s') => (Throw e, s')
    end.

Definition respond {S A} (c : Z) (b : Body) : Handler S A :=
  λ s, (Return (mkResponse c b), s).

Definition throw {S A} (e : Exn) : Handler S A := λ s, (Throw e, s).

Definition get {S} : Handler S S := λ s, (Next s, s).
Definition put {S} (s : S) : Handler S unit := λ _, (Next (), s).

(** The outer [try { .. } catch (err) { .. }] of a route: the handler
    body either returns a response or throws; [onError] is the catch
    block. Writes made before the exception stay in the store. *)
Definition route {S} (h : Handler S Empty_set) (onError : Exn → Response)
    (s : S) : Response * S :=
  match h s with
  | (Next a, _) => match a with end
  | (Return r, s') => (r, s')
  | (Throw e, s') => (onError e, s')
  end.

Definition serverError : Response := mkResponse 500 (BMessage "Server Error").

(** One validator of a route's chain ([check(field, msg)...]): the
    message it adds to [validationResult] when the field fails. *)
Definition check (ok : bool) (msg : string) : list string :=
  if ok then [] else [msg].

#[global] Instance rating_eq_dec : EqDecision Product.rating.
Proof. solve_decision. Defined.
#[global] Instance cart_item_eq_dec : EqDecision Cart.item.
Proof. solve_decision. Defined.
#[global] Instance cart_eq_dec : EqDecision Cart.doc.
Proof. solve_decision. Defined.
#[global] Instance order_status_eq_dec : EqDecision Order.Status.
Proof. solve_decision. Defined.
#[global] Instance product_status_eq_dec : EqDecision Product.Status.
Proof. solve_decision. Defined.

(** ** models/Cart.js: the pre-save hook and [removeItem] *)

(** The [reduce] of the hook over the populated items of [populatedCart]:
    an item whose product is gone, or whose price is falsy, adds nothing. *)
Definition populatedTotal (db : Db) (populatedCart : Cart.doc) : Z :=
  fold_left
    (λ sum item,
       match products db !! Cart.product item with
       | Some p => if negb (Product.price p =? 0)
                   then sum + Product.price p * Cart.quantity item
                   else sum
       | None => sum
       end)
    (Cart.items populatedCart) 0.

(** [cartSchema.pre('save')]. [populatedCart] is what [findOne] reads
    from the collection while the save is still pending, that is, the
    cart as it was stored before this save. *)
Definition cart_pre_save (db : Db) (isModified_items : bool)
    (this : Cart.doc) : Cart.doc :=
  if isModified_items then
    match carts db !! Cart.user this with
    | Some populatedCart =>
        if (0 <? length (Cart.items populatedCart))%nat
        then Cart.set_total (populatedTotal db populatedCart) this
        else Cart.set_total 0 this
    | None => Cart.set_total 0 this
    end
  else this.

(** Schema validation of a cart on save: [quantity: { min: 1 }]. *)
Definition cart_validate (this : Cart.doc) : bool :=
  forallb (λ item, 1 <=? Cart.quantity item) (Cart.items this).

(** [isModified('items')]: a new document has every path it was given
    marked as modified; a loaded one has [items] marked when a write
    changed it (mongoose does not mark a path that is set to a value
    deep-equal to the one it holds). *)
Definition isModified_items (loaded : option Cart.doc) (this : Cart.doc) : bool :=
  match loaded with
  | None => true
  | Some l => bool_decide (Cart.items l ≠ Cart.items this)
  end.

(** The document that [this.save()] stores, the hook reading [db]. *)
Definition cart_saved (db : Db) (loaded : option Cart.doc) (this : Cart.doc)
    : option Cart.doc :=
  if cart_validate this
  then Some (cart_pre_save db (isModified_items loaded this) this)
  else None.

Definition cart_save (loaded : option Cart.doc) (this : Cart.doc)
    : Handler Db Cart.doc :=
  λ db,
    match cart_saved db loaded this with
    | Some c => (Next c, set_carts (<[Cart.user c := c]> (carts db)) db)
    | None => (Throw ValidationError, db)
    end.

(** [cartSchema.methods.removeItem] *)
Definition removeItem (itemId : string) (this : Cart.doc) : Handler Db Cart.doc :=
  cart_save (Some this)
    (Cart.set_items
       (filter (λ item, Cart._id item ≠ itemId) (Cart.items this)) this).

(** ** routes/cart.js *)

Module CartRoute.

Definition onError (e : Exn) : Response :=
  match e with
  | CastError => mkResponse 400 (BMessage "Invalid item ID")
  | _ => mkResponse 500 (BMessage "Server error")
  end.

(** [Array.prototype.findIndex]: the first index whose element passes. *)
Fixpoint findIndex {A} (f : A → bool) (l : list A) : option nat :=
  match l with
  | [] => None
  | x :: l' => if f x then Some O else S <$> findIndex f l'
  end.

Definition set_quantity (q : Z) (i : Cart.item) : Cart.item :=
  Cart.mkItem (Cart._id i) (Cart.product i) q.

(** GET /api/cart *)
Definition get_cart (user : string) (db : Db) : Response * Db :=
  match carts db !! user with
  | Some cart => (mkResponse 200 (BCart (Some cart)), db)
  | None => (mkResponse 200 (BCart (Some (Cart.mk user [] 0))), db)
  end.

(** POST /api/cart. [productId] and [quantity] are the body;
    [newId] is the [_id] that mongoose gives a pushed subdocument. *)
Definition post_body (user : string) (productId : string) (quantity : Z)
    (newId : string) : Handler Db Empty_set :=
  db ← get;
  match products db !! productId with
  | None => respond 404 (BMessage "Product not found")
  | Some product =>
      if negb (bool_decide (Product.status product = Product.available))
      then respond 400 (BMessage "Product is not available")
      else if Product.quantity product <? quantity
      then respond 400 (BMessage "Not enough stock available")
      else
        let found := carts db !! user in
        let cart := default (Cart.mk user [] 0) found in
        let items' :=
          match findIndex (λ item, String.eqb (Cart.product item) productId)
                          (Cart.items cart) with
          | Some itemIndex => alter (set_quantity quantity) itemIndex (Cart.items cart)
          | None => Cart.items cart ++ [Cart.mkItem newId productId quantity]
          end in
        saved ← cart_save found (Cart.set_items items' cart);
        db' ← get;
        respond 200 (BCart (carts db' !! user))
  end.

Definition post (user : string) (productId : string) (quantity : Z)
    (newId : string) (db : Db) : Response * Db :=
  match check (negb (String.eqb productId EmptyString)) "Product ID is required"
        ++ check (1 <=? quantity) "Quantity must be at least 1" with
  | [] => route (post_body user productId quantity newId) onError db
  | errors => (mkResponse 400 (BErrors errors), db)
  end.

(** PUT /api/cart/:itemId *)
Definition put_body (user : string) (itemId : string) (quantity : Z)
    : Handler Db Empty_set :=
  db ← get;
  match carts db !! user with
  | None => respond 404 (BMessage "Cart not found")
  | Some cart =>
      match findIndex (λ item, String.eqb (Cart._id item) itemId)
                      (Cart.items cart) with
      | None => respond 404 (BMessage "Item not found in cart")
      | Some idx =>
          match (Cart.items cart !! idx) ≫= (λ item, products db !! Cart.product item) with
          | None => respond 404 (BMessage "Product no longer exists")
          | Some product =>
              if negb (bool_decide (Product.status product = Product.available))
              then respond 400 (BMessage "Product is not available")
              else if Product.quantity product <? quantity
              then respond 400 (BMessage "Not enough stock available")
              else
                saved ← cart_save (Some cart)
                  (Cart.set_items (alter (set_quantity quantity) idx (Cart.items cart)) cart);
                db' ← get;
                respond 200 (BCart (carts db' !! user))
          end
      end
  end.

Definition put (user : string) (itemId : string) (quantity : Z) (db : Db)
    : Response * Db :=
  match check (1 <=? quantity) "Quantity must be at least 1" with
  | [] => route (put_body user itemId quantity) onError db
  | errors => (mkResponse 400 (BErrors errors), db)
  end.

(** DELETE /api/cart/:itemId *)
Definition delete_body (user : string) (itemId : string) : Handler Db Empty_set :=
  db ← get;
  match carts db !! user with
  | None => respond 404 (BMessage "Cart not found")
  | Some cart =>
      saved ← removeItem itemId cart;
      db' ← get;
      respond 200 (BCart (carts db' !! user))
  end.

Definition delete (user : string) (itemId : string) (db : Db) : Response * Db :=
  route (delete_body user itemId) onError db.

End CartRoute.

(** ** routes/orders.js

    The source tree holds two revisions of this file. Their status
    update is the same text; their direct order creation differs in the
    names of the fields ([buyer] and [shippingAddress] in the older one)
    and in the validation chain, and takes the farmer of the order in
    the same way. The embedding follows the revision that has the
    checkout route. *)

Module OrdersRoute.

Definition onError (e : Exn) : Response := serverError.

(** *** POST /api/orders: direct order creation *)

Record itemReq := mkItemReq {
  ir_product : JsVal;
  ir_quantity : Z
}.

Record createReq := mkCreateReq {
  c_items : list itemReq;
  c_paymentMethod : option string;
  c_shippingDetails : option ShippingDetails;
  c_notes : option string
}.

(** express-validator's [isEmpty] on the value of a field. *)
Definition isEmpty (v : JsVal) : bool :=
  match v with
  | JUndefined | JNull => true
  | JStr s => String.eqb s EmptyString
  | _ => false
  end.

Definition shippingField (f : ShippingDetails → option string)
    (s : option ShippingDetails) : option string := s ≫= f.

(** The validation chain of the route, in its order. *)
Definition validate_create (r : createReq) : list string :=
  check (forallb (λ i, negb (isEmpty (ir_product i))) (c_items r))
        "Product ID is required"
  ++ check (bool_decide (default EmptyString (c_paymentMethod r) ∈ paymentMethods))
           "Payment method is required"
  ++ check (bool_decide (is_Some (c_shippingDetails r)))
           "Shipping details are required"
  ++ check (truthy (shippingField fullName (c_shippingDetails r)))
           "Full name is required"
  ++ check (truthy (shippingField address (c_shippingDetails r)))
           "Address is required"
  ++ check (truthy (shippingField city (c_shippingDetails r)))
           "City is required"
  ++ check (truthy (shippingField state (c_shippingDetails r)))
           "State is required"
  ++ check (truthy (shippingField postalCode (c_shippingDetails r)))
           "Postal code is required"
  ++ check (truthy (shippingField phoneNumber (c_shippingDetails r)))
           "Phone number is required".

Definition js_toString (v : JsVal) : string :=
  match v with
  | JUndefined => "undefined"
  | JNull => "null"
  | JNum z => pretty z
  | JStr s => s
  | JObj _ => "[object Object]"
  end.

(** [product.save()] outside a transaction. *)
Definition product_save (id : string) (p : Product.doc) : Handler Db unit :=
  λ db,
    match Product.save p with
    | Some p' => (Next (), set_products (<[id := p']> (products db)) db)
    | None => (Throw ValidationError, db)
    end.

(** The [for (const item of items)] loop: [totalAmount] and
    [validatedItems] are the two accumulators of the source. *)
Fixpoint validateItems (items : list itemReq) (totalAmount : Z)
    (validatedItems : list Order.lineInit)
    : Handler Db (Z * list Order.lineInit) :=
  match items with
  | [] => mret (totalAmount, validatedItems)
  | item :: rest =>
      db ← get;
      match castObjectId (ir_product item) with
      | None => throw CastError
      | Some id =>
          match products db !! id with
          | None =>
              respond 404
                (BMessage ("Product " +:+ js_toString (ir_product item) +:+ " not found"))
          | Some product =>
              if Product.quantity product <? ir_quantity item
              then respond 400
                     (BMessage ("Insufficient quantity for " +:+ Product.name product))
              else
                let validatedItems' :=
                  validatedItems ++
                    [Order.mkLineInit (ir_product item) (ir_quantity item)
                       (Product.price product) (Product.name product)] in
                let totalAmount' :=
                  totalAmount + Product.price product * ir_quantity item in
                _ ← product_save id
                      (Product.set_quantity
                         (Product.quantity product - ir_quantity item) product);
                validateItems rest totalAmount' validatedItems'
          end
      end
  end.

(** [validatedItems[0].product.farmer]: a TypeError when the list is
    empty or the product value is [undefined] or [null]. *)
Definition firstProductFarmer (validatedItems : list Order.lineInit)
    : option JsVal :=
  first ← head validatedItems;
  js_get (Order.li_product first) "farmer".

(** The statements of the route up to and including [new Order({..})]. *)
Definition build_order (user : string) (r : createReq)
    : Handler Db Order.init :=
  '(totalAmount, validatedItems) ← validateItems (c_items r) 0 [];
  match firstProductFarmer validatedItems with
  | None => throw TypeError
  | Some farmer =>
      mret (Order.mkInit user farmer validatedItems totalAmount
              (c_paymentMethod r) (c_shippingDetails r) (c_notes r))
  end.

(** [order.save()] of a new order. *)
Definition order_save (i : Order.init) : Handler Db Order.doc :=
  λ db,
    match Order.create i with
    | Some o => (Next o, set_orders (orders db ++ [o]) db)
    | None => (Throw ValidationError, db)
    end.

Definition create_body (user : string) (r : createReq) : Handler Db Empty_set :=
  i ← build_order user r;
  order ← order_save i;
  respond 201 (BOrder order).

Definition create (user : string) (r : createReq) (db : Db) : Response * Db :=
  match validate_create r with
  | [] => route (create_body user r) onError db
  | errors => (mkResponse 400 (BErrors errors), db)
  end.

(** *** PUT /api/orders/:id: status update *)

(** The values of [status] in a request body: one of the six names of
    the status enumeration, or any other string. *)
Inductive statusReq :=
| SName (s : Order.Status)
| SOther (s : string).

(** [isIn(['confirmed', 'processing', 'shipped', 'delivered', 'cancelled'])] *)
Definition updatable : list Order.Status :=
  [Order.confirmed; Order.processing; Order.shipped; Order.delivered;
   Order.cancelled].

(** Modelled from the spec: the validation that [order.save()] runs on
    an updated order (models/Order.js is not part of the source tree):
    a cancelled order requires a non-empty cancel reason. *)
Definition order_validate (o : Order.doc) : bool :=
  if bool_decide (Order.status o = Order.cancelled)
  then truthy (Order.cancelReason o)
  else true.

Definition setStatus_body (user : string) (id : nat) (st : Order.Status)
    (cancelReason : option string) : Handler Db Empty_set :=
  db ← get;
  match orders db !! id with
  | None => respond 404 (BMessage "Order not found")
  | Some order =>
      if bool_decide (Order.farmer order ≠ user)
      then respond 401 (BMessage "Not authorized")
      else
        let order' :=
          Order.set_status st
            (if bool_decide (st = Order.cancelled) then cancelReason
             else Order.cancelReason order) order in
        if order_validate order'
        then (_ ← put (set_orders (<[id := order']> (orders db)) db);
              respond 200 (BOrder order'))
        else throw ValidationError
  end.

(** [user] is [req.user.id], the farmer that the [protect] and
    [authorize('farmer')] middleware let through. *)
Definition setStatus (user : string) (id : nat) (st : statusReq)
    (cancelReason : option string) (db : Db) : Response * Db :=
  match st with
  | SName s =>
      if bool_decide (s ∈ updatable)
      then route (setStatus_body user id s cancelReason) onError db
      else (mkResponse 400 (BErrors ["Status is required"]), db)
  | SOther _ => (mkResponse 400 (BErrors ["Status is required"]), db)
  end.

End OrdersRoute.

(** ** routes/orders.js: POST /api/orders/checkout *)

Module Checkout.

Record checkoutReq := mkReq {
  paymentMethod : option string;
  shippingDetails : option ShippingDetails;
  notes : option string
}.

Inductive TxState := TxOpen | TxCommitted | TxAborted.

Inductive StoreOp :=
| FindCart (user : string)
| SaveProduct (id : string)
| SaveOrder (farmer : string)
| SaveCart (user : string).

(** The session of the handler. [committed] is the database that reads
    without a session see; [work] is the view inside the transaction,
    which the writes made with [{ session }] change; [log] lists the
    reads and writes of the handler in their order. *)
Record Tx := mkTx {
  committed : Db;
  work : Db;
  txState : TxState;
  log : list StoreOp
}.

(** [mongoose.startSession(); session.startTransaction()] *)
Definition startTransaction (db : Db) : Tx := mkTx db db TxOpen [].

Definition commitTransaction : Handler Tx unit :=
  λ tx, (Next (), mkTx (committed tx) (work tx) TxCommitted (log tx)).

Definition abortTransaction (tx : Tx) : Tx :=
  mkTx (committed tx) (work tx) TxAborted (log tx).

(** The database once the request is over. Only a committed transaction
    publishes its writes: an aborted one drops them, and so does one
    that the handler leaves open when it returns early, which the
    server discards when the session expires. *)
Definition after (tx : Tx) : Db :=
  match txState tx with
  | TxCommitted => work tx
  | TxOpen | TxAborted => committed tx
  end.

Definition logOp (op : StoreOp) (tx : Tx) : Tx :=
  mkTx (committed tx) (work tx) (txState tx) (log tx ++ [op]).

Definition write (f : Db → Db) (op : StoreOp) (tx : Tx) : Tx :=
  mkTx (committed tx) (f (work tx)) (txState tx) (log tx ++ [op]).

(** [Cart.findOne({ user }).populate('items.product')] *)
Definition findCart (user : string) : Handler Tx (option Cart.doc) :=
  λ tx, (Next (carts (committed tx) !! user), logOp (FindCart user) tx).

(** The populated product of a cart item: one document per product id,
    shared by the items that refer to it, so that it shows the
    decrements already made by this handler. *)
Definition populated (productId : string) : Handler Tx (option Product.doc) :=
  λ tx, (Next (products (work tx) !! productId), tx).

(** [product.save({ session })] *)
Definition product_save (id : string) (p : Product.doc) : Handler Tx unit :=
  λ tx,
    match Product.save p with
    | Some p' =>
        (Next (), write (λ db, set_products (<[id := p']> (products db)) db)
                        (SaveProduct id) tx)
    | None => (Throw ValidationError, tx)
    end.

(** [order.save({ session })] *)
Definition order_save (i : Order.init) : Handler Tx Order.doc :=
  λ tx,
    match Order.create i with
    | Some o =>
        (Next o, write (λ db, set_orders (orders db ++ [o]) db)
                       (SaveOrder (Order.farmer o)) tx)
    | None => (Throw ValidationError, tx)
    end.

(** [cart.save({ session })]: the pre-save hook queries without the
    session, so it reads the committed collections. *)
Definition cart_save (loaded : Cart.doc) (this : Cart.doc) : Handler Tx unit :=
  λ tx,
    match cart_saved (committed tx) (Some loaded) this with
    | Some c =>
        (Next (), write (λ db, set_carts (<[Cart.user c := c]> (carts db)) db)
                        (SaveCart (Cart.user c)) tx)
    | None => (Throw ValidationError, tx)
    end.

(** [itemsByFarmer]: an object used as a map from farmer id to an array
    of lines. Its keys are ObjectId strings, which [for .. in]
    enumerates in insertion order. *)
Definition Groups : Type := list (string * list Order.lineInit).

(** [if (!itemsByFarmer[farmerId]) itemsByFarmer[farmerId] = [];
     itemsByFarmer[farmerId].push(line)] *)
Fixpoint push (farmerId : string) (line : Order.lineInit)
    (itemsByFarmer : Groups) : Groups :=
  match itemsByFarmer with
  | [] => [(farmerId, [line])]
  | (k, lines) :: rest =>
      if String.eqb k farmerId
      then (k, lines ++ [line]) :: rest
      else (k, lines) :: push farmerId line rest
  end.

Definition insufficient (name : string) (available requested : Z) : string :=
  "Insufficient quantity for " +:+ name +:+ ". Available: "
    +:+ pretty available +:+ ", Requested: " +:+ pretty requested.

(** The line that the handler records for a cart item. *)
Definition snapshot (cartItem : Cart.item) (product : Product.doc)
    : Order.lineInit :=
  Order.mkLineInit (JStr (Cart.product cartItem)) (Cart.quantity cartItem)
    (Product.price product) (Product.name product).

(** The [for (const cartItem of cart.items)] loop. *)
Fixpoint groupItems (items : list Cart.item) (itemsByFarmer : Groups)
    : Handler Tx Groups :=
  match items with
  | [] => mret itemsByFarmer
  | cartItem :: rest =>
      product ← populated (Cart.product cartItem);
      match product with
      | None => respond 404 (BMessage "Product not found")
      | Some product =>
          if Product.quantity product <? Cart.quantity cartItem
          then respond 400
                 (BMessage (insufficient (Product.name product)
                              (Product.quantity product) (Cart.quantity cartItem)))
          else
            let farmerId := Product.farmer product in
            let itemsByFarmer' :=
              push farmerId (snapshot cartItem product) itemsByFarmer in
            _ ← product_save (Cart.product cartItem)
                  (Product.set_quantity
                     (Product.quantity product - Cart.quantity cartItem) product);
            groupItems rest itemsByFarmer'
      end
  end.

(** [farmerItems.reduce((total, item) => total + item.price * item.quantity, 0)] *)
Definition farmerTotal (farmerItems : list Order.lineInit) : Z :=
  fold_left (λ total item, total + Order.li_price item * Order.li_quantity item)
            farmerItems 0.

(** The [for (const farmerId in itemsByFarmer)] loop. *)
Fixpoint createOrders (user : string) (r : checkoutReq)
    (itemsByFarmer : Groups) (orders : list Order.doc)
    : Handler Tx (list Order.doc) :=
  match itemsByFarmer with
  | [] => mret orders
  | (farmerId, farmerItems) :: rest =>
      order ← order_save
                (Order.mkInit user (JStr farmerId) farmerItems
                   (farmerTotal farmerItems) (paymentMethod r)
                   (shippingDetails r) (notes r));
      createOrders user r rest (orders ++ [order])
  end.

(** The [// Validate input] guards of the handler. *)
Definition validate (r : checkoutReq) : option string :=
  if negb (truthy (paymentMethod r))
  then Some "Payment method is required"%string
  else if negb (truthy (shippingDetails r ≫= address))
  then Some "Shipping details are required"%string
  else None.

Definition body (user : string) (r : checkoutReq) : Handler Tx Empty_set :=
  match validate r with
  | Some message => respond 400 (BMessage message)
  | None =>
      found ← findCart user;
      match found with
      | None => respond 400 (BMessage "Your cart is empty")
      | Some cart =>
          if bool_decide (Cart.items cart = [])
          then respond 400 (BMessage "Your cart is empty")
          else
            itemsByFarmer ← groupItems (Cart.items cart) [];
            orders ← createOrders user r itemsByFarmer [];
            _ ← cart_save cart (Cart.set_items [] cart);
            _ ← commitTransaction;
            respond 201 (BOrders orders)
      end
  end.

(** The handler: the session is started first, and the catch block
    aborts the transaction. *)
Definition checkout (user : string) (r : checkoutReq) (db : Db)
    : Response * Tx :=
  match body user r (startTransaction db) with
  | (Next a, _) => match a with end
  | (Return resp, tx) => (resp, tx)
  | (Throw _, tx) => (serverError, abortTransaction tx)
  end.

End Checkout.

(** ** routes/products.js

    The paths of a product that no modelled route reads (description,
    category, unit, images, dates, certifications) are left out of
    [Product.doc] and of the request bodies. *)

Module ProductsRoute.

Definition onError (e : Exn) : Response := serverError.

(** POST /api/products. [newId] is the [_id] of the new document. *)
Definition create_body (user : string) (name : string) (price quantity : Z)
    (newId : string) : Handler Db Empty_set :=
  db ← get;
  match Product.save (Product.mk user name price quantity Product.available [] 0%Q) with
  | None => throw ValidationError
  | Some product =>
      _ ← put (set_products (<[newId := product]> (products db)) db);
      respond 201 (BProduct (Some product))
  end.

Definition create (user : string) (name : string) (price quantity : Z)
    (newId : string) (db : Db) : Response * Db :=
  match check (negb (String.eqb name EmptyString)) "Name is required" with
  | [] => route (create_body user name price quantity newId) onError db
  | errors => (mkResponse 400 (BErrors errors), db)
  end.

(** The body of PUT /api/products/:id: every key is optional, and every
    key that is present is written. *)
Record updateReq := mkUpdate {
  u_name : option string;
  u_price : option Z;
  u_quantity : option Z;
  u_status : option Product.Status
}.

(** [Product.findByIdAndUpdate(id, { $set: updateData }, { new: true })]:
    the update is applied by the database, neither the validators of
    the schema nor the save hooks run. *)
Definition findByIdAndUpdate (id : string) (r : updateReq) (db : Db)
    : option Product.doc * Db :=
  match products db !! id with
  | None => (None, db)
  | Some p =>
      let p' := Product.mk (Product.farmer p)
                  (default (Product.name p) (u_name r))
                  (default (Product.price p) (u_price r))
                  (default (Product.quantity p) (u_quantity r))
                  (default (Product.status p) (u_status r))
                  (Product.ratings p) (Product.averageRating p) in
      (Some p', set_products (<[id := p']> (products db)) db)
  end.

Definition update_body (user : string) (id : string) (r : updateReq)
    : Handler Db Empty_set :=
  db ← get;
  match products db !! id with
  | None => respond 404 (BMessage "Product not found")
  | Some product =>
      if bool_decide (Product.farmer product ≠ user)
      then respond 401 (BMessage "Not authorized")
      else
        let '(product', db') := findByIdAndUpdate id r db in
        _ ← put db';
        respond 200 (BProduct product')
  end.

Definition update (user : string) (id : string) (r : updateReq) (db : Db)
    : Response * Db :=
  match check (negb (bool_decide (u_name r = Some EmptyString)))
          "Name is required" with
  | [] => route (update_body user id r) onError db
  | errors => (mkResponse 400 (BErrors errors), db)
  end.

(** POST /api/products/:id/rate *)
Definition rate_body (user : string) (id : string) (rating : Z)
    (review : string) : Handler Db Empty_set :=
  db ← get;
  match products db !! id with
  | None => respond 404 (BMessage "Product not found")
  | Some product =>
      let mine := λ r, String.eqb (Product.r_user r) user in
      let ratings' :=
        match CartRoute.findIndex mine (Product.ratings product) with
        | Some i => <[i := Product.mkRating user rating review]> (Product.ratings product)
        | None => Product.ratings product ++ [Product.mkRating user rating review]
        end in
      let totalRatings :=
        fold_left (λ acc item, acc + Product.r_rating item) ratings' 0 in
      let product' :=
        Product.mk (Product.farmer product) (Product.name product)
          (Product.price product) (Product.quantity product)
          (Product.status product) ratings'
          (inject_Z totalRatings / inject_Z (Z.of_nat (length ratings')))%Q in
      match Product.save product' with
      | None => throw ValidationError
      | Some saved =>
          _ ← put (set_products (<[id := saved]> (products db)) db);
          respond 200 (BProduct (Some saved))
      end
  end.

Definition rate (user : string) (id : string) (rating : Z) (review : string)
    (db : Db) : Response * Db :=
  match check ((1 <=? rating) && (rating <=? 5)) "Rating must be between 1 and 5"
        ++ check (negb (String.eqb review EmptyString)) "Review is required" with
  | [] => route (rate_body user id rating review) onError db
  | errors => (mkResponse 400 (BErrors errors), db)
  end.

End ProductsRoute.

(** ** The prediction gateway: routes/predictions.js and
       routes/yield-predictions.js *)

Module Gateway.

(** What the external scoring service does with one request: it
    answers after [latency] milliseconds with an HTTP status and a
    body, or the connection fails with an error code. *)
Inductive Remote (D : Type) :=
| Replies (latency : Z) (status : Z) (data : D)
| Fails (code : string).
Arguments Replies {D} latency status data.
Arguments Fails {D} code.

(** [axios.post(url, body, { timeout })]: a reply later than the
    timeout is the error [ECONNABORTED], a status outside 2xx an error
    that carries the response. *)
Definition axios_post {D} (remote : Remote D) (timeout : Z) : Exn + D :=
  match remote with
  | Replies latency status data =>
      if timeout <? latency then inl (AxiosError "ECONNABORTED" None)
      else if (200 <=? status) && (status <? 300) then inr data
      else inl (AxiosError "ERR_BAD_RESPONSE" (Some status))
  | Fails code => inl (AxiosError code None)
  end.

(** The outer catch block, the same in both routes. *)
Definition onError (e : Exn) : Response :=
  match e with
  | AxiosError _ (Some status) => mkResponse status (BServiceError "AI Service Error")
  | AxiosError code None =>
      if String.eqb code "ECONNREFUSED"
      then mkResponse 503 (BServiceError "AI Service Unavailable")
      else serverError
  | _ => serverError
  end.

(** [const USE_MOCK_API = true] *)
Definition USE_MOCK_API : bool := true.

(** [Math.random()]: the k-th draw of a request. *)
Definition Random : Type := nat → Q.

(** [Math.round]: the nearest integer, a half going up. *)
Definition round (x : Q) : Z := Qfloor (x + (1 # 2)).

(** [list[Math.floor(r * list.length)]] *)
Definition pick (l : list string) (r : Q) : string :=
  default "undefined"%string
    (l !! Z.to_nat (Qfloor (r * inject_Z (Z.of_nat (length l))))).

Definition inUnit (c : Q) : bool := Qle_bool 0 c && Qle_bool c 1.

(** *** POST /api/predictions *)

Record flaskDisease := mkFlaskDisease {
  fd_crop : string;
  fd_prediction : string;
  fd_confidence : Q;
  fd_is_mock : bool
}.

Definition cropTypes : list string :=
  ["Rice"; "Wheat"; "Maize"; "Tomato"; "Potato"; "Cotton"; "Sugarcane"]%string.

(** [Object.keys(cropDiseases)] *)
Definition cropDiseases : list string :=
  ["Healthy"; "Bacterial Leaf Blight"; "Blast Disease"; "Brown Spot";
   "Downy Mildew"; "Powdery Mildew"; "Rust"; "Septoria Leaf Spot";
   "Verticillium Wilt"; "Fusarium Wilt"]%string.

Definition generateMockDiseasePrediction (rnd : Random) : string * Q :=
  let cropType := pick cropTypes (rnd 0%nat) in
  let isHealthy := negb (Qle_bool (rnd 1%nat) (7 # 10)) in
  let '(prediction, confidence) :=
    if isHealthy
    then ("Healthy"%string, ((85 # 100) + rnd 2%nat * (1 # 10))%Q)
    else
      let diseaseKeys := filter (λ key, key ≠ "Healthy"%string) cropDiseases in
      (pick diseaseKeys (rnd 2%nat), ((7 # 10) + rnd 3%nat * (2 # 10))%Q) in
  (cropType +:+ " - " +:+ prediction, confidence).

(** Validation of a [Prediction] on save: the required paths, and
    [confidence: { min: 0, max: 1 }]. *)
Definition prediction_validate (p : Prediction.doc) : bool :=
  negb (String.eqb (Prediction.imageUrl p) EmptyString)
  && negb (String.eqb (Prediction.prediction p) EmptyString)
  && inUnit (Prediction.confidence p).

Definition prediction_save (p : Prediction.doc) : Handler Db unit :=
  λ db,
    if prediction_validate p
    then (Next (), set_predictions (predictions db ++ [p]) db)
    else (Throw ValidationError, db).

(** [predictionResult]: the object that the inner try / catch builds. *)
Record diseaseResult := mkDiseaseResult {
  dr_prediction : string;
  dr_confidence : Q;
  dr_isMock : bool
}.

(** The inner [try { .. } catch (apiError) { .. }]; the second
    component is the variable [isMockPrediction]. *)
Definition diseaseAttempt (useMock : bool) (remote : Remote flaskDisease)
    (rnd : Random) : Handler Db (diseaseResult * bool) :=
  match axios_post remote 15000 with
  | inr data =>
      let isMockPrediction := fd_is_mock data in
      mret (mkDiseaseResult (fd_crop data +:+ " - " +:+ fd_prediction data)
              (fd_confidence data) isMockPrediction, isMockPrediction)
  | inl apiError =>
      if useMock
      then
        let mockResult := generateMockDiseasePrediction rnd in
        mret (mkDiseaseResult (fst mockResult) (snd mockResult) true, true)
      else throw apiError
  end.

(** [new Prediction({ farmerId, imageUrl, prediction, confidence,
    isMock })]: the schema of [Prediction] declares no [isMock] path,
    so the document has none. *)
Definition newPrediction (user imageUrl : string) (r : diseaseResult)
    (isMock : bool) : Prediction.doc :=
  Prediction.mk user imageUrl (dr_prediction r) (dr_confidence r).

Definition predict_body (useMock : bool) (user imageUrl : string)
    (remote : Remote flaskDisease) (rnd : Random) : Handler Db Empty_set :=
  '(predictionResult, isMockPrediction) ← diseaseAttempt useMock remote rnd;
  let predictionDoc := newPrediction user imageUrl predictionResult isMockPrediction in
  _ ← prediction_save predictionDoc;
  respond 200 (BPrediction predictionDoc).

(** [isURL] is the check of express-validator on [imageUrl]. *)
Definition predict_with (useMock : bool) (isURL : string → bool)
    (user imageUrl : string) (remote : Remote flaskDisease) (rnd : Random)
    (db : Db) : Response * Db :=
  match check (isURL imageUrl) "Image URL is required" with
  | [] => route (predict_body useMock user imageUrl remote rnd) onError db
  | errors => (mkResponse 400 (BErrors errors), db)
  end.

Definition predict := predict_with USE_MOCK_API.

(** *** POST /api/yield-predictions *)

Record yieldReq := mkYieldReq {
  latitude : Q;
  longitude : Q;
  crop : string;
  season : string;
  area_of_land : Q;
  soil_type : string
}.

Record flaskYield := mkFlaskYield {
  fy_predicted_yield_kg : Z;
  fy_suggested_crops : list string;
  fy_confidence : Q;
  fy_weather : YieldPrediction.weatherData;
  fy_is_mock : bool
}.

Definition seasons : list string := ["Rabi"; "Kharif"; "Zaid"]%string.

(** [getWeatherData]: three draws. *)
Definition getWeatherData (rnd : Random) : YieldPrediction.weatherData :=
  YieldPrediction.mkWeather
    (round (20 + rnd 0%nat * 15))
    (round (40 + rnd 1%nat * 40))
    (round (50 + rnd 2%nat * 150)).

Definition cropBaseYields : list (string * Z) :=
  [("Rice", 4000); ("Wheat", 3500); ("Maize", 5000); ("Sugarcane", 70000);
   ("Cotton", 500); ("Soybeans", 2500); ("Potatoes", 25000);
   ("Tomatoes", 40000); ("Onions", 20000); ("Chillies", 15000);
   ("Default", 3000)]%string.

Definition seasonMultipliers : list (string * Q) :=
  [("Rabi", 12 # 10); ("Kharif", 1); ("Zaid", 8 # 10)]%string%Q.

Definition soilMultipliers : list (string * Q) :=
  [("Loamy", 12 # 10); ("Clay", 1); ("Sandy", 8 # 10); ("Silt", 11 # 10);
   ("Black", 13 # 10); ("Red", 9 # 10)]%string%Q.

Definition getWeatherMultiplier (weather : YieldPrediction.weatherData) : Q :=
  let m0 := 1%Q in
  let m1 :=
    if YieldPrediction.temperature weather <? 15 then (m0 * (7 # 10))%Q
    else if 35 <? YieldPrediction.temperature weather then (m0 * (8 # 10))%Q
    else m0 in
  let m2 :=
    if YieldPrediction.humidity weather <? 30 then (m1 * (9 # 10))%Q
    else if 90 <? YieldPrediction.humidity weather then (m1 * (85 # 100))%Q
    else m1 in
  if YieldPrediction.rainfall weather <? 50 then (m2 * (7 # 10))%Q
  else if 300 <? YieldPrediction.rainfall weather then (m2 * (8 # 10))%Q
  else m2.

(** The [for (let i = 0; i < numSuggestions; i++)] loop; [k] is the
    index of the next draw. *)
Fixpoint suggest (n k : nat) (rnd : Random) (allCrops : list string)
    (crop : string) (suggested_crops : list string) : list string :=
  match n with
  | O => suggested_crops
  | S n' =>
      let suggestedCrop := pick allCrops (rnd k) in
      suggest n' (S k) rnd allCrops crop
        (if bool_decide (suggestedCrop ≠ crop)
            && negb (bool_decide (suggestedCrop ∈ suggested_crops))
         then suggested_crops ++ [suggestedCrop]
         else suggested_crops)
  end.

Record mockYield := mkMockYield {
  my_predicted_yield_kg : Z;
  my_suggested_crops : list string;
  my_confidence : Q
}.

(** [generateMockPrediction]; its draws follow the three of
    [getWeatherData]. *)
Definition generateMockPrediction (rnd : Random) (r : yieldReq)
    (weather : YieldPrediction.weatherData) : mockYield :=
  let baseYield :=
    match assoc (crop r) cropBaseYields with
    | Some y => y
    | None => 3000
    end in
  let seasonMultiplier := default 1%Q (assoc (season r) seasonMultipliers) in
  let soilMultiplier := default 1%Q (assoc (soil_type r) soilMultipliers) in
  let weatherMultiplier := getWeatherMultiplier weather in
  let predicted_yield_kg :=
    round (inject_Z baseYield * seasonMultiplier * soilMultiplier
           * weatherMultiplier * (area_of_land r / 10)) in
  let confidence := ((7 # 10) + rnd 3%nat * (25 # 100))%Q in
  let allCrops := filter (λ c, c ≠ "Default"%string) (cropBaseYields.*1) in
  let numSuggestions := Z.to_nat (Qfloor (2 + rnd 4%nat * 2)) in
  mkMockYield predicted_yield_kg
    (suggest numSuggestions 5 rnd allCrops (crop r) [])
    confidence.

Record yieldResult := mkYieldResult {
  yr_predicted_yield_kg : Z;
  yr_suggested_crops : list string;
  yr_confidence : Q;
  yr_weather : YieldPrediction.weatherData
}.

Definition yieldAttempt (useMock : bool) (r : yieldReq)
    (remote : Remote flaskYield) (rnd : Random)
    : Handler Db (yieldResult * bool) :=
  match axios_post remote 15000 with
  | inr data =>
      mret (mkYieldResult (fy_predicted_yield_kg data) (fy_suggested_crops data)
              (fy_confidence data) (fy_weather data), fy_is_mock data)
  | inl apiError =>
      if useMock
      then
        let weatherData := getWeatherData rnd in
        let mockResult := generateMockPrediction rnd r weatherData in
        mret (mkYieldResult (my_predicted_yield_kg mockResult)
                (my_suggested_crops mockResult) (my_confidence mockResult)
                weatherData, true)
      else throw apiError
  end.

Definition newYieldPrediction (user : string) (r : yieldReq)
    (res : yieldResult) (isMock : bool) : YieldPrediction.doc :=
  YieldPrediction.mk user (latitude r, longitude r) (crop r) (season r)
    (area_of_land r) (soil_type r) (yr_weather res)
    (yr_predicted_yield_kg res) (yr_suggested_crops res) (yr_confidence res)
    isMock.

Definition yield_validate (p : YieldPrediction.doc) : bool :=
  negb (String.eqb (YieldPrediction.crop p) EmptyString)
  && bool_decide (YieldPrediction.season p ∈ seasons)
  && negb (String.eqb (YieldPrediction.soil_type p) EmptyString)
  && inUnit (YieldPrediction.confidence p).

Definition yield_save (p : YieldPrediction.doc) : Handler Db unit :=
  λ db,
    if yield_validate p
    then (Next (), set_yieldPredictions (yieldPredictions db ++ [p]) db)
    else (Throw ValidationError, db).

Definition yield_body (useMock : bool) (user : string) (r : yieldReq)
    (remote : Remote flaskYield) (rnd : Random) : Handler Db Empty_set :=
  '(predictionResult, isMockPrediction) ← yieldAttempt useMock r remote rnd;
  let yieldPrediction := newYieldPrediction user r predictionResult isMockPrediction in
  _ ← yield_save yieldPrediction;
  respond 200 (BYieldPrediction yieldPrediction).

Definition validate_yield (r : yieldReq) : list string :=
  check (negb (String.eqb (crop r) EmptyString)) "Crop name is required"
  ++ check (bool_decide (season r ∈ seasons)) "Season is required"
  ++ check (negb (String.eqb (soil_type r) EmptyString)) "Soil type is required".

Definition yield_with (useMock : bool) (user : string) (r : yieldReq)
    (remote : Remote flaskYield) (rnd : Random) (db : Db) : Response * Db :=
  match validate_yield r with
  | [] => route (yield_body useMock user r remote rnd) onError db
  | errors => (mkResponse 400 (BErrors errors), db)
  end.


End Gateway.

(** ** Specification-level vocabulary for the checkout properties *)

Definition Zsum (l : list Z) : Z := foldr Z.add 0 l.

(** The farmers that own the products of the items of a cart. *)
Definition farmersOf (ps : gmap string Product.doc) (items : list Cart.item)
    : list string :=
  omap (λ it, Product.farmer <$> ps !! Cart.product it) items.


(** The value of a cart: the sum of price times quantity over its items. *)
Definition cartValue (ps : gmap string Product.doc) (items : list Cart.item) : Z :=
  Zsum (omap (λ it, (λ p, Product.price p * Cart.quantity it) <$> ps !! Cart.product it)
             items).


(** A request that meets the contract of checkout: a payment method of
    the enumerated set and complete shipping details. *)
Definition wellFormed (r : Checkout.checkoutReq) : Prop :=
  ∃ pm sd, Checkout.paymentMethod r = Some pm ∧ pm ∈ paymentMethods
           ∧ Checkout.shippingDetails r = Some sd
           ∧ Order.shippingComplete sd = true.

(** One line per product: the invariant of a cart that the cart routes
    maintain. *)
Definition oneLinePerProduct (items : list Cart.item) : Prop :=
  NoDup (Cart.product <$> items).

(** ** Pure descriptions of the two loops of checkout *)

Section CheckoutLoops.
Import Checkout.

(** [itemsByFarmer] after the grouping loop has run over [items],
    products being resolved in [ps]. *)
Definition grouped (ps : gmap string Product.doc) (items : list Cart.item)
    (g : Groups) : Groups :=
  fold_left
    (λ g it,
       match ps !! Cart.product it with
       | Some p => push (Product.farmer p) (snapshot it p) g
       | None => g
       end)
    items g.

(** The product collection after the grouping loop has saved the
    decrement of every item. *)
Definition reserved (ps : gmap string Product.doc) (items : list Cart.item)
    (m : gmap string Product.doc) : gmap string Product.doc :=
  fold_left
    (λ m it,
       match ps !! Cart.product it with
       | Some p =>
           <[Cart.product it :=
               Product.pre_save
                 (Product.set_quantity (Product.quantity p - Cart.quantity it) p)]> m
       | None => m
       end)
    items m.

(** [itemsByFarmer[f]], the empty array when the key is absent. *)
Definition linesOf (f : string) (g : Groups) : list Order.lineInit :=
  default [] (assoc f g).

(** The lines that the loop records for farmer [f]. *)
Definition initLines (ps : gmap string Product.doc) (f : string)
    (items : list Cart.item) : list Order.lineInit :=
  omap (λ it,
          p ← ps !! Cart.product it;
          if bool_decide (Product.farmer p = f) then Some (snapshot it p) else None)
       items.

(** The stored line of a recorded line. *)
Definition toLine (l : Order.lineInit) : Order.line :=
  Order.mkLine (default EmptyString (castObjectId (Order.li_product l)))
    (Order.li_name l) (Order.li_price l) (Order.li_quantity l).

(** The order that the second loop creates for one entry of
    [itemsByFarmer]. *)
Definition orderOf (user : string) (pm : string) (sd : ShippingDetails)
    (notes : option string) (entry : string * list Order.lineInit) : Order.doc :=
  Order.mk user entry.1 (toLine <$> entry.2) (farmerTotal entry.2)
    Order.pending pm sd notes None.


End CheckoutLoops.

(** The invariant of the cart collection: a cart is stored under its
    user, has one line per product, and passes the schema validation. *)
Definition cartsWellFormed (db : Db) : Prop :=
  ∀ u c, carts db !! u = Some c →
    Cart.user c = u ∧ oneLinePerProduct (Cart.items c) ∧ cart_validate c = true.

(** ** Concrete data for the examples *)

Module Ex.

Open Scope string_scope.

Definition apples : Product.doc :=
  Product.mk "F1" "apples" 10 5 Product.available [] 0%Q.
Definition beets : Product.doc :=
  Product.mk "F2" "beets" 5 1 Product.available [] 0%Q.
Definition chard : Product.doc :=
  Product.mk "F1" "chard" 4 3 Product.available [] 0%Q.

Definition catalog : gmap string Product.doc :=
  <["A" := apples]> (<["B" := beets]> (<["C" := chard]> ∅)).

Definition ship : ShippingDetails :=
  mkShipping (Some "Asha Rao") (Some "12 Mill Road") (Some "Pune")
    (Some "MH") (Some "411001") (Some "5550100").

Definition req : Checkout.checkoutReq :=
  Checkout.mkReq (Some "online") (Some ship) None.

(** A consumer with two lines from two farmers. *)
Definition cart2 : Cart.doc :=
  Cart.mk "u1" [Cart.mkItem "i1" "A" 2; Cart.mkItem "i2" "B" 1] 25.

Definition db2 : Db := mkDb catalog {["u1" := cart2]} [] [] [].

(** A consumer who asks for five of a product of which three are left. *)
Definition cart5 : Cart.doc :=
  Cart.mk "u1" [Cart.mkItem "i1" "A" 2; Cart.mkItem "i3" "C" 5] 40.

Definition db5 : Db := mkDb catalog {["u1" := cart5]} [] [] [].

(** No cart yet. *)
Definition db0 : Db := mkDb catalog ∅ [] [] [].

Definition order (s : Order.Status) : Order.doc :=
  Order.mk "u1" "F1" [Order.mkLine "A" "apples" 10 2] 20 s "online" ship
    None None.

Definition ledger (s : Order.Status) : Db := mkDb catalog ∅ [order s] [] [].

(** A body that names a payment method outside the enumerated set and
    gives an address only. *)
Definition addressOnly : ShippingDetails :=
  mkShipping None (Some "12 Mill Road") None None None None.

Definition badReq : Checkout.checkoutReq :=
  Checkout.mkReq (Some "bitcoin") (Some addressOnly) None.

Definition directReq : OrdersRoute.createReq :=
  OrdersRoute.mkCreateReq
    [OrdersRoute.mkItemReq (JStr "A") 2; OrdersRoute.mkItemReq (JStr "B") 1]
    (Some "online") (Some ship) None.

Definition yreq : Gateway.yieldReq :=
  Gateway.mkYieldReq (185 # 10) (739 # 10) "Rice" "Kharif" 20 "Loamy".

Definition draws : Gateway.Random := λ _, (1 # 2)%Q.

Definition sample : Gateway.flaskYield :=
  Gateway.mkFlaskYield 9000 ["Wheat"] (9 # 10)
    (YieldPrediction.mkWeather 25 60 100) false.

Definition leaf : Gateway.flaskDisease :=
  Gateway.mkFlaskDisease "Rice" "Rust" (9 # 10) false.

End Ex.

(** ** Vocabulary for the properties of the other routes *)

(** What a status update may change between the ledger before and the
    ledger after: nothing outside the order of the given id, and in that
    order the status and, for a cancellation, the cancel reason. *)
Definition statusFrame (id : nat) (st : OrdersRoute.statusReq)
    (reason : option string) (db db' : Db) : Prop :=
  length (orders db') = length (orders db)
  ∧ products db' = products db ∧ carts db' = carts db
  ∧ predictions db' = predictions db
  ∧ yieldPredictions db' = yieldPredictions db
  ∧ (∀ j, j ≠ id → orders db' !! j = orders db !! j)
  ∧ (∀ o o', orders db !! id = Some o → orders db' !! id = Some o' →
       Order.consumer o' = Order.consumer o
       ∧ Order.farmer o' = Order.farmer o
       ∧ Order.items o' = Order.items o
       ∧ Order.totalAmount o' = Order.totalAmount o
       ∧ Order.paymentMethod o' = Order.paymentMethod o
       ∧ Order.shippingDetails o' = Order.shippingDetails o
       ∧ Order.notes o' = Order.notes o
       ∧ (Order.status o' = Order.status o
          ∨ st = OrdersRoute.SName (Order.status o'))
       ∧ (Order.cancelReason o' = Order.cancelReason o
          ∨ Order.status o' = Order.cancelled ∧ Order.cancelReason o' = reason)).

(** The elements of a list in the order of their first occurrence. *)
Definition firstOccurrences (l : list string) : list string :=
  fold_left (λ acc x, if bool_decide (x ∈ acc) then acc else acc ++ [x]) l [].

(** The line that direct order creation records for an item whose
    product is [p]. *)
Definition directLine (it : OrdersRoute.itemReq) (p : Product.doc)
    : Order.lineInit :=
  Order.mkLineInit (OrdersRoute.ir_product it) (OrdersRoute.ir_quantity it)
    (Product.price p) (Product.name p).

(** Two product collections that give every id the same name and price. *)
Definition sameCatalog (m m' : gmap string Product.doc) : Prop :=
  ∀ id, (λ p, (Product.price p, Product.name p)) <$> m !! id
        = (λ p, (Product.price p, Product.name p)) <$> m' !! id.


(** ** The history routes of routes/predictions.js and
       routes/yield-predictions.js *)

Module History.

(** GET /api/predictions:
    [Prediction.find({ farmerId: req.user.id }).sort({ createdAt: -1 })].
    The collection holds the documents in the order of their creation,
    so the answer is the farmer's documents, the newest first. *)
Definition predictions_of (user : string) (db : Db) : list Prediction.doc :=
  reverse (filter (λ p, Prediction.farmerId p = user) (predictions db)).

(** GET /api/predictions/:id; the id of a document is its position in
    the collection. *)
Definition prediction_by_id (user : string) (id : nat) (db : Db) : Response :=
  match predictions db !! id with
  | None => mkResponse 404 (BMessage "Prediction not found")
  | Some prediction =>
      if bool_decide (Prediction.farmerId prediction ≠ user)
      then mkResponse 401 (BMessage "Not authorized")
      else mkResponse 200 (BPrediction prediction)
  end.

(** GET /api/yield-predictions *)
Definition yieldPredictions_of (user : string) (db : Db)
    : list YieldPrediction.doc :=
  reverse (filter (λ p, YieldPrediction.farmerId p = user) (yieldPredictions db)).

(** GET /api/yield-predictions/:id *)
Definition yieldPrediction_by_id (user : string) (id : nat) (db : Db)
    : Response :=
  match yieldPredictions db !! id with
  | None => mkResponse 404 (BMessage "Yield prediction not found")
  | Some yieldPrediction =>
      if bool_decide (YieldPrediction.farmerId yieldPrediction ≠ user)
      then mkResponse 401 (BMessage "Not authorized")
      else mkResponse 200 (BYieldPrediction yieldPrediction)
  end.

End History.

(** ** The forum: models/ForumPost.js and routes/forum.js *)

Module Forum.

Record comment := mkComment {
  c_id : string;
  c_author : string;
  c_content : string
}.

#[global] Instance comment_eq_dec : EqDecision comment.
Proof. solve_decision. Defined.

Record post := mkPost {
  title : string;
  content : string;
  author : string;
  likes : list string;
  comments : list comment;
  commentCount : Z
}.

Definition set_likes (l : list string) (p : post) : post :=
  mkPost (title p) (content p) (author p) l (comments p) (commentCount p).
Definition set_comments (l : list comment) (p : post) : post :=
  mkPost (title p) (content p) (author p) (likes p) l (commentCount p).
Definition set_commentCount (n : Z) (p : post) : post :=
  mkPost (title p) (content p) (author p) (likes p) (comments p) n.

(** The collection of posts, by id. *)
Definition Posts : Type := gmap string post.

Inductive Json :=
| JMessage (message : string)
| JErrors (errors : list string)
| JComment (comment : option comment)
| JLikes (likes : list string).

Record Reply := mkReply { status : Z; json : Json }.

(** [forumPostSchema.pre('save')]: the count is set when the comments
    of the document differ from the comments as they were loaded. *)
Definition pre_save (loaded : post) (p : post) : post :=
  if bool_decide (comments p ≠ comments loaded)
  then set_commentCount (Z.of_nat (length (comments p))) p
  else p.

(** The [required] paths of the two schemas. *)
Definition validate (p : post) : bool :=
  negb (String.eqb (title p) EmptyString)
  && negb (String.eqb (content p) EmptyString)
  && forallb (λ c, negb (String.eqb (c_content c) EmptyString)) (comments p).

(** [post.save()] of a post that was loaded as [loaded] under [id]. *)
Definition save (id : string) (loaded p : post) (posts : Posts) : option Posts :=
  let p' := pre_save loaded p in
  if validate p' then Some (<[id := p']> posts) else None.

Definition serverError : Reply := mkReply 500 (JMessage "Server Error").

(** DELETE /api/forum/:id *)
Definition deletePost (user id : string) (posts : Posts) : Reply * Posts :=
  match posts !! id with
  | None => (mkReply 404 (JMessage "Post not found"), posts)
  | Some post =>
      if bool_decide (author post ≠ user)
      then (mkReply 401 (JMessage "Not authorized to delete this post"), posts)
      else (mkReply 200 (JMessage "Post removed"), delete id posts)
  end.

(** POST /api/forum/:id/comments; [newId] is the [_id] that the new
    subdocument gets. The answer is the first comment of the post as
    it is read again after the save. *)
Definition addComment (user id content newId : string) (posts : Posts)
    : Reply * Posts :=
  match check (negb (String.eqb content EmptyString))
          "Comment content is required" with
  | [] =>
      match posts !! id with
      | None => (mkReply 404 (JMessage "Post not found"), posts)
      | Some post =>
          let newComment := mkComment newId user content in
          let post' := set_comments (newComment :: comments post) post in
          match save id post post' posts with
          | None => (serverError, posts)
          | Some posts' =>
              match posts' !! id with
              | None => (serverError, posts')
              | Some populatedPost =>
                  (mkReply 200 (JComment (head (comments populatedPost))), posts')
              end
          end
      end
  | errors => (mkReply 400 (JErrors errors), posts)
  end.

(** DELETE /api/forum/:id/comments/:commentId *)
Definition deleteComment (user id commentId : string) (posts : Posts)
    : Reply * Posts :=
  match posts !! id with
  | None => (mkReply 404 (JMessage "Post not found"), posts)
  | Some post =>
      match List.find (λ c, String.eqb (c_id c) commentId) (comments post) with
      | None => (mkReply 404 (JMessage "Comment not found"), posts)
      | Some comment =>
          if bool_decide (c_author comment ≠ user)
          then (mkReply 401 (JMessage "Not authorized to delete this comment"),
                posts)
          else
            let post' :=
              set_comments
                (filter (λ c, c_id c ≠ commentId) (comments post)) post in
            match save id post post' posts with
            | None => (serverError, posts)
            | Some posts' => (mkReply 200 (JMessage "Comment removed"), posts')
            end
      end
  end.

(** POST /api/forum/:id/like *)
Definition like (user id : string) (posts : Posts) : Reply * Posts :=
  match posts !! id with
  | None => (mkReply 404 (JMessage "Post not found"), posts)
  | Some post =>
      let post' :=
        match CartRoute.findIndex (λ like, String.eqb like user) (likes post) with
        | None => set_likes (likes post ++ [user]) post
        | Some likeIndex => set_likes (delete likeIndex (likes post)) post
        end in
      match save id post post' posts with
      | None => (serverError, posts)
      | Some posts' => (mkReply 200 (JLikes (likes post')), posts')
      end
  end.

(** A thread of farmer F1 with one like and two comments. *)
Definition thread : post :=
  mkPost "Blight" "What works against blight?" "F1" ["F2"]
    [mkComment "c2" "F2" "Copper"; mkComment "c1" "F3" "Rotation"] 2.

Definition board : Posts := {["p1"%string := thread]}.

End Forum.

(** * Properties *)

(** Unfolds the plumbing of a handler. *)
Ltac handler :=
  unfold route, mbind, Handler_bind, mret, Handler_ret, get, put, respond, throw.

(** ** Product: what [save] establishes *)

Lemma pre_save_consistent (p : Product.doc) :
  0 <= Product.quantity p → Product.consistent (Product.pre_save p).
Proof.
  intros Hq. unfold Product.consistent, Product.pre_save. simpl.
  destruct (0 <? Product.quantity p) eqn:E.
  - apply Z.ltb_lt in E. repeat split; try done; lia.
  - apply Z.ltb_ge in E. repeat split; try done; lia.
Qed.

Lemma save_consistent (p p' : Product.doc) :
  Product.save p = Some p' → Product.consistent p'.
Proof.
  unfold Product.save, Product.validate. intros H.
  destruct (0 <=? Product.quantity p) eqn:E; [|done].
  injection H as <-. apply pre_save_consistent. lia.
Qed.

Lemma save_quantity (p p' : Product.doc) :
  Product.save p = Some p' → Product.quantity p' = Product.quantity p
                             ∧ 0 <= Product.quantity p.
Proof.
  unfold Product.save, Product.validate. intros H.
  destruct (0 <=? Product.quantity p) eqn:E; [|done].
  injection H as <-. split; [done|lia].
Qed.

(** The stock decrement of checkout and of direct order creation goes
    through [save], so it keeps the invariant. *)
Lemma decrement_consistent (p p' : Product.doc) (q : Z) :
  Product.save (Product.set_quantity (Product.quantity p - q) p) = Some p' →
  Product.consistent p' ∧ Product.quantity p' = Product.quantity p - q.
Proof.
  intros H. split; [by eapply save_consistent|].
  by apply save_quantity in H as [-> _].
Qed.

(** C7 (the code at the failing input). The owner of a product with
    five units on hand, status [available], sends PUT /api/products/A
    with the body [{ quantity: 0 }]. The update goes through
    [findByIdAndUpdate], which runs neither the validators nor the
    pre-save hook: the stored product has quantity 0 and is still
    [available], and the body [{ quantity: -5 }] is stored as it is. *)
Theorem C7_update_bypasses_status_hook :
  let r0 := ProductsRoute.mkUpdate None None (Some 0) None in
  let rneg := ProductsRoute.mkUpdate None None (Some (-5)) None in
  Product.consistent Ex.apples
  ∧ ProductsRoute.update "F1" "A" r0 Ex.db0
    = (mkResponse 200 (BProduct (Some (Product.set_quantity 0 Ex.apples))),
       set_products (<["A" := Product.set_quantity 0 Ex.apples]> Ex.catalog) Ex.db0)
  ∧ ¬ Product.consistent (Product.set_quantity 0 Ex.apples)
  ∧ (Product.quantity <$> products (ProductsRoute.update "F1" "A" rneg Ex.db0).2 !! "A"%string)
    = Some (-5).
Proof.
  intros r0 rneg. split; [|split; [|split]].
  - unfold Product.consistent. simpl. repeat split; (done || lia).
  - vm_compute. reflexivity.
  - intros (_ & [H _] & _). simpl in H. specialize (H eq_refl). lia.
  - vm_compute. reflexivity.
Qed.

(** ** Order ledger: the status update *)

Section Ledger.
Import OrdersRoute.

Lemma setStatus_not_owner (db : Db) (id : nat) (order : Order.doc)
    (actor : string) (st : Order.Status) (reason : option string) :
  orders db !! id = Some order →
  actor ≠ Order.farmer order →
  route (setStatus_body actor id st reason) onError db
  = (mkResponse 401 (BMessage "Not authorized"), db).
Proof.
  intros Hfind Hne. unfold setStatus_body. handler. rewrite Hfind.
  rewrite bool_decide_true; [done|]. congruence.
Qed.

Lemma setStatus_owner (db : Db) (id : nat) (order : Order.doc)
    (st : Order.Status) (reason : option string) :
  orders db !! id = Some order →
  let order' :=
    Order.set_status st
      (if bool_decide (st = Order.cancelled) then reason
       else Order.cancelReason order) order in
  order_validate order' = true →
  route (setStatus_body (Order.farmer order) id st reason) onError db
  = (mkResponse 200 (BOrder order'),
     set_orders (<[id := order']> (orders db)) db).
Proof.
  intros Hfind order' Hvalid. unfold setStatus_body. handler. rewrite Hfind.
  rewrite bool_decide_false; [|by intros []].
  fold order'. by rewrite Hvalid.
Qed.

(** C6. For an order of the ledger and an actor that is not its farmer:
    for every status of the set that the route enumerates the call
    fails with 401 "Not authorized"; for every value of the status field
    whatsoever the database is left as it was; and a call after which the
    stored order differs was made by the farmer of the order. *)
Theorem C6_setStatus_forbidden_unless_owner (db : Db) (id : nat)
    (order : Order.doc) (actor : string) :
  orders db !! id = Some order →
  (actor ≠ Order.farmer order →
     (∀ st reason, st ∈ updatable →
        setStatus actor id (SName st) reason db
        = (mkResponse 401 (BMessage "Not authorized"), db))
     ∧ (∀ st reason,
          (setStatus actor id st reason db).2 = db
          ∧ code (setStatus actor id st reason db).1 ≠ 200))
  ∧ (∀ st reason,
       orders (setStatus actor id st reason db).2 !! id ≠ Some order →
       actor = Order.farmer order).
Proof.
  intros Hfind.
  assert (Hno : actor ≠ Order.farmer order → ∀ st reason,
            (setStatus actor id st reason db).2 = db
            ∧ code (setStatus actor id st reason db).1 ≠ 200).
  { intros Hne st reason. unfold setStatus. destruct st as [s|s]; [|done].
    case_bool_decide; [|done].
    by rewrite (setStatus_not_owner db id order). }
  split.
  - intros Hne. split; [|by apply Hno].
    intros st reason Hin. unfold setStatus.
    rewrite bool_decide_true by done.
    by apply (setStatus_not_owner db id order).
  - intros st reason Hchanged.
    destruct (decide (actor = Order.farmer order)) as [|Hne]; [done|].
    destruct (Hno Hne st reason) as [Hdb _]. rewrite Hdb in Hchanged. done.
Qed.

Lemma C6_setStatus_forbidden_unless_owner_witness :
  (setStatus "F2" 0 (SName Order.shipped) None (Ex.ledger Order.pending)
   = (mkResponse 401 (BMessage "Not authorized"), Ex.ledger Order.pending)).
Proof.
  refine (proj1 (proj1 (C6_setStatus_forbidden_unless_owner
            (Ex.ledger Order.pending) 0%nat (Ex.order Order.pending) "F2" _) _)
            Order.shipped None _).
  - reflexivity.
  - vm_compute. congruence.
  - unfold updatable. set_solver.
Defined.

(** C3 (counterexample). The farmer of a delivered order sets it to
    [cancelled], and the farmer of a shipped order sets it back to
    [confirmed]: both calls succeed and the stored status is the
    requested one. *)
Lemma C3_delivered_can_be_cancelled :
  (Order.status <$> orders (Ex.ledger Order.delivered) !! 0%nat) = Some Order.delivered
  ∧ code (setStatus "F1" 0 (SName Order.cancelled) (Some "late"%string)
            (Ex.ledger Order.delivered)).1 = 200
  ∧ (Order.status <$>
       orders (setStatus "F1" 0 (SName Order.cancelled) (Some "late"%string)
                 (Ex.ledger Order.delivered)).2 !! 0%nat) = Some Order.cancelled
  ∧ (Order.status <$>
       orders (setStatus "F1" 0 (SName Order.confirmed) None
                 (Ex.ledger Order.shipped)).2 !! 0%nat) = Some Order.confirmed.
Proof. repeat split; vm_compute; reflexivity. Qed.

(** C3 (amended). The route has no transition table: the farmer of an
    order moves it from any status to any of [confirmed], [processing],
    [shipped], [delivered] and [cancelled] (a cancellation carrying a
    non-empty reason), and the stored status is the requested one. The
    one status that no call can give an order is [pending]: an order
    that is [pending] after a call was [pending] before it. *)
Theorem C3_setStatus_any_to_any (db : Db) (id : nat) (order : Order.doc) :
  orders db !! id = Some order →
  (∀ st reason,
     st ∈ updatable →
     (st = Order.cancelled → truthy reason = true) →
     ∃ order',
       setStatus (Order.farmer order) id (SName st) reason db
       = (mkResponse 200 (BOrder order'),
          set_orders (<[id := order']> (orders db)) db)
       ∧ Order.status order' = st
       ∧ orders (set_orders (<[id := order']> (orders db)) db) !! id = Some order')
  ∧ (∀ actor st reason o',
       orders (setStatus actor id st reason db).2 !! id = Some o' →
       Order.status o' = Order.pending →
       o' = order).
Proof.
  intros Hfind. split.
  - intros st reason Hin Hreason. eexists. unfold setStatus.
    rewrite bool_decide_true by done.
    rewrite (setStatus_owner db id order st reason Hfind).
    + split; [reflexivity|]. split; [done|]. simpl.
      apply list_lookup_insert_eq. by eapply lookup_lt_Some.
    + unfold order_validate. simpl. case_bool_decide; [|done]. by apply Hreason.
  - intros actor st reason o' Hafter Hpending.
    unfold setStatus in Hafter. destruct st as [s|s]; simpl in Hafter;
      [|by rewrite Hfind in Hafter; injection Hafter].
    case_bool_decide as Hin; simpl in Hafter;
      [|by rewrite Hfind in Hafter; injection Hafter].
    revert Hafter. unfold setStatus_body. handler. rewrite Hfind.
    case_bool_decide; simpl; [rewrite Hfind; congruence|].
    destruct (order_validate _); simpl.
    + rewrite list_lookup_insert_eq by (by eapply lookup_lt_Some).
      intros [= <-]. simpl in Hpending. subst s.
      unfold updatable in Hin. rewrite !elem_of_cons, elem_of_nil in Hin.
      by destruct Hin as [?|[?|[?|[?|[?|?]]]]].
    + rewrite Hfind. congruence.
Qed.

Lemma C3_setStatus_any_to_any_witness :
  ∃ order',
    setStatus "F1" 0 (SName Order.processing) None (Ex.ledger Order.delivered)
    = (mkResponse 200 (BOrder order'),
       set_orders (<[0%nat := order']> (orders (Ex.ledger Order.delivered)))
         (Ex.ledger Order.delivered))
    ∧ Order.status order' = Order.processing
    ∧ orders (set_orders (<[0%nat := order']> (orders (Ex.ledger Order.delivered)))
                (Ex.ledger Order.delivered)) !! 0%nat = Some order'.
Proof.
  refine (proj1 (C3_setStatus_any_to_any (Ex.ledger Order.delivered) 0%nat
                   (Ex.order Order.delivered) _) Order.processing None _ _).
  - reflexivity.
  - unfold updatable. set_solver.
  - intros H. discriminate H.
Defined.

End Ledger.

(** ** Cart store *)

Lemma set_items_same (c : Cart.doc) : Cart.set_items (Cart.items c) c = c.
Proof. by destruct c. Qed.

Lemma filter_twice {A} (P : A → Prop) `{∀ x, Decision (P x)} (l : list A) :
  filter P (filter P l) = filter P l.
Proof.
  induction l as [|x l IH]; [done|].
  rewrite filter_cons. case_decide as HP; [|done].
  rewrite filter_cons. rewrite decide_True by done. by rewrite IH.
Qed.

Lemma cart_validate_filter (P : Cart.item → Prop) `{∀ x, Decision (P x)}
    (c : Cart.doc) :
  cart_validate c = true →
  cart_validate (Cart.set_items (filter P (Cart.items c)) c) = true.
Proof.
  unfold cart_validate. simpl. rewrite !forallb_forall.
  intros Hall x Hin. apply Hall. apply list_elem_of_In.
  apply list_elem_of_In in Hin. by apply list_elem_of_filter in Hin as [_ ?].
Qed.

Lemma cart_pre_save_items (db : Db) (m : bool) (c : Cart.doc) :
  Cart.items (cart_pre_save db m c) = Cart.items c
  ∧ Cart.user (cart_pre_save db m c) = Cart.user c.
Proof.
  unfold cart_pre_save. destruct m; [|done].
  destruct (carts db !! Cart.user c); [|done].
  by destruct (_ <? _)%nat.
Qed.

(** C5 (counterexample). A cart holds the item [i1]. The first
    DELETE /api/cart/i1 answers 200; the second answers 200 again, where
    the claim has it fail with NotFound (404). *)
Lemma C5_second_remove_is_not_NotFound :
  let first := CartRoute.delete "u1" "i1" Ex.db2 in
  let second := CartRoute.delete "u1" "i1" first.2 in
  code first.1 = 200 ∧ code second.1 = 200 ∧ code second.1 ≠ 404.
Proof. vm_compute. repeat split; congruence. Qed.

(** C5 (amended). [removeItem] answers NotFound only when the consumer
    has no cart. When the cart exists the call succeeds whether or not
    the item id is in it, and the cart then holds the items whose id
    differs from the given one. Calling it a second time with the same
    id succeeds again, with the same cart as answer, and leaves the
    database as the first call left it. *)
Theorem C5_removeItem_idempotent (db : Db) (user itemId : string) :
  (carts db !! user = None →
     CartRoute.delete user itemId db
     = (mkResponse 404 (BMessage "Cart not found"), db))
  ∧ (∀ cart,
       carts db !! user = Some cart →
       Cart.user cart = user →
       cart_validate cart = true →
       ∃ cart',
         let db' := set_carts (<[user := cart']> (carts db)) db in
         CartRoute.delete user itemId db = (mkResponse 200 (BCart (Some cart')), db')
         ∧ Cart.items cart' = filter (λ item, Cart._id item ≠ itemId) (Cart.items cart)
         ∧ CartRoute.delete user itemId db' = (mkResponse 200 (BCart (Some cart')), db')).
Proof.
  split.
  - intros Hnone. unfold CartRoute.delete, CartRoute.delete_body. handler.
    by rewrite Hnone.
  - intros cart Hfind Huser Hvalid.
    set (this := Cart.set_items
                   (filter (λ item, Cart._id item ≠ itemId) (Cart.items cart)) cart).
    set (cart' := cart_pre_save db (isModified_items (Some cart) this) this).
    destruct (cart_pre_save_items db (isModified_items (Some cart) this) this)
      as [Hitems Hu]. fold cart' in Hitems, Hu. simpl in Hitems, Hu.
    exists cart'. simpl. split; [|split].
    + unfold CartRoute.delete, CartRoute.delete_body, removeItem, cart_save,
        cart_saved. handler. rewrite Hfind. fold this.
      unfold this at 1. rewrite cart_validate_filter by done. fold this cart'.
      rewrite Hu, Huser. simpl. by rewrite lookup_insert_eq.
    + done.
    + unfold CartRoute.delete, CartRoute.delete_body, removeItem, cart_save,
        cart_saved. handler. simpl. rewrite lookup_insert_eq.
      rewrite Hitems, filter_twice, <- Hitems, set_items_same.
      assert (Hv : cart_validate cart' = true).
      { unfold cart_validate. rewrite Hitems. by apply cart_validate_filter. }
      rewrite Hv. unfold isModified_items, cart_pre_save.
      rewrite bool_decide_false by (by intros []).
      rewrite Hu, Huser. simpl. rewrite insert_insert_eq.
      by rewrite lookup_insert_eq.
Qed.

Lemma C5_removeItem_idempotent_witness :
  ∃ cart',
    let db' := set_carts (<["u1"%string := cart']> (carts Ex.db2)) Ex.db2 in
    CartRoute.delete "u1" "i9" Ex.db2 = (mkResponse 200 (BCart (Some cart')), db')
    ∧ Cart.items cart' = filter (λ item, Cart._id item ≠ "i9"%string) (Cart.items Ex.cart2)
    ∧ CartRoute.delete "u1" "i9" db' = (mkResponse 200 (BCart (Some cart')), db').
Proof.
  refine (proj2 (C5_removeItem_idempotent Ex.db2 "u1" "i9") Ex.cart2 _ _ _);
    reflexivity.
Defined.

(** C4 (the code at the failing inputs). The pre-save hook computes the
    total from the cart that the collection still holds, not from the
    items being saved. A consumer without a cart adds two units of a
    product priced 10: the stored cart has that item and total 0. A
    consumer whose cart is worth 25 checks out: the stored cart has no
    items and total 25. *)
Theorem C4_total_follows_previous_items :
  let added := CartRoute.post "u1" "A" 2 "i1" Ex.db0 in
  let line := Cart.mkItem "i1" "A" 2 in
  code added.1 = 200
  ∧ carts added.2 !! "u1"%string = Some (Cart.mk "u1" [line] 0)
  ∧ cartValue (products added.2) [line] = 20
  ∧ code (Checkout.checkout "u1" Ex.req Ex.db2).1 = 201
  ∧ carts (Checkout.after (Checkout.checkout "u1" Ex.req Ex.db2).2) !! "u1"%string
    = Some (Cart.mk "u1" [] 25).
Proof. vm_compute. repeat split; reflexivity. Qed.

(** ** Checkout: the input guards *)

(** What the guards of the handler do reject: a request without a
    payment method, without shipping details, or without an address gets
    400 before any read or write. *)
Lemma checkout_guard_rejects (user : string) (r : Checkout.checkoutReq)
    (db : Db) (message : string) :
  Checkout.validate r = Some message →
  Checkout.checkout user r db
  = (mkResponse 400 (BMessage message), Checkout.startTransaction db).
Proof.
  intros H. unfold Checkout.checkout, Checkout.body. rewrite H. done.
Qed.

(** C8 (the code at the failing input). The body names the payment
    method "bitcoin" and gives an address but no name, city, state,
    postal code or phone. The guards of the handler let it through; the
    handler reads the cart and saves two products inside the
    transaction before the creation of the first order fails, and the
    answer is 500, not a 400 validation error. *)
Theorem C8_checkout_guards_are_partial :
  Checkout.validate Ex.badReq = None
  ∧ OrdersRoute.validate_create
      (OrdersRoute.mkCreateReq [] (Checkout.paymentMethod Ex.badReq)
         (Checkout.shippingDetails Ex.badReq) None)
    = ["Payment method is required"; "Full name is required";
       "City is required"; "State is required"; "Postal code is required";
       "Phone number is required"]%string
  ∧ (Checkout.checkout "u1" Ex.badReq Ex.db2).1 = serverError
  ∧ Checkout.log (Checkout.checkout "u1" Ex.badReq Ex.db2).2
    = [Checkout.FindCart "u1"; Checkout.SaveProduct "A"; Checkout.SaveProduct "B"]
  ∧ Checkout.txState (Checkout.checkout "u1" Ex.badReq Ex.db2).2 = Checkout.TxAborted.
Proof. vm_compute. repeat split; reflexivity. Qed.

(** ** Direct order creation *)

Section DirectOrder.
Import OrdersRoute.




(** The order that the route then saves has no farmer, which the Order
    schema refuses: the answer is 500, and the stock that the loop took
    stays taken. *)
Lemma direct_order_example :
  (create "u1" Ex.directReq Ex.db0).1 = serverError
  ∧ (Product.quantity <$> products (create "u1" Ex.directReq Ex.db0).2 !! "A"%string)
    = Some 3
  ∧ orders (create "u1" Ex.directReq Ex.db0).2 = [].
Proof. vm_compute. repeat split; reflexivity. Qed.

End DirectOrder.

(** ** Prediction gateway *)

Section PredictionGateway.
Import Gateway.













End PredictionGateway.

(** ** Checkout: grouping by farmer *)

Section Grouping.
Import Checkout.




Section Push.
Context (f : string) (l : Order.lineInit).

Lemma push_keys (g : Groups) (k : string) :
  k ∈ (push f l g).*1 ↔ k = f ∨ k ∈ g.*1.
Proof.
  induction g as [|[k' ls] g IH]; simpl.
  - rewrite list_elem_of_singleton, elem_of_nil. tauto.
  - destruct (String.eqb_spec k' f) as [->|Hne]; simpl.
    + rewrite !elem_of_cons. tauto.
    + rewrite !elem_of_cons, IH. tauto.
Qed.

Lemma push_NoDup (g : Groups) : NoDup g.*1 → NoDup (push f l g).*1.
Proof.
  induction g as [|[k' ls] g IH]; simpl.
  - intros _. apply NoDup_singleton.
  - rewrite NoDup_cons. intros [Hnotin Hnd].
    destruct (String.eqb_spec k' f) as [->|Hne]; simpl.
    + by apply NoDup_cons.
    + apply NoDup_cons. split; [|by apply IH].
      rewrite push_keys. intros [->|?]; done.
Qed.

Lemma push_linesOf (g : Groups) (k : string) :
  linesOf k (push f l g)
  = if bool_decide (f = k) then linesOf k g ++ [l] else linesOf k g.
Proof.
  unfold linesOf. induction g as [|[k' ls] g IH]; simpl.
  - destruct (String.eqb_spec f k) as [->|Hne].
    + by rewrite bool_decide_true.
    + by rewrite bool_decide_false.
  - destruct (String.eqb_spec k' f) as [->|Hne]; simpl.
    + destruct (String.eqb_spec f k) as [->|Hne'].
      * by rewrite bool_decide_true.
      * by rewrite bool_decide_false.
    + destruct (String.eqb_spec k' k) as [->|Hne'].
      * by rewrite bool_decide_false by congruence.
      * apply IH.
Qed.



End Push.

Lemma linesOf_member (g : Groups) (k : string) (ls : list Order.lineInit) :
  NoDup g.*1 → (k, ls) ∈ g → linesOf k g = ls.
Proof.
  unfold linesOf. induction g as [|[k' ls'] g IH]; simpl.
  - intros _ H. by apply elem_of_nil in H.
  - rewrite NoDup_cons. intros [Hnotin Hnd] Hin.
    apply elem_of_cons in Hin as [[= <- <-]|Hin].
    + by rewrite String.eqb_refl.
    + destruct (String.eqb_spec k' k) as [->|Hne]; [|by apply IH].
      exfalso. apply Hnotin. apply list_elem_of_fmap. by exists (k, ls).
Qed.

Section Grouped.
Context (ps : gmap string Product.doc).


Lemma grouped_NoDup (items : list Cart.item) (g : Groups) :
  NoDup g.*1 → NoDup (grouped ps items g).*1.
Proof.
  revert g. induction items as [|it items IH]; intros g Hnd; [done|].
  unfold grouped in *. simpl.
  destruct (ps !! Cart.product it) as [p|]; apply IH; [|done].
  by apply push_NoDup.
Qed.


Lemma grouped_linesOf (items : list Cart.item) (g : Groups) (k : string) :
  linesOf k (grouped ps items g) = linesOf k g ++ initLines ps k items.
Proof.
  revert g. induction items as [|it items IH]; intros g.
  - simpl. by rewrite app_nil_r.
  - unfold grouped, initLines in *. simpl.
    destruct (ps !! Cart.product it) as [p|]; simpl; [|apply IH].
    rewrite IH, push_linesOf.
    case_bool_decide; [|done]. by rewrite <- app_assoc.
Qed.


Lemma grouped_cons (it : Cart.item) (items : list Cart.item) (g : Groups) :
  grouped ps (it :: items) g
  = grouped ps items
      match ps !! Cart.product it with
      | Some p => push (Product.farmer p) (snapshot it p) g
      | None => g
      end.
Proof. done. Qed.




Lemma initLines_castable (f : string) (items : list Cart.item) :
  Forall (λ l, Order.castLine l = Some (toLine l)) (initLines ps f items).
Proof.
  unfold initLines. induction items as [|it items IH]; simpl; [constructor|].
  destruct (ps !! Cart.product it) as [p|]; simpl; [|done].
  case_bool_decide; [|done]. by constructor.
Qed.

End Grouped.

End Grouping.

(** ** Checkout: the two loops inside the transaction *)

Section Loops.
Import Checkout.

Lemma tx_eta (tx : Tx) :
  mkTx (committed tx) (set_products (products (work tx)) (work tx))
    (txState tx) (log tx ++ []) = tx.
Proof. destruct tx as [c [] s l]. unfold set_products. simpl. by rewrite app_nil_r. Qed.

Lemma mapM_castLine (ls : list Order.lineInit) :
  Forall (λ l, Order.castLine l = Some (toLine l)) ls →
  mapM Order.castLine ls = Some (toLine <$> ls).
Proof.
  induction 1 as [|l ls Hl _ IH]; [done|].
  simpl. rewrite Hl. simpl. by rewrite IH.
Qed.

Section WithProducts.
Context (ps : gmap string Product.doc).

(** The grouping loop on a cart of which every item has its product
    and asks for no more than what is on hand. *)
Lemma groupItems_ok (items : list Cart.item) (g : Groups) (tx : Tx) :
  oneLinePerProduct items →
  (∀ it, it ∈ items →
     products (work tx) !! Cart.product it = ps !! Cart.product it) →
  (∀ it, it ∈ items →
     ∃ p, ps !! Cart.product it = Some p
          ∧ Cart.quantity it <= Product.quantity p) →
  groupItems items g tx
  = (Next (grouped ps items g),
     mkTx (committed tx)
       (set_products (reserved ps items (products (work tx))) (work tx))
       (txState tx)
       (log tx ++ (SaveProduct ∘ Cart.product <$> items))).
Proof.
  unfold oneLinePerProduct.
  revert g tx. induction items as [|it items IH]; intros g tx Hnd Hagree Hstock.
  - simpl. handler. by rewrite tx_eta.
  - rewrite fmap_cons, NoDup_cons in Hnd. destruct Hnd as [Hfresh Hnd].
    destruct (Hstock it) as (p & Hp & Hq); [by left|].
    simpl groupItems. handler. unfold populated.
    rewrite (Hagree it) by (by left). rewrite Hp.
    replace (Product.quantity p <? Cart.quantity it) with false
      by (symmetry; apply Z.ltb_ge; lia).
    unfold product_save, Product.save, Product.validate. simpl Product.quantity.
    replace (0 <=? Product.quantity p - Cart.quantity it) with true
      by (symmetry; apply Z.leb_le; lia).
    rewrite IH; [| done | |].
    + rewrite grouped_cons, Hp. f_equal. unfold write, reserved. simpl.
      rewrite Hp. f_equal. by rewrite <- app_assoc.
    + intros it' Hin. simpl. rewrite lookup_insert_ne.
      * apply Hagree. by right.
      * intros Heq. apply Hfresh. rewrite Heq.
        apply list_elem_of_fmap. by exists it'.
    + intros it' Hin. apply Hstock. by right.
Qed.

(** The grouping loop on a cart of which every item has its product and
    some item asks for more than what is on hand: it returns the 400
    of the first such item, and every product it saved before has a
    quantity that is not negative. *)
Lemma groupItems_insufficient (items : list Cart.item) (g : Groups) (tx : Tx) :
  oneLinePerProduct items →
  (∀ it, it ∈ items →
     products (work tx) !! Cart.product it = ps !! Cart.product it) →
  (∀ it, it ∈ items → is_Some (ps !! Cart.product it)) →
  (∃ it p, it ∈ items ∧ ps !! Cart.product it = Some p
           ∧ Product.quantity p < Cart.quantity it) →
  (∀ id p, products (work tx) !! id = Some p → 0 <= Product.quantity p) →
  ∃ it p tx',
    it ∈ items ∧ ps !! Cart.product it = Some p
    ∧ Product.quantity p < Cart.quantity it
    ∧ groupItems items g tx
      = (Return (mkResponse 400
                   (BMessage (insufficient (Product.name p) (Product.quantity p)
                                (Cart.quantity it)))), tx')
    ∧ committed tx' = committed tx
    ∧ txState tx' = txState tx
    ∧ orders (work tx') = orders (work tx)
    ∧ carts (work tx') = carts (work tx)
    ∧ (∀ id p, products (work tx') !! id = Some p → 0 <= Product.quantity p).
Proof.
  unfold oneLinePerProduct.
  revert g tx. induction items as [|it items IH];
    intros g tx Hnd Hagree Hsome Hshort Hnonneg.
  - destruct Hshort as (it & p & Hin & _). by apply elem_of_nil in Hin.
  - rewrite fmap_cons, NoDup_cons in Hnd. destruct Hnd as [Hfresh Hnd].
    destruct (Hsome it) as [p Hp]; [by left|].
    simpl groupItems. handler. unfold populated.
    rewrite (Hagree it) by (by left). rewrite Hp.
    destruct (Product.quantity p <? Cart.quantity it) eqn:Hlt.
    + apply Z.ltb_lt in Hlt. exists it, p, tx.
      split; [by left|]. done.
    + apply Z.ltb_ge in Hlt.
      unfold product_save, Product.save, Product.validate. simpl Product.quantity.
      replace (0 <=? Product.quantity p - Cart.quantity it) with true
        by (symmetry; apply Z.leb_le; lia).
      edestruct (IH (push (Product.farmer p) (snapshot it p) g))
        as (it' & p' & tx' & Hin & Hp' & Hq' & Hrun & Hc & Hs & Ho & Hca & Hn);
        [done | | | | | ].
      5:{ exists it', p', tx'. split; [by right|].
          rewrite Hrun. repeat split; try done. }
      * intros it' Hin. simpl. rewrite lookup_insert_ne.
        -- apply Hagree. by right.
        -- intros Heq. apply Hfresh. rewrite Heq.
           apply list_elem_of_fmap. by exists it'.
      * intros it' Hin. apply Hsome. by right.
      * destruct Hshort as (it' & p' & Hin & Hp' & Hq').
        apply elem_of_cons in Hin as [->|Hin]; [|by exists it', p'].
        rewrite Hp in Hp'. injection Hp' as <-. lia.
      * intros id q. simpl.
        destruct (decide (Cart.product it = id)) as [<-|Hne].
        -- rewrite lookup_insert_eq. intros [= <-]. simpl. lia.
        -- rewrite lookup_insert_ne by done. apply Hnonneg.
Qed.

End WithProducts.

(** The order-creating loop on a well-formed request. *)
Lemma createOrders_ok (user : string) (r : checkoutReq) (pm : string)
    (sd : ShippingDetails) (g : Groups) (acc : list Order.doc) (tx : Tx) :
  paymentMethod r = Some pm → pm ∈ paymentMethods →
  shippingDetails r = Some sd → Order.shippingComplete sd = true →
  Forall (λ entry, Forall (λ l, Order.castLine l = Some (toLine l)) entry.2) g →
  createOrders user r g acc tx
  = (Next (acc ++ (orderOf user pm sd (notes r) <$> g)),
     mkTx (committed tx)
       (set_orders (orders (work tx) ++ (orderOf user pm sd (notes r) <$> g))
          (work tx))
       (txState tx)
       (log tx ++ (SaveOrder ∘ fst <$> g))).
Proof.
  intros Hpm Hin Hsd Hcomplete Hcast.
  revert acc tx. induction Hcast as [|[f ls] g Hls _ IH]; intros acc tx.
  - simpl. handler. rewrite !app_nil_r. f_equal.
    destruct tx as [c [] s l]. done.
  - simpl createOrders. handler. unfold order_save, Order.create. simpl.
    rewrite (mapM_castLine ls Hls), Hpm, Hsd. simpl.
    rewrite bool_decide_true by done. rewrite Hcomplete. simpl.
    rewrite IH. unfold orderOf at 3 6. simpl.
    rewrite <- !app_assoc. done.
Qed.

End Loops.

(** ** Checkout: the handler *)

Section CheckoutHandler.
Import Checkout.

Lemma reserved_other (ps m : gmap string Product.doc) (items : list Cart.item)
    (id : string) :
  id ∉ Cart.product <$> items → reserved ps items m !! id = m !! id.
Proof.
  revert m. induction items as [|a items IH]; intros m Hnotin; [done|].
  rewrite fmap_cons, not_elem_of_cons in Hnotin. destruct Hnotin as [Hne Hnotin].
  unfold reserved in *. simpl.
  destruct (ps !! Cart.product a); rewrite IH by done; [|done].
  by rewrite lookup_insert_ne.
Qed.

Lemma reserved_lookup (ps m : gmap string Product.doc) (items : list Cart.item)
    (it : Cart.item) (p : Product.doc) :
  oneLinePerProduct items → it ∈ items → ps !! Cart.product it = Some p →
  reserved ps items m !! Cart.product it
  = Some (Product.pre_save
            (Product.set_quantity (Product.quantity p - Cart.quantity it) p)).
Proof.
  unfold oneLinePerProduct.
  revert m. induction items as [|a items IH]; intros m Hnd Hin Hp.
  - by apply elem_of_nil in Hin.
  - rewrite fmap_cons, NoDup_cons in Hnd. destruct Hnd as [Hfresh Hnd].
    apply elem_of_cons in Hin as [<-|Hin].
    + unfold reserved. simpl. rewrite Hp.
      fold (reserved ps items
              (<[Cart.product it :=
                   Product.pre_save
                     (Product.set_quantity (Product.quantity p - Cart.quantity it) p)]> m)).
      rewrite reserved_other by done. by rewrite lookup_insert_eq.
    + unfold reserved in *. simpl. by apply IH.
Qed.

Lemma wellFormed_validate (r : checkoutReq) : wellFormed r → validate r = None.
Proof.
  intros (pm & sd & Hpm & Hin & Hsd & Hcomplete). unfold validate.
  rewrite Hpm, Hsd. simpl.
  assert (pm ≠ EmptyString) as Hne.
  { intros ->. revert Hin. unfold paymentMethods.
    rewrite !elem_of_cons, elem_of_nil. by intros [?|[?|[?|?]]]. }
  rewrite (proj2 (String.eqb_neq _ _) Hne). simpl.
  unfold Order.shippingComplete in Hcomplete.
  destruct (truthy (address sd)); [done|].
  by rewrite andb_false_r in Hcomplete.
Qed.

(** C2. A consumer checks out a cart (one line per product, every
    product still listed) in which some item asks for more than the
    product has on hand. The handler answers 400 with the message that
    names the product of such an item, the quantity on hand and the
    quantity asked for. The handler returns with the transaction still
    open, neither committed nor aborted: the database after the request
    is the database before it, so no order exists that did not exist and
    no on-hand quantity has changed. Inside the
    transaction no order was saved, and no product that the handler
    wrote has a negative quantity. *)
Theorem C2_insufficient_stock_fails_whole_checkout (user : string)
    (r : checkoutReq) (db : Db) (cart : Cart.doc) :
  validate r = None →
  carts db !! user = Some cart →
  oneLinePerProduct (Cart.items cart) →
  (∀ it, it ∈ Cart.items cart → is_Some (products db !! Cart.product it)) →
  (∃ it p, it ∈ Cart.items cart ∧ products db !! Cart.product it = Some p
           ∧ Product.quantity p < Cart.quantity it) →
  (∀ id p, products db !! id = Some p → 0 <= Product.quantity p) →
  ∃ it p tx,
    it ∈ Cart.items cart
    ∧ products db !! Cart.product it = Some p
    ∧ Product.quantity p < Cart.quantity it
    ∧ checkout user r db
      = (mkResponse 400
           (BMessage (insufficient (Product.name p) (Product.quantity p)
                        (Cart.quantity it))), tx)
    ∧ txState tx = TxOpen
    ∧ after tx = db
    ∧ orders (work tx) = orders db
    ∧ (∀ id q, products (work tx) !! id = Some q → 0 <= Product.quantity q)
    ∧ (∀ id q, products (after tx) !! id = Some q → 0 <= Product.quantity q).
Proof.
  intros Hvalid Hfind Hone Hsome Hshort Hnonneg.
  destruct (groupItems_insufficient (products db) (Cart.items cart) []
              (logOp (FindCart user) (startTransaction db)))
    as (it & p & tx & Hin & Hp & Hq & Hrun & Hc & Hs & Ho & _ & Hn); try done.
  exists it, p, tx. repeat (split; [done|]).
  assert (Hafter : after tx = db) by (unfold after; by rewrite Hs, Hc).
  split; [|split; [done|split; [done|split; [done|split; [done|]]]]].
  - unfold checkout, body. rewrite Hvalid. handler. unfold findCart. simpl.
    rewrite Hfind. rewrite bool_decide_false.
    + by rewrite Hrun.
    + intros Hnil. rewrite Hnil in Hin. by apply elem_of_nil in Hin.
  - rewrite Hafter. apply Hnonneg.
Qed.

Lemma C2_insufficient_stock_fails_whole_checkout_witness :
  ∃ it p tx,
    it ∈ Cart.items Ex.cart5
    ∧ products Ex.db5 !! Cart.product it = Some p
    ∧ Product.quantity p < Cart.quantity it
    ∧ checkout "u1" Ex.req Ex.db5
      = (mkResponse 400
           (BMessage (insufficient (Product.name p) (Product.quantity p)
                        (Cart.quantity it))), tx)
    ∧ txState tx = TxOpen
    ∧ after tx = Ex.db5
    ∧ orders (work tx) = orders Ex.db5
    ∧ (∀ id q, products (work tx) !! id = Some q → 0 <= Product.quantity q)
    ∧ (∀ id q, products (after tx) !! id = Some q → 0 <= Product.quantity q).
Proof.
  assert (Hcat : ∀ id p, Ex.catalog !! id = Some p → 0 <= Product.quantity p).
  { intros id p. unfold Ex.catalog.
    rewrite !lookup_insert, lookup_empty.
    repeat case_decide; intros [= <-]; simpl; lia. }
  refine (C2_insufficient_stock_fails_whole_checkout "u1" Ex.req Ex.db5 Ex.cart5
            _ _ _ _ _ Hcat).
  - reflexivity.
  - reflexivity.
  - unfold oneLinePerProduct. simpl.
    apply NoDup_cons. split; [|apply NoDup_singleton].
    rewrite list_elem_of_singleton. discriminate.
  - intros it. simpl. rewrite !elem_of_cons, elem_of_nil.
    intros [->|[->|[]]]; simpl; eexists; reflexivity.
  - exists (Cart.mkItem "i3" "C" 5), Ex.chard.
    split; [right; left|split; [reflexivity|simpl; lia]].
Defined.

(** The scenario of the claim, evaluated: the cart asks for five of a
    product of which three are on hand. *)
Lemma insufficient_stock_example :
  (checkout "u1" Ex.req Ex.db5).1
  = mkResponse 400
      (BMessage "Insufficient quantity for chard. Available: 3, Requested: 5")
  ∧ after (checkout "u1" Ex.req Ex.db5).2 = Ex.db5.
Proof. vm_compute. split; reflexivity. Qed.


End CheckoutHandler.


(** The scenario of the spec, evaluated: two lines of two farmers give
    two orders of 20 and 5, the stock goes down by 2 and by 1, and the
    cart is emptied. *)
Lemma checkout_example :
  let result := Checkout.checkout "u1" Ex.req Ex.db2 in
  (match body result.1 with
   | BOrders os => (λ o, (Order.farmer o, Order.totalAmount o)) <$> os
   | _ => []
   end) = [("F1"%string, 20); ("F2"%string, 5)]
  ∧ (Product.quantity <$> products (Checkout.after result.2) !! "A"%string) = Some 3
  ∧ (Product.quantity <$> products (Checkout.after result.2) !! "B"%string) = Some 0
  ∧ (Product.status <$> products (Checkout.after result.2) !! "B"%string)
    = Some Product.sold_out
  ∧ (Cart.items <$> carts (Checkout.after result.2) !! "u1"%string) = Some [].
Proof. vm_compute. repeat split; reflexivity. Qed.

(** ** The cart routes keep one line per product *)

Lemma alter_quantity_products (q : Z) (i : nat) (l : list Cart.item) :
  Cart.product <$> alter (CartRoute.set_quantity q) i l = Cart.product <$> l.
Proof.
  revert i. induction l as [|x l IH]; intros [|i]; simpl; try done.
  f_equal. apply IH.
Qed.

Lemma findIndex_None {A} (f : A → bool) (l : list A) :
  CartRoute.findIndex f l = None → ∀ x, x ∈ l → f x = false.
Proof.
  induction l as [|y l IH]; simpl; intros H x Hin.
  - by apply elem_of_nil in Hin.
  - destruct (f y) eqn:E; [done|].
    destruct (CartRoute.findIndex f l); [done|].
    apply elem_of_cons in Hin as [->|Hin]; [done|]. by apply IH.
Qed.




(** ** Checkout keeps the carts well formed *)

Section CheckoutCarts.
Import Checkout.

Lemma groupItems_frame (items : list Cart.item) (g : Groups) (tx tx' : Tx)
    (s : Step Groups) :
  groupItems items g tx = (s, tx') →
  committed tx' = committed tx ∧ txState tx' = txState tx
  ∧ carts (work tx') = carts (work tx).
Proof.
  revert g tx. induction items as [|it items IH]; intros g tx.
  - simpl. handler. by intros [= <- <-].
  - simpl. handler. unfold populated.
    destruct (products (work tx) !! Cart.product it) as [p|];
      [|by intros [= <- <-]].
    destruct (Product.quantity p <? Cart.quantity it); [by intros [= <- <-]|].
    unfold product_save. destruct (Product.save _) as [p'|];
      [|by intros [= <- <-]].
    intros H. by apply IH in H.
Qed.

Lemma createOrders_frame (user : string) (r : checkoutReq) (g : Groups)
    (acc : list Order.doc) (tx tx' : Tx) (s : Step (list Order.doc)) :
  createOrders user r g acc tx = (s, tx') →
  committed tx' = committed tx ∧ txState tx' = txState tx
  ∧ carts (work tx') = carts (work tx).
Proof.
  revert acc tx. induction g as [|[f ls] g IH]; intros acc tx.
  - simpl. handler. by intros [= <- <-].
  - simpl. handler. unfold order_save.
    destruct (Order.create _) as [o|]; [|by intros [= <- <-]].
    intros H. by apply IH in H.
Qed.

(** X2. A checkout leaves every cart with one line per product: it either
    changes no cart, or empties the cart of the consumer. *)
Theorem checkout_keeps_carts_well_formed (user : string) (r : checkoutReq)
    (db : Db) :
  cartsWellFormed db → cartsWellFormed (after (checkout user r db).2).
Proof.
  intros Hwf. unfold checkout, body.
  destruct (validate r); [done|]. handler. unfold findCart. simpl.
  destruct (carts db !! user) as [cart|] eqn:Hcart; [|done].
  case_bool_decide; [done|].
  destruct (groupItems (Cart.items cart) [] _) as [[g| |] tx1] eqn:Hg;
    apply groupItems_frame in Hg as (Hc1 & Hs1 & Hk1); simpl in *.
  2:{ unfold after. by rewrite Hs1, Hc1. }
  2:{ unfold after. simpl. by rewrite Hc1. }
  destruct (createOrders user r g [] tx1) as [[os| |] tx2] eqn:Ho;
    apply createOrders_frame in Ho as (Hc2 & Hs2 & Hk2); simpl in *.
  2:{ unfold after. by rewrite Hs2, Hs1, Hc2, Hc1. }
  2:{ unfold after. simpl. by rewrite Hc2, Hc1. }
  unfold Checkout.cart_save, cart_saved. simpl.
  unfold after. simpl. intros u c0.
  match goal with
  | |- context [<[Cart.user ?x := _]> _] =>
      assert (Cart.items x = [] ∧ Cart.user x = Cart.user cart) as [Hi Hu]
        by apply (cart_pre_save_items _ _ (Cart.set_items [] cart));
      set (c := x) in *; clearbody c
  end.
  assert (Hv : cart_validate c = true) by (unfold cart_validate; by rewrite Hi).
  simpl. rewrite Hk2, Hk1, Hu.
  destruct (Hwf _ _ Hcart) as (Hcu & _).
  destruct (decide (Cart.user cart = u)) as [<-|Hne].
  - rewrite lookup_insert_eq. intros [= <-].
    split; [congruence|]. split; [|done].
    unfold oneLinePerProduct. rewrite Hi. constructor.
  - rewrite lookup_insert_ne by done. apply Hwf.
Qed.

End CheckoutCarts.

(** ** Cart store: adding, changing and the stored total *)

Lemma findIndex_Some {A} (f : A → bool) (l : list A) (i : nat) :
  CartRoute.findIndex f l = Some i → ∃ x, l !! i = Some x ∧ f x = true.
Proof.
  revert i. induction l as [|y l IH]; intros i; simpl; [done|].
  destruct (f y) eqn:E.
  - intros [= <-]. by exists y.
  - destruct (CartRoute.findIndex f l) as [j|]; [|done].
    intros [= <-]. by apply IH.
Qed.

Lemma filter_alter_other {A} (P : A → Prop) `{∀ x, Decision (P x)} (g : A → A)
    (l : list A) (i : nat) (x : A) :
  l !! i = Some x → ¬ P x → ¬ P (g x) → filter P (alter g i l) = filter P l.
Proof.
  revert i. induction l as [|y l IH]; intros [|i]; simpl; try done.
  - intros [= ->] Hx Hgx. rewrite !filter_cons.
    by rewrite !decide_False by done.
  - intros Hi Hx Hgx. rewrite !filter_cons.
    destruct (decide (P y)); [f_equal|]; by apply (IH i).
Qed.

Lemma populatedTotal_cartValue (db : Db) (c : Cart.doc) :
  populatedTotal db c = cartValue (products db) (Cart.items c).
Proof.
  unfold populatedTotal, cartValue.
  assert (H : ∀ items acc,
            fold_left
              (λ sum item,
                 match products db !! Cart.product item with
                 | Some p => if negb (Product.price p =? 0)
                             then sum + Product.price p * Cart.quantity item
                             else sum
                 | None => sum
                 end) items acc
            = acc + Zsum (omap (λ it, (λ p, Product.price p * Cart.quantity it)
                                        <$> products db !! Cart.product it) items)).
  { unfold Zsum. induction items as [|it items IH]; intros acc; [simpl; lia|].
    cbn [fold_left omap list_omap]. rewrite IH.
    destruct (products db !! Cart.product it) as [p|]; cbn [fmap option_fmap option_map foldr];
      [|done].
    destruct (Product.price p =? 0) eqn:E; cbn [negb]; [|lia].
    apply Z.eqb_eq in E. rewrite E. lia. }
  rewrite H. lia.
Qed.

(** X3. Adding to the cart is an upsert. For a product that is listed,
    available and in stock, POST /api/cart answers 200 and stores a cart
    in which the product has a line with the requested quantity, every
    line of the product has that quantity, and the lines of the other
    products are those of the cart before, in their order. A line that
    existed keeps its id and its place; otherwise the new line is the
    last one. *)
Theorem cart_post_upserts (db : Db) (user productId newId : string)
    (quantity : Z) (product : Product.doc) :
  cartsWellFormed db →
  productId ≠ EmptyString → 1 <= quantity →
  products db !! productId = Some product →
  Product.status product = Product.available →
  quantity <= Product.quantity product →
  let old := Cart.items (default (Cart.mk user [] 0) (carts db !! user)) in
  ∃ c,
    CartRoute.post user productId quantity newId db
    = (mkResponse 200 (BCart (Some c)), set_carts (<[user := c]> (carts db)) db)
    ∧ Cart.user c = user
    ∧ productId ∈ Cart.product <$> Cart.items c
    ∧ (∀ it, it ∈ Cart.items c → Cart.product it = productId →
         Cart.quantity it = quantity)
    ∧ filter (λ it, Cart.product it ≠ productId) (Cart.items c)
      = filter (λ it, Cart.product it ≠ productId) old
    ∧ (if bool_decide (productId ∈ Cart.product <$> old)
       then Cart._id <$> Cart.items c = Cart._id <$> old
            ∧ Cart.product <$> Cart.items c = Cart.product <$> old
       else Cart.items c = old ++ [Cart.mkItem newId productId quantity]).
Proof.
  intros Hwf Hne Hq Hp Hav Hstock old.
  set (found := carts db !! user).
  set (cart := default (Cart.mk user [] 0) found).
  assert (Hcart : Cart.user cart = user ∧ oneLinePerProduct (Cart.items cart)
                  ∧ cart_validate cart = true).
  { unfold cart, found. destruct (carts db !! user) as [c0|] eqn:Hc; simpl.
    - by apply Hwf.
    - split; [done|]. split; [constructor|done]. }
  destruct Hcart as (Hu & Hone & Hv).
  set (items' :=
         match CartRoute.findIndex (λ item, String.eqb (Cart.product item) productId)
                 (Cart.items cart) with
         | Some i => alter (CartRoute.set_quantity quantity) i (Cart.items cart)
         | None => Cart.items cart ++ [Cart.mkItem newId productId quantity]
         end).
  set (this := Cart.set_items items' cart).
  assert (Hv' : cart_validate this = true).
  { unfold cart_validate, this, items'. simpl. unfold cart_validate in Hv.
    rewrite forallb_forall in *. intros x Hx. apply list_elem_of_In in Hx.
    destruct (CartRoute.findIndex _ _) as [i|].
    - apply list_elem_of_lookup in Hx as [j Hj].
      rewrite list_lookup_alter in Hj. case_decide as Hij.
      + destruct (Cart.items cart !! i) as [y|]; simpl in Hj; [|done].
        injection Hj as <-. simpl. by apply Z.leb_le.
      + apply Hv, list_elem_of_In. by eapply list_elem_of_lookup_2.
    - apply elem_of_app in Hx as [Hx|Hx].
      + by apply Hv, list_elem_of_In.
      + apply list_elem_of_singleton in Hx as ->. simpl. by apply Z.leb_le. }
  set (c := cart_pre_save db (isModified_items found this) this).
  destruct (cart_pre_save_items db (isModified_items found this) this) as [Hci Hcu].
  fold c in Hci, Hcu. simpl in Hci, Hcu.
  exists c. split; [|split; [congruence|]].
  { unfold CartRoute.post, check.
    rewrite (proj2 (String.eqb_neq _ _) Hne). simpl.
    replace (1 <=? quantity) with true by (symmetry; by apply Z.leb_le). simpl.
    unfold CartRoute.post_body. handler. rewrite Hp, Hav.
    rewrite bool_decide_true by done. simpl.
    replace (Product.quantity product <? quantity) with false
      by (symmetry; apply Z.ltb_ge; lia).
    fold found cart items' this. unfold cart_save, cart_saved. rewrite Hv'.
    fold c. rewrite Hcu, Hu. simpl. by rewrite lookup_insert_eq. }
  rewrite Hci. unfold items'. fold old cart.
  change old with (Cart.items cart).
  destruct (CartRoute.findIndex _ _) as [i|] eqn:Hidx.
  - apply findIndex_Some in Hidx as (x & Hi & Hx). apply String.eqb_eq in Hx.
    assert (Hfm : Cart.product <$> alter (CartRoute.set_quantity quantity) i (Cart.items cart)
                  = Cart.product <$> Cart.items cart)
      by apply alter_quantity_products.
    assert (Hin : productId ∈ Cart.product <$> Cart.items cart).
    { apply list_elem_of_fmap. exists x. split; [done|].
      by eapply list_elem_of_lookup_2. }
    split; [by rewrite Hfm|]. split; [|split].
    + intros it Hit Hpid. apply list_elem_of_lookup in Hit as [j Hj].
      rewrite list_lookup_alter in Hj. case_decide as Hij.
      * rewrite Hi in Hj. by injection Hj as <-.
      * exfalso. apply Hij. unfold oneLinePerProduct in Hone.
        eapply NoDup_lookup; [exact Hone| |].
        -- rewrite list_lookup_fmap, Hi. done.
        -- rewrite list_lookup_fmap, Hj. simpl. congruence.
    + eapply filter_alter_other; [exact Hi| |]; simpl; intros H; by apply H.
    + rewrite bool_decide_true by done. split; [|done].
      clear. generalize (Cart.items cart). intros l. revert i.
      induction l as [|y l IH]; intros [|i]; simpl; try done.
      f_equal. apply IH.
  - pose proof (findIndex_None _ _ Hidx) as Hnone.
    assert (Hnotin : productId ∉ Cart.product <$> Cart.items cart).
    { intros Hin. apply list_elem_of_fmap in Hin as (y & Hy & Hyin).
      specialize (Hnone y Hyin). simpl in Hnone.
      rewrite <- Hy, String.eqb_refl in Hnone. done. }
    split; [|split; [|split]].
    + rewrite fmap_app. apply elem_of_app. right. by left.
    + intros it Hit Hpid. apply elem_of_app in Hit as [Hit|Hit].
      * exfalso. apply Hnotin. apply list_elem_of_fmap. by exists it.
      * by apply list_elem_of_singleton in Hit as ->.
    + rewrite filter_app. rewrite filter_cons. simpl.
      rewrite decide_False by (intros H; by apply H).
      by rewrite filter_nil, app_nil_r.
    + by rewrite bool_decide_false.
Qed.

Lemma wellFormed_db2 : cartsWellFormed Ex.db2.
Proof.
  intros u c. unfold Ex.db2. simpl. rewrite lookup_singleton.
  case_decide as Hu; [|done]. intros [= <-]. subst u.
  split; [done|]. split; [|done].
  unfold oneLinePerProduct. simpl.
  apply NoDup_cons. split; [|apply NoDup_singleton].
  rewrite list_elem_of_singleton. discriminate.
Qed.

Lemma cart_post_upserts_witness :
  ∃ c,
    CartRoute.post "u1" "B" 1 "i9" Ex.db2
    = (mkResponse 200 (BCart (Some c)),
       set_carts (<["u1"%string := c]> (carts Ex.db2)) Ex.db2)
    ∧ Cart.user c = "u1"%string
    ∧ "B"%string ∈ Cart.product <$> Cart.items c
    ∧ (∀ it, it ∈ Cart.items c → Cart.product it = "B"%string →
         Cart.quantity it = 1)
    ∧ filter (λ it, Cart.product it ≠ "B"%string) (Cart.items c)
      = filter (λ it, Cart.product it ≠ "B"%string) (Cart.items Ex.cart2)
    ∧ (Cart._id <$> Cart.items c = Cart._id <$> Cart.items Ex.cart2
       ∧ Cart.product <$> Cart.items c = Cart.product <$> Cart.items Ex.cart2).
Proof.
  refine (cart_post_upserts Ex.db2 "u1" "B" "i9" 1 Ex.beets wellFormed_db2 _ _ _ _ _).
  - discriminate.
  - lia.
  - reflexivity.
  - reflexivity.
  - simpl. lia.
Defined.

(** X4. What POST /api/cart refuses, in the order of its checks: an
    unknown product (404), a product that is not available (400), and a
    quantity above the stock (400, checked after availability). In each
    case nothing is stored, and no cart is created for a consumer who
    has none. *)
Theorem cart_post_rejects (db : Db) (user productId newId : string)
    (quantity : Z) :
  productId ≠ EmptyString → 1 <= quantity →
  (products db !! productId = None →
     CartRoute.post user productId quantity newId db
     = (mkResponse 404 (BMessage "Product not found"), db))
  ∧ (∀ p, products db !! productId = Some p →
       Product.status p ≠ Product.available →
       CartRoute.post user productId quantity newId db
       = (mkResponse 400 (BMessage "Product is not available"), db))
  ∧ (∀ p, products db !! productId = Some p →
       Product.status p = Product.available →
       Product.quantity p < quantity →
       CartRoute.post user productId quantity newId db
       = (mkResponse 400 (BMessage "Not enough stock available"), db)).
Proof.
  intros Hne Hq.
  assert (Hpre : CartRoute.post user productId quantity newId db
                 = route (CartRoute.post_body user productId quantity newId)
                     CartRoute.onError db).
  { unfold CartRoute.post, check.
    rewrite (proj2 (String.eqb_neq _ _) Hne). simpl.
    by replace (1 <=? quantity) with true by (symmetry; by apply Z.leb_le). }
  rewrite Hpre. unfold CartRoute.post_body. handler.
  split; [|split].
  - intros ->. done.
  - intros p -> Hst. by rewrite bool_decide_false.
  - intros p -> Hst Hlt. rewrite bool_decide_true by done. simpl.
    by replace (Product.quantity p <? quantity) with true
      by (symmetry; by apply Z.ltb_lt).
Qed.

Lemma cart_post_rejects_witness :
  CartRoute.post "u7" "Z" 2 "i1" Ex.db2
  = (mkResponse 404 (BMessage "Product not found"), Ex.db2).
Proof.
  refine (proj1 (cart_post_rejects Ex.db2 "u7" "Z" "i1" 2 _ _) _).
  - discriminate.
  - lia.
  - reflexivity.
Defined.

(** X5. PUT /api/cart/:itemId looks the item up: for a consumer whose
    cart has no item of that id it answers 404 and stores nothing. When
    the item is there and its product is available and in stock, the
    answer is 200 and the stored cart differs from the cart before only
    in the quantity of that item. *)
Theorem cart_put_changes_one_quantity (db : Db) (user itemId : string)
    (quantity : Z) (cart : Cart.doc) :
  cartsWellFormed db → 1 <= quantity →
  carts db !! user = Some cart →
  ((∀ it, it ∈ Cart.items cart → Cart._id it ≠ itemId) →
     CartRoute.put user itemId quantity db
     = (mkResponse 404 (BMessage "Item not found in cart"), db))
  ∧ (∀ i item product,
       Cart.items cart !! i = Some item →
       Cart._id item = itemId →
       (∀ j it, Cart.items cart !! j = Some it → Cart._id it = itemId → j = i) →
       products db !! Cart.product item = Some product →
       Product.status product = Product.available →
       quantity <= Product.quantity product →
       ∃ c,
         CartRoute.put user itemId quantity db
         = (mkResponse 200 (BCart (Some c)),
            set_carts (<[user := c]> (carts db)) db)
         ∧ Cart.items c
           = <[i := Cart.mkItem itemId (Cart.product item) quantity]> (Cart.items cart)).
Proof.
  intros Hwf Hq Hfind.
  destruct (Hwf _ _ Hfind) as (Hu & Hone & Hv).
  assert (Hpre : CartRoute.put user itemId quantity db
                 = route (CartRoute.put_body user itemId quantity)
                     CartRoute.onError db).
  { unfold CartRoute.put, check.
    by replace (1 <=? quantity) with true by (symmetry; by apply Z.leb_le). }
  rewrite Hpre. unfold CartRoute.put_body. handler. rewrite Hfind.
  split.
  - intros Hnone.
    destruct (CartRoute.findIndex _ _) as [i|] eqn:Hidx; [|done].
    apply findIndex_Some in Hidx as (x & Hi & Hx). apply String.eqb_eq in Hx.
    exfalso. apply (Hnone x); [|done]. by eapply list_elem_of_lookup_2.
  - intros i item product Hi Hid Huniq Hp Hav Hstock.
    destruct (CartRoute.findIndex _ _) as [k|] eqn:Hidx.
    2:{ pose proof (findIndex_None _ _ Hidx item) as Hn. simpl in Hn.
        rewrite Hid, String.eqb_refl in Hn. discriminate Hn.
        by eapply list_elem_of_lookup_2. }
    apply findIndex_Some in Hidx as (x & Hk & Hx). apply String.eqb_eq in Hx.
    assert (k = i) as -> by (by eapply Huniq).
    rewrite Hi in Hk. injection Hk as <-.
    rewrite Hi. simpl. rewrite Hp, Hav. rewrite bool_decide_true by done. simpl.
    replace (Product.quantity product <? quantity) with false
      by (symmetry; apply Z.ltb_ge; lia).
    set (items' := alter (CartRoute.set_quantity quantity) i (Cart.items cart)).
    set (this := Cart.set_items items' cart).
    assert (Hv' : cart_validate this = true).
    { unfold cart_validate, this, items'. simpl. unfold cart_validate in Hv.
      rewrite forallb_forall in *. intros y Hy. apply list_elem_of_In in Hy.
      apply list_elem_of_lookup in Hy as [j Hj].
      rewrite list_lookup_alter in Hj. case_decide as Hij.
      - rewrite Hi in Hj. injection Hj as <-. simpl. by apply Z.leb_le.
      - apply Hv, list_elem_of_In. by eapply list_elem_of_lookup_2. }
    set (c := cart_pre_save db (isModified_items (Some cart) this) this).
    destruct (cart_pre_save_items db (isModified_items (Some cart) this) this)
      as [Hci Hcu]. fold c in Hci, Hcu. simpl in Hci, Hcu.
    exists c. split.
    + unfold cart_save, cart_saved. rewrite Hv'. fold c. rewrite Hcu, Hu.
      simpl. by rewrite lookup_insert_eq.
    + rewrite Hci. unfold items'. rewrite <- Hid.
      clear -Hi. revert i Hi. generalize (Cart.items cart). intros l.
      induction l as [|y l IH]; intros [|i]; simpl; try done.
      * by intros [= ->].
      * intros Hi. f_equal. by apply IH.
Qed.

Lemma cart_put_changes_one_quantity_witness :
  ∃ c,
    CartRoute.put "u1" "i1" 4 Ex.db2
    = (mkResponse 200 (BCart (Some c)),
       set_carts (<["u1"%string := c]> (carts Ex.db2)) Ex.db2)
    ∧ Cart.items c
      = <[0%nat := Cart.mkItem "i1" (Cart.product (Cart.mkItem "i1" "A" 2)) 4]>
          (Cart.items Ex.cart2).
Proof.
  refine (proj2 (cart_put_changes_one_quantity Ex.db2 "u1" "i1" 4 Ex.cart2
                   wellFormed_db2 _ _) 0%nat (Cart.mkItem "i1" "A" 2) Ex.apples
            _ _ _ _ _ _).
  - lia.
  - reflexivity.
  - reflexivity.
  - reflexivity.
  - intros [|[|j]] it; simpl; [done| |done].
    intros [= <-]. discriminate.
  - reflexivity.
  - reflexivity.
  - simpl. lia.
Defined.

(** X6. The total that a save stores is the value of the cart as it was
    stored before that save. Removing an item that is in the cart
    answers 200 with a cart that no longer has the item and whose total
    is the sum of price times quantity over the items before the
    removal, the removed item included. *)
Theorem cart_total_is_value_before_save (db : Db) (user itemId : string)
    (cart : Cart.doc) :
  carts db !! user = Some cart →
  Cart.user cart = user →
  cart_validate cart = true →
  (∃ it, it ∈ Cart.items cart ∧ Cart._id it = itemId) →
  ∃ c,
    CartRoute.delete user itemId db
    = (mkResponse 200 (BCart (Some c)), set_carts (<[user := c]> (carts db)) db)
    ∧ Cart.items c = filter (λ item, Cart._id item ≠ itemId) (Cart.items cart)
    ∧ Cart.total c = cartValue (products db) (Cart.items cart).
Proof.
  intros Hfind Hu Hv (it & Hin & Hid).
  set (this := Cart.set_items
                 (filter (λ item, Cart._id item ≠ itemId) (Cart.items cart)) cart).
  set (c := cart_pre_save db (isModified_items (Some cart) this) this).
  destruct (cart_pre_save_items db (isModified_items (Some cart) this) this)
    as [Hci Hcu]. fold c in Hci, Hcu. simpl in Hci, Hcu.
  exists c. split; [|split; [done|]].
  - unfold CartRoute.delete, CartRoute.delete_body, removeItem, cart_save,
      cart_saved. handler. rewrite Hfind. fold this.
    unfold this at 1. rewrite cart_validate_filter by done. fold this c.
    rewrite Hcu, Hu. simpl. by rewrite lookup_insert_eq.
  - unfold c, cart_pre_save, isModified_items.
    rewrite bool_decide_true.
    + simpl. rewrite Hu, Hfind.
      destruct (Cart.items cart) as [|x l] eqn:Hl; [by apply elem_of_nil in Hin|].
      simpl. rewrite populatedTotal_cartValue. by rewrite Hl.
    + simpl. intros Heq. assert (Hin' := Hin). rewrite Heq in Hin'.
      apply list_elem_of_filter in Hin' as [Hne _]. by apply Hne.
Qed.

Lemma cart_total_is_value_before_save_witness :
  ∃ c,
    CartRoute.delete "u1" "i1" Ex.db2
    = (mkResponse 200 (BCart (Some c)),
       set_carts (<["u1"%string := c]> (carts Ex.db2)) Ex.db2)
    ∧ Cart.items c = filter (λ item, Cart._id item ≠ "i1"%string) (Cart.items Ex.cart2)
    ∧ Cart.total c = cartValue (products Ex.db2) (Cart.items Ex.cart2).
Proof.
  refine (cart_total_is_value_before_save Ex.db2 "u1" "i1" Ex.cart2 _ _ _ _);
    try reflexivity.
  exists (Cart.mkItem "i1" "A" 2). split; [left|reflexivity].
Defined.

(** ** Order ledger: what a status update touches *)

Section LedgerFrame.
Import OrdersRoute.

Lemma statusFrame_refl (id : nat) (st : statusReq) (reason : option string)
    (db : Db) : statusFrame id st reason db db.
Proof.
  unfold statusFrame. repeat (split; [done|]).
  intros o o' Ho Ho'. rewrite Ho in Ho'. injection Ho' as <-.
  repeat split; try done; by left.
Qed.

(** X7. A status update changes at most one order and at most two of
    its fields. Whatever the request, the ledger keeps its length, every
    other order is what it was, and so are the products, the carts and
    the prediction histories; the order of the given id keeps its
    consumer, farmer, items, total, payment method, shipping details and
    notes; its status is the old one or the requested one; its cancel
    reason is the old one unless the new status is [cancelled], in
    which case it is the reason of the request. *)
Theorem setStatus_frame (user : string) (id : nat) (st : statusReq)
    (reason : option string) (db : Db) :
  statusFrame id st reason db (setStatus user id st reason db).2.
Proof.
  unfold setStatus. destruct st as [s|s]; [|apply statusFrame_refl].
  case_bool_decide as Hin; [|apply statusFrame_refl].
  unfold setStatus_body. handler.
  destruct (orders db !! id) as [order|] eqn:Hfind; [|apply statusFrame_refl].
  case_bool_decide; [apply statusFrame_refl|].
  destruct (order_validate _); [|apply statusFrame_refl].
  unfold statusFrame. simpl. rewrite length_insert.
  repeat (split; [done|]). split.
  - intros j Hj. by rewrite list_lookup_insert_ne.
  - intros o o' Ho. rewrite Hfind in Ho. injection Ho as <-.
    rewrite list_lookup_insert_eq by (by eapply lookup_lt_Some).
    intros [= <-]. simpl. repeat split; try done.
    + by right.
    + case_bool_decide as Hc; [by right|by left].
Qed.

(** X8. The order of the checks of a status update. A status outside
    the five that the route enumerates is refused with 400 before the
    order is looked up, whoever asks and whether or not the order
    exists; an enumerated status for an id that the ledger does not have
    is answered 404; only then is the farmer compared, so a 401 tells
    the actor that the order exists and belongs to another farmer. *)
Theorem setStatus_check_order (user : string) (id : nat)
    (reason : option string) (db : Db) :
  (∀ s, setStatus user id (SOther s) reason db
        = (mkResponse 400 (BErrors ["Status is required"%string]), db))
  ∧ setStatus user id (SName Order.pending) reason db
    = (mkResponse 400 (BErrors ["Status is required"%string]), db)
  ∧ (∀ st, st ∈ updatable →
       (orders db !! id = None →
          setStatus user id (SName st) reason db
          = (mkResponse 404 (BMessage "Order not found"), db))
       ∧ (code (setStatus user id (SName st) reason db).1 = 401 →
            ∃ o, orders db !! id = Some o ∧ Order.farmer o ≠ user)).
Proof.
  split; [done|]. split; [done|].
  intros st Hin. unfold setStatus. rewrite bool_decide_true by done.
  unfold setStatus_body. handler. split.
  - by intros ->.
  - destruct (orders db !! id) as [o|]; [|done].
    case_bool_decide as Hne.
    + intros _. by exists o.
    + by destruct (order_validate _).
Qed.

Lemma setStatus_check_order_witness :
  setStatus "F1" 7 (SName Order.shipped) None (Ex.ledger Order.pending)
  = (mkResponse 404 (BMessage "Order not found"), Ex.ledger Order.pending).
Proof.
  refine (proj1 (proj2 (proj2 (setStatus_check_order "F1" 7 None
            (Ex.ledger Order.pending))) Order.shipped _) _).
  - unfold updatable. set_solver.
  - reflexivity.
Defined.

(** ** Direct order creation: totals and stock *)

(** [product.save()] keeps the name and the price of a product. *)
Lemma save_keeps_name_price (p p' : Product.doc) (q : Z) :
  Product.save (Product.set_quantity q p) = Some p' →
  Product.price p' = Product.price p ∧ Product.name p' = Product.name p
  ∧ Product.farmer p' = Product.farmer p.
Proof.
  unfold Product.save. destruct (Product.validate _); [|done].
  by intros [= <-].
Qed.

Lemma validateItems_lines (items : list itemReq) (db0 : Db) :
  ∀ (total : Z) (acc : list Order.lineInit) (db db' : Db) (total' : Z)
    (validated : list Order.lineInit),
  sameCatalog (products db0) (products db) →
  validateItems items total acc db = (Next (total', validated), db') →
  ∃ lines,
    validated = acc ++ lines
    ∧ total' = total + Zsum ((λ l, Order.li_price l * Order.li_quantity l) <$> lines)
    ∧ Forall2 (λ it l, ∃ id p, castObjectId (ir_product it) = Some id
                               ∧ products db0 !! id = Some p
                               ∧ l = directLine it p) items lines
    ∧ sameCatalog (products db0) (products db')
    ∧ orders db' = orders db ∧ carts db' = carts db.
Proof.
  induction items as [|item rest IH]; intros total acc db db' total' validated Hsame.
  - simpl. handler. intros [= <- <- <-]. exists [].
    rewrite app_nil_r. simpl. split; [done|]. split; [lia|].
    split; [constructor|]. done.
  - simpl. handler.
    destruct (castObjectId (ir_product item)) as [id|] eqn:Hcast; [|done].
    destruct (products db !! id) as [product|] eqn:Hp; [|done].
    destruct (Product.quantity product <? ir_quantity item); [done|].
    unfold product_save.
    destruct (Product.save _) as [p'|] eqn:Hsave; [|done].
    apply save_keeps_name_price in Hsave as (Hprice & Hname & _).
    intros H. apply IH in H as (lines & Hv & Ht & Hall & Hsame' & Ho & Hc).
    + pose proof (Hsame id) as Hid. rewrite Hp in Hid.
      destruct (products db0 !! id) as [p0|] eqn:Hp0; [|done].
      simpl in Hid. injection Hid as Hpr Hnm.
      exists (directLine item p0 :: lines).
      split; [by rewrite Hv, <- app_assoc, <- Hpr, <- Hnm|].
      split; [rewrite Ht; unfold Zsum, directLine;
              cbn [fmap list_fmap foldr Order.li_price Order.li_quantity];
              rewrite Hpr; lia|].
      split; [|done]. constructor; [|done]. by exists id, p0.
    + intros id'. simpl. destruct (decide (id = id')) as [<-|Hne].
      * rewrite lookup_insert_eq. simpl. rewrite Hprice, Hname.
        rewrite (Hsame id), Hp. done.
      * rewrite lookup_insert_ne by done. apply Hsame.
Qed.

(** X9. Whenever direct order creation gets as far as [new Order], the
    lines of the order are the items of the request in their order,
    each with the quantity asked and the name and price of its product
    as the catalogue had them before the request, and the total of the
    order is the sum of price times quantity over these lines. No order
    and no cart has been written by then. *)
Theorem direct_order_lines_and_total (user : string) (r : createReq)
    (db db' : Db) (i : Order.init) :
  build_order user r db = (Next i, db') →
  Forall2 (λ it l, ∃ id p, castObjectId (ir_product it) = Some id
                           ∧ products db !! id = Some p
                           ∧ l = directLine it p)
          (c_items r) (Order.i_items i)
  ∧ Order.i_totalAmount i
    = Zsum ((λ l, Order.li_price l * Order.li_quantity l) <$> Order.i_items i)
  ∧ Order.i_consumer i = user
  ∧ orders db' = orders db ∧ carts db' = carts db.
Proof.
  unfold build_order. handler.
  destruct (validateItems (c_items r) 0 [] db) as [[[total validated]| |] db1] eqn:E;
    [|done..].
  eapply (validateItems_lines _ db) in E as (lines & Hv & Ht & Hall & _ & Ho & Hc);
    [|done].
  simpl in Hv. subst validated.
  destruct (firstProductFarmer lines) as [farmer|]; [|done].
  intros [= <- <-]. simpl. split; [done|]. split; [lia|]. done.
Qed.

Lemma direct_order_lines_and_total_witness :
  ∃ i db',
    build_order "u1" Ex.directReq Ex.db0 = (Next i, db')
    ∧ Order.i_totalAmount i
      = Zsum ((λ l, Order.li_price l * Order.li_quantity l) <$> Order.i_items i).
Proof.
  eexists _, _. split; [vm_compute; reflexivity|].
  refine (proj1 (proj2 (direct_order_lines_and_total "u1" Ex.directReq Ex.db0 _ _ _))).
  vm_compute. reflexivity.
Defined.

(** X10. Direct order creation is not atomic. When the items before
    the first one that fails are in stock, each for a different
    product, and the failing one names an unknown product, the answer
    is 404, no order is stored, and the stock taken for the earlier
    items stays taken. *)
Theorem direct_order_keeps_earlier_decrements (user : string) (r : createReq)
    (db : Db) (pre post : list itemReq) (bad : itemReq) (badId : string) :
  validate_create r = [] →
  c_items r = pre ++ bad :: post →
  NoDup (ir_product <$> pre) →
  (∀ it, it ∈ pre →
     ∃ id p, ir_product it = JStr id ∧ products db !! id = Some p
             ∧ ir_quantity it <= Product.quantity p) →
  ir_product bad = JStr badId →
  products db !! badId = None →
  ∃ db',
    create user r db
    = (mkResponse 404 (BMessage ("Product " +:+ badId +:+ " not found")), db')
    ∧ orders db' = orders db
    ∧ (∀ it id p, it ∈ pre → ir_product it = JStr id →
         products db !! id = Some p →
         Product.quantity <$> products db' !! id
         = Some (Product.quantity p - ir_quantity it)).
Proof.
  intros Hvalid Hitems Hnd Hstock Hbad Hmissing.
  assert (Hloop : ∀ pre total acc db1,
            NoDup (ir_product <$> pre) →
            (∀ it, it ∈ pre →
               ∃ id p, ir_product it = JStr id ∧ products db1 !! id = Some p
                       ∧ ir_quantity it <= Product.quantity p) →
            products db1 !! badId = None →
            ∃ db',
              validateItems (pre ++ bad :: post) total acc db1
              = (Return (mkResponse 404
                           (BMessage ("Product " +:+ badId +:+ " not found"))), db')
              ∧ orders db' = orders db1
              ∧ (∀ it id p, it ∈ pre → ir_product it = JStr id →
                   products db1 !! id = Some p →
                   Product.quantity <$> products db' !! id
                   = Some (Product.quantity p - ir_quantity it))
              ∧ (∀ id, JStr id ∉ ir_product <$> pre →
                   products db' !! id = products db1 !! id)).
  { clear Hvalid Hitems Hnd Hstock Hmissing pre.
    intros pre. induction pre as [|it pre IH];
      intros total acc db1 Hnd Hstock Hmissing.
    - exists db1. simpl. handler. rewrite Hbad. simpl. rewrite Hmissing.
      split; [done|]. split; [done|]. split; [|done].
      intros it id p Hin. by apply elem_of_nil in Hin.
    - rewrite fmap_cons, NoDup_cons in Hnd. destruct Hnd as [Hfresh Hnd].
      destruct (Hstock it) as (id & p & Hid & Hp & Hq); [by left|].
      simpl. handler. rewrite Hid. simpl. rewrite Hp.
      replace (Product.quantity p <? ir_quantity it) with false
        by (symmetry; apply Z.ltb_ge; lia).
      unfold product_save, Product.save, Product.validate. simpl Product.quantity.
      replace (0 <=? Product.quantity p - ir_quantity it) with true
        by (symmetry; apply Z.leb_le; lia).
      assert (Hother : ∀ id', JStr id' ∈ ir_product <$> pre → id' ≠ id).
      { intros id' Hin ->. apply Hfresh. by rewrite Hid. }
      edestruct (IH (total + Product.price p * ir_quantity it)
                   (acc ++ [Order.mkLineInit (JStr id) (ir_quantity it)
                              (Product.price p) (Product.name p)])
                   (set_products
                      (<[id := Product.pre_save
                                 (Product.set_quantity
                                    (Product.quantity p - ir_quantity it) p)]>
                         (products db1)) db1))
        as (db' & Hrun & Ho & Hdec & Hrest); [done| | |].
      + intros it' Hin'. destruct (Hstock it') as (id' & p' & Hid' & Hp' & Hq');
          [by right|]. exists id', p'. split; [done|]. split; [|done].
        simpl. rewrite lookup_insert_ne; [done|].
        intros <-. eapply Hother; [|done]. rewrite <- Hid'.
        apply list_elem_of_fmap. by exists it'.
      + simpl. rewrite lookup_insert_ne; [done|]. intros ->. congruence.
      + exists db'. split; [exact Hrun|]. split; [done|]. split.
        * intros it' id' p' Hin' Hid' Hp'.
          apply elem_of_cons in Hin' as [->|Hin'].
          -- rewrite Hid in Hid'. injection Hid' as <-.
             rewrite Hp in Hp'. injection Hp' as <-.
             rewrite Hrest.
             ++ simpl. by rewrite lookup_insert_eq.
             ++ by rewrite <- Hid.
          -- apply (Hdec it' id' p' Hin' Hid'). simpl.
             rewrite lookup_insert_ne; [done|].
             intros <-. eapply Hother; [|done]. rewrite <- Hid'.
             apply list_elem_of_fmap. by exists it'.
        * intros id' Hnotin. rewrite not_elem_of_cons in Hnotin.
          destruct Hnotin as [Hne Hnotin]. rewrite Hrest by done. simpl.
          rewrite lookup_insert_ne; [done|]. intros <-. by apply Hne. }
  destruct (Hloop pre 0 [] db Hnd Hstock Hmissing) as (db' & Hrun & Ho & Hdec & _).
  exists db'. split; [|done].
  unfold create. rewrite Hvalid. unfold route, create_body, build_order. handler.
  by rewrite Hitems, Hrun.
Qed.

End LedgerFrame.

Lemma direct_order_keeps_earlier_decrements_witness :
  let r := OrdersRoute.mkCreateReq
             [OrdersRoute.mkItemReq (JStr "A") 2; OrdersRoute.mkItemReq (JStr "Z") 1]
             (Some "online"%string) (Some Ex.ship) None in
  ∃ db',
    OrdersRoute.create "u1" r Ex.db0
    = (mkResponse 404 (BMessage ("Product " +:+ "Z" +:+ " not found")), db')
    ∧ orders db' = orders Ex.db0
    ∧ (∀ it id p, it ∈ [OrdersRoute.mkItemReq (JStr "A") 2] →
         OrdersRoute.ir_product it = JStr id →
         products Ex.db0 !! id = Some p →
         Product.quantity <$> products db' !! id
         = Some (Product.quantity p - OrdersRoute.ir_quantity it)).
Proof.
  refine (direct_order_keeps_earlier_decrements "u1" _ Ex.db0
            [OrdersRoute.mkItemReq (JStr "A") 2] [] (OrdersRoute.mkItemReq (JStr "Z") 1)
            "Z" _ _ _ _ _ _).
  - reflexivity.
  - reflexivity.
  - simpl. apply NoDup_singleton.
  - intros it Hin. apply list_elem_of_singleton in Hin as ->.
    exists "A"%string, Ex.apples. split; [reflexivity|].
    split; [reflexivity|simpl; lia].
  - reflexivity.
  - reflexivity.
Defined.

(** ** Checkout: all or nothing, and what a success leaves behind *)

Section CheckoutMore.
Import Checkout.

Lemma groupItems_return (items : list Cart.item) (g : Groups) (tx tx' : Tx)
    (resp : Response) :
  groupItems items g tx = (Return resp, tx') →
  code resp = 400 ∨ code resp = 404.
Proof.
  revert g tx. induction items as [|it items IH]; intros g tx.
  - simpl. handler. done.
  - simpl. handler. unfold populated.
    destruct (products (work tx) !! Cart.product it) as [p|];
      [|intros [= <- _]; by right].
    destruct (Product.quantity p <? Cart.quantity it);
      [intros [= <- _]; by left|].
    unfold product_save. destruct (Product.save _) as [p'|]; [|done].
    apply IH.
Qed.

Lemma createOrders_no_return (user : string) (r : checkoutReq) (g : Groups)
    (acc : list Order.doc) (tx tx' : Tx) (resp : Response) :
  createOrders user r g acc tx ≠ (Return resp, tx').
Proof.
  revert acc tx. induction g as [|[f ls] g IH]; intros acc tx.
  - simpl. handler. done.
  - simpl. handler. unfold order_save.
    destruct (Order.create _) as [o|]; [|done]. apply IH.
Qed.

(** X11. Checkout is all or nothing, whatever the request and whatever
    the database. Either the answer is 201 and the transaction is
    committed, or the answer is 400, 404 or 500 and the database after
    the request is the database before it: no failure leaves an order, a
    stock decrement or a cart change behind. *)
Theorem checkout_all_or_nothing (user : string) (r : checkoutReq) (db : Db) :
  let result := checkout user r db in
  (code result.1 = 201 ∧ txState result.2 = TxCommitted)
  ∨ ((code result.1 = 400 ∨ code result.1 = 404 ∨ code result.1 = 500)
     ∧ txState result.2 ≠ TxCommitted
     ∧ after result.2 = db).
Proof.
  unfold checkout, body.
  destruct (validate r); [right; simpl; auto|]. handler. unfold findCart. simpl.
  destruct (carts db !! user) as [cart|]; [|right; simpl; auto].
  case_bool_decide; [right; simpl; auto|].
  destruct (groupItems (Cart.items cart) [] _) as [[g|resp|e] tx1] eqn:Hg;
    pose proof Hg as Hg';
    apply groupItems_frame in Hg as (Hc1 & Hs1 & _); simpl in Hc1, Hs1.
  2:{ right. apply groupItems_return in Hg'. unfold after. simpl.
      rewrite Hs1, Hc1. split; [tauto|]. done. }
  2:{ right. unfold after. simpl. rewrite Hc1. auto. }
  destruct (createOrders user r g [] tx1) as [[os|resp|e] tx2] eqn:Ho.
  2:{ by apply createOrders_no_return in Ho. }
  2:{ apply createOrders_frame in Ho as (Hc2 & _). right. unfold after. simpl.
      rewrite Hc2, Hc1. auto. }
  apply createOrders_frame in Ho as (Hc2 & Hs2 & _).
  unfold Checkout.cart_save, cart_saved. simpl. left. done.
Qed.

(** X12. The rejections that come before the loop over the cart. A
    request without a payment method, and one without an address, are
    answered 400 before anything is read; a consumer without a cart, or
    with a cart that has no items, is answered 400 "Your cart is empty"
    after the one read of the cart. None of them stores anything, and
    each leaves the transaction that the handler opened neither
    committed nor aborted. *)
Theorem checkout_early_rejections (user : string) (r : checkoutReq) (db : Db) :
  (truthy (paymentMethod r) = false →
     checkout user r db
     = (mkResponse 400 (BMessage "Payment method is required"),
        startTransaction db))
  ∧ (truthy (paymentMethod r) = true →
     truthy (shippingDetails r ≫= address) = false →
     checkout user r db
     = (mkResponse 400 (BMessage "Shipping details are required"),
        startTransaction db))
  ∧ (validate r = None →
     (carts db !! user = None ∨ ∃ c, carts db !! user = Some c ∧ Cart.items c = []) →
     checkout user r db
     = (mkResponse 400 (BMessage "Your cart is empty"),
        mkTx db db TxOpen [FindCart user])).
Proof.
  split; [|split].
  - intros Hpm. unfold checkout, body, validate. by rewrite Hpm.
  - intros Hpm Hsd. unfold checkout, body, validate. by rewrite Hpm, Hsd.
  - intros Hv Hcart. unfold checkout, body. rewrite Hv. handler.
    unfold findCart. simpl.
    destruct Hcart as [->|(c & -> & Hnil)]; [done|].
    by rewrite bool_decide_true.
Qed.

Lemma checkout_early_rejections_witness :
  checkout "u9" Ex.req Ex.db2
  = (mkResponse 400 (BMessage "Your cart is empty"),
     mkTx Ex.db2 Ex.db2 TxOpen [FindCart "u9"]).
Proof.
  refine (proj2 (proj2 (checkout_early_rejections "u9" Ex.req Ex.db2)) _ _).
  - reflexivity.
  - left. reflexivity.
Defined.

(** X13. A cart item whose product is gone fails the whole checkout
    too. When the items before it are in stock (one line per product),
    the handler answers 404 "Product not found"; the decrements it had
    saved for the earlier items are inside the transaction, which is
    left open, and the database after the request is the database
    before it. *)
Theorem checkout_missing_product (user : string) (r : checkoutReq) (db : Db)
    (cart : Cart.doc) (pre post : list Cart.item) (gone : Cart.item) :
  validate r = None →
  carts db !! user = Some cart →
  Cart.items cart = pre ++ gone :: post →
  oneLinePerProduct (pre ++ [gone]) →
  (∀ it, it ∈ pre →
     ∃ p, products db !! Cart.product it = Some p
          ∧ Cart.quantity it <= Product.quantity p) →
  products db !! Cart.product gone = None →
  ∃ tx,
    checkout user r db = (mkResponse 404 (BMessage "Product not found"), tx)
    ∧ txState tx = TxOpen
    ∧ after tx = db
    ∧ log tx = FindCart user :: (SaveProduct ∘ Cart.product <$> pre)
    ∧ products (work tx) = reserved (products db) pre (products db).
Proof.
  intros Hv Hfind Hitems Hone Hstock Hgone.
  assert (Hloop : ∀ pre g tx,
            oneLinePerProduct (pre ++ [gone]) →
            (∀ it, it ∈ pre →
               products (work tx) !! Cart.product it
               = products db !! Cart.product it) →
            products (work tx) !! Cart.product gone = None →
            (∀ it, it ∈ pre →
               ∃ p, products db !! Cart.product it = Some p
                    ∧ Cart.quantity it <= Product.quantity p) →
            groupItems (pre ++ gone :: post) g tx
            = (Return (mkResponse 404 (BMessage "Product not found")),
               mkTx (committed tx)
                 (set_products (reserved (products db) pre (products (work tx)))
                    (work tx))
                 (txState tx)
                 (log tx ++ (SaveProduct ∘ Cart.product <$> pre)))).
  { clear. intros pre. induction pre as [|it pre IH];
      intros g tx Hone Hagree Hgone Hstock.
    - simpl. handler. unfold populated. rewrite Hgone. by rewrite tx_eta.
    - unfold oneLinePerProduct in Hone. simpl in Hone.
      rewrite NoDup_cons in Hone. destruct Hone as [Hfresh Hnd].
      rewrite fmap_app, elem_of_app in Hfresh.
      destruct (Hstock it) as (p & Hp & Hq); [by left|].
      rewrite <- app_comm_cons. simpl groupItems. handler. unfold populated.
      rewrite (Hagree it) by (by left). rewrite Hp.
      replace (Product.quantity p <? Cart.quantity it) with false
        by (symmetry; apply Z.ltb_ge; lia).
      unfold product_save, Product.save, Product.validate. simpl Product.quantity.
      replace (0 <=? Product.quantity p - Cart.quantity it) with true
        by (symmetry; apply Z.leb_le; lia).
      rewrite IH.
      + f_equal. unfold write, reserved. simpl. rewrite Hp. f_equal.
        by rewrite <- app_assoc.
      + done.
      + intros it' Hin. simpl. rewrite lookup_insert_ne.
        * apply Hagree. by right.
        * intros Heq. apply Hfresh. left. rewrite Heq.
          apply list_elem_of_fmap. by exists it'.
      + simpl. rewrite lookup_insert_ne; [done|].
        intros Heq. apply Hfresh. right. rewrite Heq. simpl. by left.
      + intros it' Hin. apply Hstock. by right. }
  eexists. split; [|split; [|split; [|split]]].
  - unfold checkout, body. rewrite Hv. handler. unfold findCart. simpl.
    rewrite Hfind. rewrite bool_decide_false.
    + rewrite Hitems. rewrite Hloop; try done.
    + rewrite Hitems. by destruct pre.
  - done.
  - done.
  - done.
  - done.
Qed.

Lemma checkout_missing_product_witness :
  let cart := Cart.mk "u1" [Cart.mkItem "i1" "A" 2; Cart.mkItem "i4" "Z" 1] 0 in
  let db := mkDb Ex.catalog {["u1"%string := cart]} [] [] [] in
  ∃ tx,
    checkout "u1" Ex.req db = (mkResponse 404 (BMessage "Product not found"), tx)
    ∧ txState tx = TxOpen
    ∧ after tx = db
    ∧ log tx = FindCart "u1" :: (SaveProduct ∘ Cart.product <$> [Cart.mkItem "i1" "A" 2])
    ∧ products (work tx)
      = reserved (products db) [Cart.mkItem "i1" "A" 2] (products db).
Proof.
  intros cart db.
  refine (checkout_missing_product "u1" Ex.req db cart [Cart.mkItem "i1" "A" 2] []
            (Cart.mkItem "i4" "Z" 1) _ _ _ _ _ _).
  - reflexivity.
  - reflexivity.
  - reflexivity.
  - unfold oneLinePerProduct. simpl.
    apply NoDup_cons. split; [|apply NoDup_singleton].
    rewrite list_elem_of_singleton. discriminate.
  - intros it Hin. apply list_elem_of_singleton in Hin as ->.
    exists Ex.apples. split; [reflexivity|simpl; lia].
  - reflexivity.
Defined.

End CheckoutMore.

Section CheckoutSuccess.
Import Checkout.

Lemma push_keys_list (f : string) (l : Order.lineInit) (g : Groups) :
  (push f l g).*1 = if bool_decide (f ∈ g.*1) then g.*1 else g.*1 ++ [f].
Proof.
  induction g as [|[k ls] g IH].
  - rewrite bool_decide_false; [done|]. apply not_elem_of_nil.
  - cbn [push]. destruct (String.eqb_spec k f) as [->|Hne].
    + rewrite bool_decide_true; [done|]. rewrite fmap_cons. by left.
    + rewrite !fmap_cons, IH. cbn [fst]. case_bool_decide as Hin.
      * rewrite bool_decide_true; [done|]. by right.
      * rewrite bool_decide_false; [done|].
        rewrite not_elem_of_cons. split; [congruence|done].
Qed.

Lemma grouped_keys_list (ps : gmap string Product.doc) (items : list Cart.item)
    (g : Groups) :
  (grouped ps items g).*1
  = fold_left (λ acc x, if bool_decide (x ∈ acc) then acc else acc ++ [x])
      (farmersOf ps items) g.*1.
Proof.
  revert g. induction items as [|it items IH]; intros g; [done|].
  rewrite grouped_cons. unfold farmersOf in *. simpl.
  destruct (ps !! Cart.product it) as [p|]; simpl; rewrite IH; [|done].
  by rewrite push_keys_list.
Qed.

(** A successful checkout, with its orders and its session spelt out. *)
Lemma checkout_succeeds (user : string) (r : checkoutReq) (db : Db)
    (cart : Cart.doc) (pm : string) (sd : ShippingDetails) :
  paymentMethod r = Some pm → pm ∈ paymentMethods →
  shippingDetails r = Some sd → Order.shippingComplete sd = true →
  carts db !! user = Some cart →
  Cart.items cart ≠ [] →
  oneLinePerProduct (Cart.items cart) →
  (∀ it, it ∈ Cart.items cart →
     ∃ p, products db !! Cart.product it = Some p
          ∧ Cart.quantity it <= Product.quantity p) →
  let g := grouped (products db) (Cart.items cart) [] in
  let os := orderOf user pm sd (notes r) <$> g in
  ∃ tx,
    checkout user r db = (mkResponse 201 (BOrders os), tx)
    ∧ txState tx = TxCommitted
    ∧ products (work tx) = reserved (products db) (Cart.items cart) (products db)
    ∧ orders (work tx) = orders db ++ os
    ∧ log tx = FindCart user :: (SaveProduct ∘ Cart.product <$> Cart.items cart)
               ++ (SaveOrder ∘ fst <$> g) ++ [SaveCart (Cart.user cart)].
Proof.
  intros Hpm Hpmin Hsd Hcomplete Hfind Hnonempty Hone Hstock g os.
  assert (Hwf : wellFormed r) by (by exists pm, sd).
  pose proof (wellFormed_validate r Hwf) as Hvalid.
  set (ps := products db). set (items := Cart.items cart).
  assert (Hnd : NoDup g.*1) by (apply grouped_NoDup; constructor).
  assert (Hlines : ∀ f ls, (f, ls) ∈ g → ls = initLines ps f items).
  { intros f ls Hin. rewrite <- (linesOf_member g f ls Hnd Hin).
    unfold g. by rewrite grouped_linesOf. }
  assert (Hcast : Forall (λ entry : string * list Order.lineInit,
                     Forall (λ l, Order.castLine l = Some (toLine l)) entry.2) g).
  { apply Forall_forall. intros [f ls] Hin. simpl.
    rewrite (Hlines f ls Hin). apply initLines_castable. }
  pose (tx0 := logOp (FindCart user) (startTransaction db)).
  pose proof (groupItems_ok ps items [] tx0 Hone (λ _ _, eq_refl) Hstock) as Hgroup.
  fold g in Hgroup.
  eexists. split; [|split; [|split; [|split]]].
  - unfold checkout, body. rewrite Hvalid. handler. unfold findCart. simpl.
    rewrite Hfind. rewrite bool_decide_false by done.
    fold tx0. fold items. rewrite Hgroup.
    rewrite (createOrders_ok user r pm sd g [] _ Hpm Hpmin Hsd Hcomplete Hcast).
    unfold Checkout.cart_save, cart_saved. simpl. reflexivity.
  - done.
  - done.
  - done.
  - simpl. rewrite <- !app_assoc. do 3 f_equal.
    match goal with
    | |- context [SaveCart (Cart.user ?x)] =>
        assert (Cart.user x = Cart.user cart) as ->
          by apply (cart_pre_save_items _ _ (Cart.set_items [] cart))
    end.
    done.
Qed.

(** X14. The order of the effects of a successful checkout. The orders
    of the answer come one per farmer in the order in which the farmers
    first occur in the cart. The handler reads the cart, saves the
    products in cart order, then saves the orders in that same farmer
    order, then saves the cart. *)
Theorem checkout_effects_in_order (user : string) (r : checkoutReq) (db : Db)
    (cart : Cart.doc) :
  wellFormed r →
  carts db !! user = Some cart →
  Cart.items cart ≠ [] →
  oneLinePerProduct (Cart.items cart) →
  (∀ it, it ∈ Cart.items cart →
     ∃ p, products db !! Cart.product it = Some p
          ∧ Cart.quantity it <= Product.quantity p) →
  ∃ os tx,
    checkout user r db = (mkResponse 201 (BOrders os), tx)
    ∧ Order.farmer <$> os
      = firstOccurrences (farmersOf (products db) (Cart.items cart))
    ∧ log tx
      = FindCart user :: (SaveProduct ∘ Cart.product <$> Cart.items cart)
        ++ (SaveOrder <$> firstOccurrences (farmersOf (products db) (Cart.items cart)))
        ++ [SaveCart (Cart.user cart)].
Proof.
  intros (pm & sd & Hpm & Hpmin & Hsd & Hcomplete) Hfind Hne Hone Hstock.
  destruct (checkout_succeeds user r db cart pm sd) as (tx & Hrun & _ & _ & _ & Hlog);
    try done.
  assert (Hkeys : (grouped (products db) (Cart.items cart) []).*1
                  = firstOccurrences (farmersOf (products db) (Cart.items cart)))
    by apply grouped_keys_list.
  eexists _, tx. split; [exact Hrun|]. split.
  - rewrite <- list_fmap_compose. by rewrite <- Hkeys.
  - rewrite Hlog. do 2 f_equal. rewrite <- Hkeys.
    by rewrite <- list_fmap_compose.
Qed.

Lemma checkout_effects_in_order_witness :
  ∃ os tx,
    checkout "u1" Ex.req Ex.db2 = (mkResponse 201 (BOrders os), tx)
    ∧ Order.farmer <$> os
      = firstOccurrences (farmersOf (products Ex.db2) (Cart.items Ex.cart2))
    ∧ log tx
      = FindCart "u1" :: (SaveProduct ∘ Cart.product <$> Cart.items Ex.cart2)
        ++ (SaveOrder <$> firstOccurrences (farmersOf (products Ex.db2) (Cart.items Ex.cart2)))
        ++ [SaveCart (Cart.user Ex.cart2)].
Proof.
  refine (checkout_effects_in_order "u1" Ex.req Ex.db2 Ex.cart2 _ _ _ _ _).
  - exists "online"%string, Ex.ship. split; [reflexivity|].
    split; [|split; reflexivity]. unfold paymentMethods. right. left.
  - reflexivity.
  - discriminate.
  - apply wellFormed_db2 with (u := "u1"%string). reflexivity.
  - intros it. simpl. rewrite !elem_of_cons, elem_of_nil.
    intros [->|[->|[]]]; simpl; eexists; (split; [reflexivity|simpl; lia]).
Defined.

(** X15. The catalogue after a successful checkout. A product that the
    cart does not mention is what it was. A product of the cart keeps
    its farmer, name and price, has the quantity it had minus the
    quantity of its cart line, and has the status that goes with that
    quantity: [sold_out] exactly when the line took all that was on
    hand. *)
Theorem checkout_catalogue_after_success (user : string) (r : checkoutReq)
    (db : Db) (cart : Cart.doc) :
  wellFormed r →
  carts db !! user = Some cart →
  Cart.items cart ≠ [] →
  oneLinePerProduct (Cart.items cart) →
  (∀ it, it ∈ Cart.items cart →
     ∃ p, products db !! Cart.product it = Some p
          ∧ Cart.quantity it <= Product.quantity p) →
  ∃ os tx,
    checkout user r db = (mkResponse 201 (BOrders os), tx)
    ∧ (∀ id, id ∉ Cart.product <$> Cart.items cart →
         products (after tx) !! id = products db !! id)
    ∧ (∀ it p, it ∈ Cart.items cart →
         products db !! Cart.product it = Some p →
         ∃ p', products (after tx) !! Cart.product it = Some p'
               ∧ Product.farmer p' = Product.farmer p
               ∧ Product.name p' = Product.name p
               ∧ Product.price p' = Product.price p
               ∧ Product.quantity p' = Product.quantity p - Cart.quantity it
               ∧ Product.consistent p'
               ∧ (Product.status p' = Product.sold_out
                  ↔ Cart.quantity it = Product.quantity p)).
Proof.
  intros (pm & sd & Hpm & Hpmin & Hsd & Hcomplete) Hfind Hne Hone Hstock.
  destruct (checkout_succeeds user r db cart pm sd) as (tx & Hrun & Hs & Hp & _);
    try done.
  assert (Hafter : products (after tx)
                   = reserved (products db) (Cart.items cart) (products db))
    by (unfold after; by rewrite Hs).
  eexists _, tx. split; [exact Hrun|]. rewrite Hafter. split.
  - intros id Hid. by apply reserved_other.
  - intros it p Hin Hlook.
    rewrite (reserved_lookup _ _ _ it p Hone Hin Hlook).
    eexists. split; [done|]. simpl. repeat (split; [done|]).
    destruct (Hstock it Hin) as (p0 & Hp0 & Hq).
    rewrite Hlook in Hp0. injection Hp0 as <-.
    assert (Hc : Product.consistent
                   (Product.pre_save
                      (Product.set_quantity (Product.quantity p - Cart.quantity it) p)))
      by (apply pre_save_consistent; simpl; lia).
    split; [exact Hc|].
    destruct Hc as (_ & _ & Hsold). simpl in Hsold. rewrite Hsold. lia.
Qed.

Lemma checkout_catalogue_after_success_witness :
  ∃ os tx,
    checkout "u1" Ex.req Ex.db2 = (mkResponse 201 (BOrders os), tx)
    ∧ (∀ id, id ∉ Cart.product <$> Cart.items Ex.cart2 →
         products (after tx) !! id = products Ex.db2 !! id)
    ∧ (∀ it p, it ∈ Cart.items Ex.cart2 →
         products Ex.db2 !! Cart.product it = Some p →
         ∃ p', products (after tx) !! Cart.product it = Some p'
               ∧ Product.farmer p' = Product.farmer p
               ∧ Product.name p' = Product.name p
               ∧ Product.price p' = Product.price p
               ∧ Product.quantity p' = Product.quantity p - Cart.quantity it
               ∧ Product.consistent p'
               ∧ (Product.status p' = Product.sold_out
                  ↔ Cart.quantity it = Product.quantity p)).
Proof.
  refine (checkout_catalogue_after_success "u1" Ex.req Ex.db2 Ex.cart2 _ _ _ _ _).
  - exists "online"%string, Ex.ship. split; [reflexivity|].
    split; [|split; reflexivity]. unfold paymentMethods. right. left.
  - reflexivity.
  - discriminate.
  - apply wellFormed_db2 with (u := "u1"%string). reflexivity.
  - intros it. simpl. rewrite !elem_of_cons, elem_of_nil.
    intros [->|[->|[]]]; simpl; eexists; (split; [reflexivity|simpl; lia]).
Defined.

End CheckoutSuccess.

(** ** Products: rating, creation and ownership *)

Section Products.
Import ProductsRoute.

Lemma insert_same_key {A B} `{EqDecision B} (f : A → B) (l : list A) (i : nat)
    (x y : A) :
  l !! i = Some x → f y = f x → f <$> <[i := y]> l = f <$> l.
Proof.
  intros Hi Hf. rewrite list_fmap_insert, Hf.
  apply list_insert_id. by rewrite list_lookup_fmap, Hi.
Qed.

Lemma ratings_total_bounds (l : list Product.rating) (acc : Z) :
  (∀ r, r ∈ l → 1 <= Product.r_rating r <= 5) →
  acc + Z.of_nat (length l)
  <= fold_left (λ acc item, acc + Product.r_rating item) l acc
  <= acc + 5 * Z.of_nat (length l).
Proof.
  revert acc. induction l as [|r l IH]; intros acc Hall; simpl; [lia|].
  assert (1 <= Product.r_rating r <= 5) by (apply Hall; by left).
  specialize (IH (acc + Product.r_rating r)).
  assert (∀ r0, r0 ∈ l → 1 <= Product.r_rating r0 <= 5)
    by (intros r0 Hr0; apply Hall; by right).
  specialize (IH H0). lia.
Qed.

(** X16. A consumer has one rating per product. For a stored product
    (quantity not negative, at most one rating per user) a rating
    between 1 and 5 with a review is answered 200, and in the stored
    product the consumer has exactly one rating, the one just given;
    the ratings of the other users are what they were; farmer, name,
    price and quantity are kept, and the status is the one that goes
    with the quantity, whatever status was stored before. *)
Theorem rate_one_rating_per_user (db : Db) (user id review : string)
    (rating : Z) (p : Product.doc) :
  1 <= rating <= 5 → review ≠ EmptyString →
  products db !! id = Some p →
  0 <= Product.quantity p →
  NoDup (Product.r_user <$> Product.ratings p) →
  let mine := Product.mkRating user rating review in
  ∃ p',
    rate user id rating review db
    = (mkResponse 200 (BProduct (Some p')),
       set_products (<[id := p']> (products db)) db)
    ∧ NoDup (Product.r_user <$> Product.ratings p')
    ∧ mine ∈ Product.ratings p'
    ∧ (∀ r, r ∈ Product.ratings p' → Product.r_user r = user → r = mine)
    ∧ filter (λ r, Product.r_user r ≠ user) (Product.ratings p')
      = filter (λ r, Product.r_user r ≠ user) (Product.ratings p)
    ∧ Product.farmer p' = Product.farmer p ∧ Product.name p' = Product.name p
    ∧ Product.price p' = Product.price p
    ∧ Product.quantity p' = Product.quantity p
    ∧ Product.consistent p'.
Proof.
  intros Hr Hrev Hp Hq Hnd mine.
  set (ratings' :=
         match CartRoute.findIndex (λ r, String.eqb (Product.r_user r) user)
                 (Product.ratings p) with
         | Some i => <[i := mine]> (Product.ratings p)
         | None => Product.ratings p ++ [mine]
         end).
  set (total := fold_left (λ acc item, acc + Product.r_rating item) ratings' 0).
  set (p1 := Product.mk (Product.farmer p) (Product.name p) (Product.price p)
               (Product.quantity p) (Product.status p) ratings'
               (inject_Z total / inject_Z (Z.of_nat (length ratings')))%Q).
  exists (Product.pre_save p1).
  split.
  { unfold rate, check.
    replace ((1 <=? rating) && (rating <=? 5)) with true
      by (symmetry; apply andb_true_intro; split; apply Z.leb_le; lia).
    rewrite (proj2 (String.eqb_neq _ _) Hrev). simpl.
    unfold route, rate_body. handler. rewrite Hp.
    fold mine ratings' total p1.
    unfold Product.save, Product.validate.
    by replace (0 <=? Product.quantity p1) with true
      by (symmetry; by apply Z.leb_le). }
  assert (Hcons : Product.consistent (Product.pre_save p1))
    by (by apply pre_save_consistent).
  simpl. unfold ratings'.
  destruct (CartRoute.findIndex _ _) as [i|] eqn:Hidx.
  - apply findIndex_Some in Hidx as (x & Hi & Hx). apply String.eqb_eq in Hx.
    assert (Hfm : Product.r_user <$> <[i := mine]> (Product.ratings p)
                  = Product.r_user <$> Product.ratings p)
      by (by eapply insert_same_key).
    split; [by rewrite Hfm|]. split; [|split; [|split; [|done]]].
    + apply list_elem_of_lookup. exists i.
      apply list_lookup_insert_eq. by eapply lookup_lt_Some.
    + intros r Hin Hru. apply list_elem_of_lookup in Hin as [j Hj].
      destruct (decide (i = j)) as [<-|Hij].
      * rewrite list_lookup_insert_eq in Hj by (by eapply lookup_lt_Some).
        by injection Hj.
      * rewrite list_lookup_insert_ne in Hj by done.
        exfalso. apply Hij. eapply NoDup_lookup; [exact Hnd| |].
        -- by rewrite list_lookup_fmap, Hi.
        -- rewrite list_lookup_fmap, Hj. simpl. congruence.
    + clear -Hi Hx. revert i Hi. generalize (Product.ratings p). intros l.
      induction l as [|y l IH]; intros [|i]; simpl; try done.
      * intros [= ->]. rewrite !filter_cons. simpl.
        rewrite !decide_False; [done| |]; intros H; by apply H.
      * intros Hi. rewrite !filter_cons.
        destruct (decide _); [f_equal|]; by apply IH.
  - pose proof (findIndex_None _ _ Hidx) as Hnone.
    assert (Hnotin : user ∉ Product.r_user <$> Product.ratings p).
    { intros Hin. apply list_elem_of_fmap in Hin as (y & Hy & Hyin).
      specialize (Hnone y Hyin). simpl in Hnone.
      rewrite <- Hy, String.eqb_refl in Hnone. done. }
    split; [|split; [|split; [|split; [|done]]]].
    + rewrite fmap_app. apply NoDup_app. split; [done|].
      split; [|apply NoDup_singleton].
      intros u Hu Hu'. apply list_elem_of_singleton in Hu'. by subst u.
    + apply elem_of_app. right. by left.
    + intros r Hin Hru. apply elem_of_app in Hin as [Hin|Hin].
      * exfalso. apply Hnotin. apply list_elem_of_fmap. by exists r.
      * by apply list_elem_of_singleton in Hin.
    + rewrite filter_app, filter_cons. simpl.
      rewrite decide_False by (intros H; by apply H).
      by rewrite filter_nil, app_nil_r.
Qed.

Lemma rate_one_rating_per_user_witness :
  ∃ p',
    rate "u1" "A" 4 "fresh" Ex.db0
    = (mkResponse 200 (BProduct (Some p')),
       set_products (<["A"%string := p']> (products Ex.db0)) Ex.db0)
    ∧ NoDup (Product.r_user <$> Product.ratings p')
    ∧ Product.mkRating "u1" 4 "fresh" ∈ Product.ratings p'
    ∧ (∀ r, r ∈ Product.ratings p' → Product.r_user r = "u1"%string →
         r = Product.mkRating "u1" 4 "fresh")
    ∧ filter (λ r, Product.r_user r ≠ "u1"%string) (Product.ratings p')
      = filter (λ r, Product.r_user r ≠ "u1"%string) (Product.ratings Ex.apples)
    ∧ Product.farmer p' = Product.farmer Ex.apples
    ∧ Product.name p' = Product.name Ex.apples
    ∧ Product.price p' = Product.price Ex.apples
    ∧ Product.quantity p' = Product.quantity Ex.apples
    ∧ Product.consistent p'.
Proof.
  refine (rate_one_rating_per_user Ex.db0 "u1" "A" "fresh" 4 Ex.apples _ _ _ _ _).
  - lia.
  - discriminate.
  - reflexivity.
  - simpl. lia.
  - simpl. constructor.
Defined.

(** X17. The average rating stays within the scale. When the stored
    ratings of a product are between 1 and 5, the average that a new
    rating stores is between 1 and 5, and it is the sum of the ratings
    over their number. *)
Theorem rate_average_within_scale (db : Db) (user id review : string)
    (rating : Z) (p p' : Product.doc) (db' : Db) :
  1 <= rating <= 5 →
  products db !! id = Some p →
  (∀ r, r ∈ Product.ratings p → 1 <= Product.r_rating r <= 5) →
  rate user id rating review db = (mkResponse 200 (BProduct (Some p')), db') →
  (1 <= Product.averageRating p' <= 5)%Q
  ∧ (Product.averageRating p' * inject_Z (Z.of_nat (length (Product.ratings p')))
     == inject_Z (fold_left (λ acc item, (acc + Product.r_rating item)%Z)
                    (Product.ratings p') 0%Z))%Q
  ∧ (0 < length (Product.ratings p'))%nat.
Proof.
  intros Hr Hp Hall. unfold rate, check.
  destruct ((1 <=? rating) && (rating <=? 5)); [|done].
  destruct (negb (String.eqb review EmptyString)); [|done]. simpl.
  unfold route, rate_body. handler. rewrite Hp.
  set (ratings' :=
         match CartRoute.findIndex (λ r, String.eqb (Product.r_user r) user)
                 (Product.ratings p) with
         | Some i => <[i := Product.mkRating user rating review]> (Product.ratings p)
         | None => Product.ratings p ++ [Product.mkRating user rating review]
         end).
  assert (Hall' : ∀ r, r ∈ ratings' → 1 <= Product.r_rating r <= 5).
  { intros r. unfold ratings'. destruct (CartRoute.findIndex _ _) as [i|].
    - intros Hin. apply list_elem_of_lookup in Hin as [j Hj].
      destruct (decide (i = j)) as [<-|Hij].
      + destruct (decide (i < length (Product.ratings p))%nat).
        * rewrite list_lookup_insert_eq in Hj by done. by injection Hj as <-.
        * rewrite list_insert_ge in Hj by lia. apply Hall.
          by eapply list_elem_of_lookup_2.
      + rewrite list_lookup_insert_ne in Hj by done. apply Hall.
        by eapply list_elem_of_lookup_2.
    - intros Hin. apply elem_of_app in Hin as [Hin|Hin]; [by apply Hall|].
      by apply list_elem_of_singleton in Hin as ->. }
  assert (Hlen : (0 < length ratings')%nat).
  { unfold ratings'. destruct (CartRoute.findIndex _ _) as [i|] eqn:Hidx.
    - apply findIndex_Some in Hidx as (x & Hi & _).
      rewrite length_insert. apply lookup_lt_Some in Hi. lia.
    - rewrite length_app. simpl. lia. }
  pose proof (ratings_total_bounds ratings' 0 Hall') as Hb.
  set (total := fold_left (λ acc item, acc + Product.r_rating item) ratings' 0) in *.
  destruct (Product.save _) as [saved|] eqn:Hsave; [|done].
  intros [= <- _]. unfold Product.save in Hsave.
  destruct (Product.validate _); [|done]. injection Hsave as <-. simpl.
  set (n := Z.of_nat (length ratings')) in *.
  assert (Hn : 0 < n) by (unfold n; lia).
  assert (Hnq : ¬ (inject_Z n == 0)%Q).
  { unfold Qeq. simpl. lia. }
  split; [|split; [|done]].
  - split.
    + apply Qle_shift_div_l; [unfold Qlt; simpl; lia|].
      rewrite Qmult_1_l. rewrite <- Zle_Qle. lia.
    + apply Qle_shift_div_r; [unfold Qlt; simpl; lia|].
      unfold Qle. cbn [Qmult inject_Z Qnum Qden]. lia.
  - change (inject_Z total / inject_Z n * inject_Z n == inject_Z total)%Q.
    generalize dependent (inject_Z n). generalize (inject_Z total).
    intros t q Hq. field. exact Hq.
Qed.

Lemma rate_average_within_scale_witness :
  ∃ p' db',
    rate "u1" "A" 4 "fresh" Ex.db0 = (mkResponse 200 (BProduct (Some p')), db')
    ∧ (1 <= Product.averageRating p' <= 5)%Q.
Proof.
  eexists _, _. split; [vm_compute; reflexivity|].
  refine (proj1 (rate_average_within_scale Ex.db0 "u1" "A" "fresh" 4 Ex.apples
                   _ _ _ _ _ _)).
  - lia.
  - reflexivity.
  - intros r Hin. by apply elem_of_nil in Hin.
  - vm_compute. reflexivity.
Defined.



(** X19. Only the farmer of a product updates it. PUT /api/products/:id
    by anyone else is answered 401 and stores nothing, whatever the
    body; for an unknown id the answer is 404. *)
Theorem product_update_requires_owner (db : Db) (user id : string)
    (r : updateReq) :
  u_name r ≠ Some EmptyString →
  (products db !! id = None →
     update user id r db = (mkResponse 404 (BMessage "Product not found"), db))
  ∧ (∀ p, products db !! id = Some p → Product.farmer p ≠ user →
       update user id r db = (mkResponse 401 (BMessage "Not authorized"), db))
  ∧ ((update user id r db).2 ≠ db →
       ∃ p, products db !! id = Some p ∧ Product.farmer p = user).
Proof.
  intros Hname.
  assert (Hpre : update user id r db = route (update_body user id r) onError db).
  { unfold update, check. by rewrite bool_decide_false. }
  rewrite Hpre. unfold route, update_body. handler.
  split; [|split].
  - by intros ->.
  - intros p -> Hne. by rewrite bool_decide_true.
  - destruct (products db !! id) as [p|] eqn:Hp; [|done].
    case_bool_decide as Hf; [done|]. intros _. exists p. split; [done|].
    by destruct (decide (Product.farmer p = user)).
Qed.

Lemma product_update_requires_owner_witness :
  update "F2" "A" (mkUpdate None (Some 1) None None) Ex.db0
  = (mkResponse 401 (BMessage "Not authorized"), Ex.db0).
Proof.
  refine (proj1 (proj2 (product_update_requires_owner Ex.db0 "F2" "A"
                          (mkUpdate None (Some 1) None None) _)) Ex.apples _ _).
  - discriminate.
  - reflexivity.
  - simpl. discriminate.
Defined.

End Products.

(** ** The prediction gateway: local heuristics, service answers, history *)

Section GatewayMore.
Import Gateway.

Lemma round_between (a b : Z) (x : Q) :
  (inject_Z a <= x)%Q → (x <= inject_Z b)%Q → a <= round x <= b.
Proof.
  intros Ha Hb. unfold round. split.
  - rewrite <- (Qfloor_Z a). apply Qfloor_resp_le. lra.
  - assert (H : Qfloor (x + (1 # 2)) < b + 1); [|lia].
    rewrite Zlt_Qlt. eapply Qle_lt_trans; [apply Qfloor_le|].
    rewrite inject_Z_plus. change (inject_Z 1) with 1%Q. lra.
Qed.



(** X20. The locally drawn weather never moves the yield. Whatever the
    draws, the temperature of [getWeatherData] is between 20 and 35,
    the humidity between 40 and 80 and the rainfall between 50 and 200,
    so none of the six conditions of [getWeatherMultiplier] holds and
    the multiplier of the local heuristic is 1. *)
Theorem mock_weather_is_neutral (rnd : Random) :
  (∀ k, (0 <= rnd k)%Q ∧ (rnd k < 1)%Q) →
  let w := getWeatherData rnd in
  20 <= YieldPrediction.temperature w <= 35
  ∧ 40 <= YieldPrediction.humidity w <= 80
  ∧ 50 <= YieldPrediction.rainfall w <= 200
  ∧ getWeatherMultiplier w = 1%Q.
Proof.
  intros Hr w.
  assert (Ht : 20 <= YieldPrediction.temperature w <= 35).
  { destruct (Hr 0%nat). apply round_between; unfold inject_Z; lra. }
  assert (Hh : 40 <= YieldPrediction.humidity w <= 80).
  { destruct (Hr 1%nat). apply round_between; unfold inject_Z; lra. }
  assert (Hf : 50 <= YieldPrediction.rainfall w <= 200).
  { destruct (Hr 2%nat). apply round_between; unfold inject_Z; lra. }
  repeat (split; [done|]). unfold getWeatherMultiplier.
  generalize dependent (YieldPrediction.temperature w).
  generalize dependent (YieldPrediction.humidity w).
  generalize dependent (YieldPrediction.rainfall w).
  intros f Hf h Hh t Ht.
  destruct (Z.ltb_spec t 15); [lia|]. destruct (Z.ltb_spec 35 t); [lia|].
  destruct (Z.ltb_spec h 30); [lia|]. destruct (Z.ltb_spec 90 h); [lia|].
  destruct (Z.ltb_spec f 50); [lia|]. destruct (Z.ltb_spec 300 f); [lia|].
  reflexivity.
Qed.

Lemma unit_draws : ∀ k : nat, (0 <= Ex.draws k)%Q ∧ (Ex.draws k < 1)%Q.
Proof. intros k. unfold Ex.draws. split; lra. Qed.

Lemma mock_weather_is_neutral_witness :
  getWeatherMultiplier (getWeatherData Ex.draws) = 1%Q.
Proof. exact (proj2 (proj2 (proj2 (mock_weather_is_neutral Ex.draws unit_draws)))). Defined.






Lemma validate_yield_fields (r : yieldReq) :
  validate_yield r = [] →
  negb (String.eqb (crop r) EmptyString) = true
  ∧ bool_decide (season r ∈ seasons) = true
  ∧ negb (String.eqb (soil_type r) EmptyString) = true.
Proof.
  unfold validate_yield, check.
  destruct (negb (String.eqb (crop r) EmptyString)); [|done].
  destruct (bool_decide (season r ∈ seasons)); [|done].
  by destruct (negb (String.eqb (soil_type r) EmptyString)).
Qed.

Lemma axios_timely {D} (latency status : Z) (data : D) :
  latency <= 15000 → 200 <= status < 300 →
  axios_post (Replies latency status data) 15000 = inr data.
Proof.
  intros Hl Hs. unfold axios_post.
  destruct (Z.ltb_spec 15000 latency); [lia|].
  destruct (Z.leb_spec 200 status); [|lia].
  by destruct (Z.ltb_spec status 300); [|lia].
Qed.

Lemma yield_answered (useMock : bool) (user : string) (r : yieldReq)
    (remote : Remote flaskYield) (data : flaskYield) (rnd : Random) (db : Db) :
  validate_yield r = [] →
  axios_post remote 15000 = inr data →
  yield_with useMock user r remote rnd db
  = route (_ ← yield_save
                 (newYieldPrediction user r
                    (mkYieldResult (fy_predicted_yield_kg data)
                       (fy_suggested_crops data) (fy_confidence data)
                       (fy_weather data)) (fy_is_mock data));
           respond 200
             (BYieldPrediction
                (newYieldPrediction user r
                   (mkYieldResult (fy_predicted_yield_kg data)
                      (fy_suggested_crops data) (fy_confidence data)
                      (fy_weather data)) (fy_is_mock data))))
      onError db.
Proof.
  intros Hv Hax. unfold yield_with. rewrite Hv.
  unfold yield_body, yieldAttempt. rewrite Hax. by handler.
Qed.

(** X23. A timely answer of the scoring service is what is recorded.
    When the service answers within 15000 ms with a 2xx status, the
    yield endpoint uses no draw and no local table: the stored and
    returned document carries the yield, the suggestions, the
    confidence, the weather and the mock flag of the service, whether
    local fallback is enabled or not. A confidence of the service
    outside [0, 1] fails the save: 500, nothing stored, and no
    fallback. *)
Theorem service_answer_is_recorded (useMock : bool) (user : string)
    (r : yieldReq) (latency status : Z) (data : flaskYield) (rnd : Random)
    (db : Db) :
  validate_yield r = [] →
  latency <= 15000 → 200 <= status < 300 →
  let doc :=
    YieldPrediction.mk user (latitude r, longitude r) (crop r) (season r)
      (area_of_land r) (soil_type r) (fy_weather data)
      (fy_predicted_yield_kg data) (fy_suggested_crops data)
      (fy_confidence data) (fy_is_mock data) in
  yield_with useMock user r (Replies latency status data) rnd db
  = if inUnit (fy_confidence data)
    then (mkResponse 200 (BYieldPrediction doc),
          set_yieldPredictions (yieldPredictions db ++ [doc]) db)
    else (serverError, db).
Proof.
  intros Hv Hl Hs doc.
  rewrite (yield_answered useMock user r _ data rnd db Hv
             (axios_timely latency status data Hl Hs)).
  destruct (validate_yield_fields r Hv) as (Hc & Hse & Hso).
  handler. unfold yield_save, newYieldPrediction.
  cbn [yr_confidence yr_weather yr_predicted_yield_kg yr_suggested_crops].
  fold doc. unfold yield_validate.
  cbn [YieldPrediction.crop YieldPrediction.season
       YieldPrediction.soil_type YieldPrediction.confidence doc].
  rewrite Hc, Hse, Hso. cbn [andb].
  by destruct (inUnit (fy_confidence data)).
Qed.

Lemma service_answer_is_recorded_witness :
  ∃ doc,
    yield_with true "F1" Ex.yreq (Replies 200 200 Ex.sample) Ex.draws Ex.db0
    = (mkResponse 200 (BYieldPrediction doc),
       set_yieldPredictions (yieldPredictions Ex.db0 ++ [doc]) Ex.db0)
    ∧ YieldPrediction.isMock doc = false.
Proof.
  eexists. split.
  - refine (service_answer_is_recorded true "F1" Ex.yreq 200 200 Ex.sample
              Ex.draws Ex.db0 _ _ _).
    + reflexivity.
    + lia.
    + lia.
  - reflexivity.
Defined.



End GatewayMore.

Section HistoryRoutes.
Import Gateway History.

Lemma predict_200 (useMock : bool) (isURL : string → bool)
    (user imageUrl : string) (remote : Remote flaskDisease) (rnd : Random)
    (db db' : Db) (doc : Prediction.doc) :
  predict_with useMock isURL user imageUrl remote rnd db
  = (mkResponse 200 (BPrediction doc), db') →
  db' = set_predictions (predictions db ++ [doc]) db
  ∧ Prediction.farmerId doc = user.
Proof.
  unfold predict_with, check. destruct (isURL imageUrl); [|done].
  unfold route, predict_body, diseaseAttempt.
  destruct (axios_post remote 15000) as [e|data].
  - destruct useMock.
    + handler. unfold prediction_save.
      destruct (prediction_validate _); [|done].
      simpl. by intros [= <- <-].
    + handler. unfold onError. destruct e as [| | |c [s|]]; try done.
      destruct (String.eqb c "ECONNREFUSED"); done.
  - handler. unfold prediction_save.
    destruct (prediction_validate _); [|done].
    simpl. by intros [= <- <-].
Qed.

Lemma yield_200 (useMock : bool) (user : string) (r : yieldReq)
    (remote : Remote flaskYield) (rnd : Random)
    (db db' : Db) (doc : YieldPrediction.doc) :
  yield_with useMock user r remote rnd db
  = (mkResponse 200 (BYieldPrediction doc), db') →
  db' = set_yieldPredictions (yieldPredictions db ++ [doc]) db
  ∧ YieldPrediction.farmerId doc = user.
Proof.
  unfold yield_with. destruct (validate_yield r); [|done].
  unfold route, yield_body, yieldAttempt.
  destruct (axios_post remote 15000) as [e|data].
  - destruct useMock.
    + handler. unfold yield_save.
      destruct (yield_validate _); [|done].
      simpl. by intros [= <- <-].
    + handler. unfold onError. destruct e as [| | |c [s|]]; try done.
      destruct (String.eqb c "ECONNREFUSED"); done.
  - handler. unfold yield_save.
    destruct (yield_validate _); [|done].
    simpl. by intros [= <- <-].
Qed.

(** X25. A disease prediction that was answered 200 is in the history.
    After the request, the farmer's list starts with the returned
    document and continues with the list as it was; the lists of the
    other farmers are what they were; the document is read back by its
    id by its farmer, and anyone else is answered 401; the earlier
    documents are read as before. *)
Theorem prediction_history_round_trip (useMock : bool)
    (isURL : string → bool) (user imageUrl : string)
    (remote : Remote flaskDisease) (rnd : Random) (db db' : Db)
    (doc : Prediction.doc) :
  predict_with useMock isURL user imageUrl remote rnd db
  = (mkResponse 200 (BPrediction doc), db') →
  let id := length (predictions db) in
  predictions_of user db' = doc :: predictions_of user db
  ∧ (∀ other, other ≠ user → predictions_of other db' = predictions_of other db)
  ∧ prediction_by_id user id db' = mkResponse 200 (BPrediction doc)
  ∧ (∀ other, other ≠ user →
       prediction_by_id other id db' = mkResponse 401 (BMessage "Not authorized"))
  ∧ (∀ who j, (j < id)%nat →
       prediction_by_id who j db' = prediction_by_id who j db).
Proof.
  intros H id. apply predict_200 in H as [-> Hu].
  unfold predictions_of, prediction_by_id. cbn [predictions set_predictions].
  repeat split.
  - rewrite filter_app, filter_cons, filter_nil, decide_True by done.
    by rewrite reverse_app.
  - intros other Hne.
    rewrite filter_app, filter_cons, filter_nil, decide_False by congruence.
    by rewrite app_nil_r.
  - unfold id. rewrite lookup_app_r, Nat.sub_diag by lia. simpl.
    by rewrite bool_decide_false by (intros Hx; by apply Hx).
  - intros other Hne. unfold id.
    rewrite lookup_app_r, Nat.sub_diag by lia. simpl.
    by rewrite bool_decide_true by congruence.
  - intros who j Hj. by rewrite lookup_app_l by done.
Qed.

Lemma prediction_history_round_trip_witness :
  ∃ doc db',
    predict_with true (λ _, true) "F1" "http://img/1.png"
      (Replies 200 200 Ex.leaf) Ex.draws Ex.db0
    = (mkResponse 200 (BPrediction doc), db')
    ∧ predictions_of "F1" db' = doc :: predictions_of "F1" Ex.db0.
Proof.
  eexists _, _. split; [vm_compute; reflexivity|].
  refine (proj1 (prediction_history_round_trip true (λ _, true) "F1"
                   "http://img/1.png" (Replies 200 200 Ex.leaf) Ex.draws
                   Ex.db0 _ _ _)).
  vm_compute. reflexivity.
Defined.

(** X26. The same for the yield predictions: a request answered 200
    puts the returned document at the head of the farmer's history and
    leaves the histories of the other farmers alone; the document is
    read back by its id by its farmer only. *)
Theorem yield_history_round_trip (useMock : bool) (user : string)
    (r : yieldReq) (remote : Remote flaskYield) (rnd : Random) (db db' : Db)
    (doc : YieldPrediction.doc) :
  yield_with useMock user r remote rnd db
  = (mkResponse 200 (BYieldPrediction doc), db') →
  let id := length (yieldPredictions db) in
  yieldPredictions_of user db' = doc :: yieldPredictions_of user db
  ∧ (∀ other, other ≠ user →
       yieldPredictions_of other db' = yieldPredictions_of other db)
  ∧ yieldPrediction_by_id user id db' = mkResponse 200 (BYieldPrediction doc)
  ∧ (∀ other, other ≠ user →
       yieldPrediction_by_id other id db'
       = mkResponse 401 (BMessage "Not authorized"))
  ∧ (∀ who j, (j < id)%nat →
       yieldPrediction_by_id who j db' = yieldPrediction_by_id who j db).
Proof.
  intros H id. apply yield_200 in H as [-> Hu].
  unfold yieldPredictions_of, yieldPrediction_by_id.
  cbn [yieldPredictions set_yieldPredictions].
  repeat split.
  - rewrite filter_app, filter_cons, filter_nil, decide_True by done.
    by rewrite reverse_app.
  - intros other Hne.
    rewrite filter_app, filter_cons, filter_nil, decide_False by congruence.
    by rewrite app_nil_r.
  - unfold id. rewrite lookup_app_r, Nat.sub_diag by lia. simpl.
    by rewrite bool_decide_false by (intros Hx; by apply Hx).
  - intros other Hne. unfold id.
    rewrite lookup_app_r, Nat.sub_diag by lia. simpl.
    by rewrite bool_decide_true by congruence.
  - intros who j Hj. by rewrite lookup_app_l by done.
Qed.

Lemma yield_history_round_trip_witness :
  ∃ doc db',
    yield_with true "F1" Ex.yreq (Fails "ECONNREFUSED") Ex.draws Ex.db0
    = (mkResponse 200 (BYieldPrediction doc), db')
    ∧ yieldPredictions_of "F1" db' = doc :: yieldPredictions_of "F1" Ex.db0.
Proof.
  eexists _, _. split; [vm_compute; reflexivity|].
  refine (proj1 (yield_history_round_trip true "F1" Ex.yreq
                   (Fails "ECONNREFUSED") Ex.draws Ex.db0 _ _ _)).
  vm_compute. reflexivity.
Defined.

End HistoryRoutes.

(** ** The forum *)

Section ForumRoutes.
Import Forum.

Lemma findIndex_app_fresh {A} (f : A → bool) (l : list A) (y : A) :
  (∀ x, x ∈ l → f x = false) → f y = true →
  CartRoute.findIndex f (l ++ [y]) = Some (length l).
Proof.
  intros Hl Hy. induction l as [|x l IH]; simpl.
  - by rewrite Hy.
  - rewrite (Hl x) by (by left). rewrite IH; [done|].
    intros z Hz. apply Hl. by right.
Qed.

Lemma delete_middle {A} (l1 l2 : list A) (x : A) :
  delete (length l1) (l1 ++ x :: l2) = l1 ++ l2.
Proof. induction l1 as [|y l1 IH]; simpl; [done|]. by f_equal. Qed.

Lemma save_same_comments (id : string) (loaded p : post) (posts : Posts) :
  comments p = comments loaded → title p = title loaded →
  content p = content loaded → validate loaded = true →
  save id loaded p posts = Some (<[id := p]> posts).
Proof.
  intros Hc Ht Hco Hv. unfold save, pre_save.
  rewrite bool_decide_false by (intros H; by apply H).
  replace (validate p) with (validate loaded); [by rewrite Hv|].
  unfold validate. by rewrite Hc, Ht, Hco.
Qed.

Lemma like_result (user id : string) (posts : Posts) (p : post) :
  posts !! id = Some p → validate p = true →
  like user id posts
  = let l := match CartRoute.findIndex (λ like, String.eqb like user) (likes p) with
             | None => likes p ++ [user]
             | Some likeIndex => delete likeIndex (likes p)
             end in
    (mkReply 200 (JLikes l), <[id := set_likes l p]> posts).
Proof.
  intros Hp Hv. unfold like. rewrite Hp.
  destruct (CartRoute.findIndex _ _); by rewrite save_same_comments.
Qed.

(** X27. Liking toggles. For a valid stored post whose likes hold no
    user twice, the like route answers 200 with the new likes: the
    user is in them exactly when they were not before, every other
    user is in them exactly when they were before, and no user is in
    them twice; nothing else of the post changes. A user who had not
    liked the post and sends the request twice leaves the collection
    as it was. *)
Theorem like_toggles (user id : string) (posts : Posts) (p : post) :
  posts !! id = Some p → validate p = true → NoDup (likes p) →
  ∃ l,
    like user id posts
    = (mkReply 200 (JLikes l), <[id := set_likes l p]> posts)
    ∧ NoDup l
    ∧ (user ∈ l ↔ user ∉ likes p)
    ∧ (∀ other, other ≠ user → other ∈ l ↔ other ∈ likes p)
    ∧ (user ∉ likes p → (like user id (like user id posts).2).2 = posts).
Proof.
  intros Hp Hv Hnd. rewrite (like_result user id posts p) by done.
  cbv zeta.
  destruct (CartRoute.findIndex _ (likes p)) as [i|] eqn:Hidx.
  - apply findIndex_Some in Hidx as (x & Hi & Hx). apply String.eqb_eq in Hx.
    subst x. exists (delete i (likes p)). split; [done|].
    pose proof (take_drop_middle _ _ _ Hi) as Hsplit.
    assert (Hlen : length (take i (likes p)) = i).
    { apply length_take_le. apply lookup_lt_Some in Hi. lia. }
    assert (Hdel : delete i (likes p)
                   = take i (likes p) ++ drop (S i) (likes p)).
    { rewrite <- Hsplit at 1. rewrite <- Hlen at 1. apply delete_middle. }
    rewrite <- Hsplit in Hnd. apply NoDup_app in Hnd as (Hn1 & Hn2 & Hn3).
    apply NoDup_cons in Hn3 as [Hn3 Hn4].
    assert (Hin : user ∈ likes p) by (by eapply list_elem_of_lookup_2).
    rewrite Hdel. split; [|split; [|split; [|done]]].
    + apply NoDup_app. repeat split; try done.
      intros y Hy Hy'. apply (Hn2 y Hy). by right.
    + split; [|done]. intros Hu. exfalso.
      apply elem_of_app in Hu as [Hu|Hu]; [|done].
      apply (Hn2 user Hu). by left.
    + intros other Hne. rewrite <- Hsplit at 3.
      rewrite !elem_of_app, elem_of_cons. tauto.
  - pose proof (findIndex_None _ _ Hidx) as Hnone.
    assert (Hnot : user ∉ likes p).
    { intros Hin. specialize (Hnone user Hin). simpl in Hnone.
      by rewrite String.eqb_refl in Hnone. }
    exists (likes p ++ [user]). split; [done|].
    split; [|split; [|split]].
    + apply NoDup_app. repeat split; [done| |apply NoDup_singleton].
      intros y Hy Hy'. apply list_elem_of_singleton in Hy'. by subst.
    + split; [done|]. intros _. apply elem_of_app. right. by left.
    + intros other Hne. rewrite elem_of_app, list_elem_of_singleton. tauto.
    + intros _. cbn [snd].
      rewrite (like_result user id _ (set_likes (likes p ++ [user]) p));
        [|apply lookup_insert_eq|done].
      cbv zeta. cbn [snd likes set_likes].
      rewrite (findIndex_app_fresh _ (likes p) user Hnone)
        by apply String.eqb_refl.
      unfold Posts in *. rewrite insert_insert_eq.
      replace (delete (length (likes p)) (likes p ++ [user])) with (likes p)
        by (symmetry; rewrite delete_middle; apply app_nil_r).
      apply insert_id. rewrite Hp. by destruct p.
Qed.

Lemma like_toggles_witness :
  ∃ l, like "F2" "p1" board
       = (mkReply 200 (JLikes l), <["p1"%string := set_likes l thread]> board)
       ∧ NoDup l.
Proof.
  destruct (like_toggles "F2" "p1" board thread) as (l & H1 & H2 & _).
  - reflexivity.
  - reflexivity.
  - simpl. apply NoDup_singleton.
  - by exists l.
Defined.

(** X28. The comment count follows the comments. Whatever count was
    stored, a comment request that is answered 200 stores the post
    with the new comment in front of the others and with a count that
    is the number of its comments, and answers with that comment; the
    other posts, and the other fields of the post, are untouched. *)
Theorem comment_count_follows_comments (user id content newId : string)
    (posts posts' : Posts) (p : post) (r : Reply) :
  posts !! id = Some p →
  addComment user id content newId posts = (r, posts') →
  status r = 200 →
  let new := mkComment newId user content in
  r = mkReply 200 (JComment (Some new))
  ∧ content ≠ EmptyString
  ∧ posts' = <[id := mkPost (title p) (Forum.content p) (author p) (likes p)
                       (new :: comments p)
                       (Z.of_nat (S (length (comments p))))]> posts.
Proof.
  intros Hp. unfold addComment, check.
  destruct (String.eqb content EmptyString) eqn:Hc;
    [intros [= <- _]; done|].
  cbn [negb]. rewrite Hp. unfold save, pre_save.
  cbn [comments set_comments].
  rewrite bool_decide_true.
  2: { intros H. apply (f_equal length) in H. simpl in H. lia. }
  destruct (validate _); [|intros [= <- _]; done].
  unfold Posts in *. rewrite lookup_insert_eq.
  cbn [comments set_commentCount set_comments head].
  intros [= <- <-] _. cbn [title Forum.content author likes comments].
  repeat split. by apply String.eqb_neq.
Qed.

Lemma comment_count_follows_comments_witness :
  ∃ p', (addComment "F1" "p1" "Thanks" "c3" board).2 !! "p1"%string = Some p'
        ∧ commentCount p' = 3.
Proof.
  destruct (comment_count_follows_comments "F1" "p1" "Thanks" "c3" board
              (addComment "F1" "p1" "Thanks" "c3" board).2 thread
              (addComment "F1" "p1" "Thanks" "c3" board).1)
    as (_ & _ & H).
  - reflexivity.
  - reflexivity.
  - reflexivity.
  - rewrite H. eexists. split; [apply lookup_insert_eq|reflexivity].
Defined.

Lemma find_first {A} (f : A → bool) (l : list A) (x : A) :
  List.find f l = Some x → x ∈ l ∧ f x = true.
Proof.
  induction l as [|y l IH]; simpl; [done|].
  destruct (f y) eqn:E.
  - intros [= ->]. split; [by left|done].
  - intros H. destruct (IH H). split; [by right|done].
Qed.

(** X29. A comment is deleted by its author only. The first comment of
    the post with the given id decides: a request by anyone else, the
    author of the post included, is answered 401 and changes nothing;
    a comment id that the post does not have is answered 404. When the request is
    answered 200 the requester wrote that comment, the stored post has
    lost exactly the comments with that id, and its count is the
    number of the comments that are left. *)
Theorem comment_deleted_by_its_author_only (user id commentId : string)
    (posts : Posts) (p : post) :
  posts !! id = Some p →
  (List.find (λ c, String.eqb (c_id c) commentId) (comments p) = None →
     deleteComment user id commentId posts
     = (mkReply 404 (JMessage "Comment not found"), posts))
  ∧ (∀ c, List.find (λ c, String.eqb (c_id c) commentId) (comments p) = Some c →
       c_author c ≠ user →
       deleteComment user id commentId posts
       = (mkReply 401 (JMessage "Not authorized to delete this comment"), posts))
  ∧ (status (deleteComment user id commentId posts).1 = 200 →
       let rest := filter (λ c, c_id c ≠ commentId) (comments p) in
       (∃ c, c ∈ comments p ∧ c_id c = commentId ∧ c_author c = user)
       ∧ (length rest < length (comments p))%nat
       ∧ (deleteComment user id commentId posts).2
         = <[id := mkPost (title p) (content p) (author p) (likes p) rest
                     (Z.of_nat (length rest))]> posts).
Proof.
  intros Hp. unfold deleteComment. rewrite Hp. split; [|split].
  - by intros ->.
  - intros c -> Hne. by rewrite bool_decide_true.
  - destruct (List.find _ _) as [c|] eqn:Hf; [|done].
    apply find_first in Hf as [Hin Hid]. apply String.eqb_eq in Hid.
    case_bool_decide as Hau; [done|].
    assert (Hu : c_author c = user) by (by destruct (decide (c_author c = user))).
    set (rest := filter (λ c, c_id c ≠ commentId) (comments p)).
    assert (Hlen : (length rest < length (comments p))%nat).
    { unfold rest. clear -Hin Hid. induction Hin as [c l|c y l Hin IH].
      - rewrite filter_cons, decide_False by (intros H; by apply H).
        simpl. pose proof (length_filter (λ c, c_id c ≠ commentId) l). lia.
      - rewrite filter_cons. destruct (decide _); simpl; [|specialize (IH Hid)];
          try (specialize (IH Hid)); lia. }
    unfold save, pre_save. cbn [comments set_comments]. fold rest.
    rewrite bool_decide_true.
    2: { intros H. apply (f_equal length) in H. lia. }
    destruct (validate _); [|done].
    intros _. cbn [snd]. split; [by exists c|]. split; [done|].
    reflexivity.
Qed.

Lemma comment_deleted_by_its_author_only_witness :
  deleteComment "F1" "p1" "c2" board
  = (mkReply 401 (JMessage "Not authorized to delete this comment"), board).
Proof.
  refine (proj1 (proj2 (comment_deleted_by_its_author_only "F1" "p1" "c2" board
                          thread _))
            (mkComment "c2" "F2" "Copper") _ _).
  - reflexivity.
  - reflexivity.
  - simpl. discriminate.
Defined.

(** X30. A post is deleted by its author only: anyone else is answered
    401 and the collection is unchanged, an unknown id is answered 404;
    a deletion that is answered 200 was asked by the author, removes
    that post and no other. *)
Theorem post_deleted_by_its_author_only (user id : string) (posts : Posts) :
  (posts !! id = None →
     deletePost user id posts = (mkReply 404 (JMessage "Post not found"), posts))
  ∧ (∀ p, posts !! id = Some p → author p ≠ user →
       deletePost user id posts
       = (mkReply 401 (JMessage "Not authorized to delete this post"), posts))
  ∧ (status (deletePost user id posts).1 = 200 →
       (∃ p, posts !! id = Some p ∧ author p = user)
       ∧ (deletePost user id posts).2 !! id = None
       ∧ ∀ other, other ≠ id →
           (deletePost user id posts).2 !! other = posts !! other).
Proof.
  unfold deletePost. split; [|split].
  - by intros ->.
  - intros p -> Hne. by rewrite bool_decide_true.
  - destruct (posts !! id) as [p|] eqn:Hp; [|done].
    case_bool_decide as Hau; [done|]. intros _. cbn [snd].
    split; [|split].
    + exists p. split; [done|]. by destruct (decide (author p = user)).
    + apply lookup_delete_eq.
    + intros other Hne. by apply lookup_delete_ne.
Qed.

Lemma post_deleted_by_its_author_only_witness :
  deletePost "F2" "p1" board
  = (mkReply 401 (JMessage "Not authorized to delete this post"), board).
Proof.
  refine (proj1 (proj2 (post_deleted_by_its_author_only "F2" "p1" board))
            thread _ _).
  - reflexivity.
  - simpl. discriminate.
Defined.

End ForumRoutes.


Lemma checkout_keeps_carts_well_formed_witness :
  cartsWellFormed (Checkout.after (Checkout.checkout "u1" Ex.req Ex.db2).2).
Proof.
  exact (checkout_keeps_carts_well_formed "u1" Ex.req Ex.db2 wellFormed_db2).
Defined.
